(** * HRM-API authentication module: sessions, refresh rotation, identity gate

    A shallow embedding of [AuthService] (register, login, logout,
    refreshTokens, changePassword, generateTokens, saveRefreshToken) and of
    [JwtStrategy.validate], over the relational schema of the first
    migration ([User], [UserTokens] and their unique indexes).

    The service is written once against the interfaces it is injected with
    (PrismaService, JwtService, argon2, ConfigService).  A reference store
    [Db.prisma] implements the PrismaService interface over two row lists
    with the primary keys, unique indexes and foreign key of the migration. *)

From Stdlib Require Import ZArith List String Ascii Bool Lia DecimalString.
Import ListNotations.
Open Scope string_scope.
Open Scope Z_scope.

Set Implicit Arguments.

(** ** Rows of the two tables (migration 20251015095653_init) *)

Module User.
Record t := mk {
  id : Z;
  email : string;
  password : string;
  username : string;
  isLocked : bool;
  createdAt : Z;
  updatedAt : Z
}.
End User.

Module UserTokens.
Record t := mk {
  id : Z;
  userId : Z;
  refreshToken : string;
  userAgent : string;
  ipAddress : string;
  deviceInfo : string;
  lastUsedAt : Z;
  expiresAt : Z;
  createdAt : Z;
  updatedAt : Z
}.
End UserTokens.

(** ** Exceptions and the request monad *)

(** Errors raised by the Prisma client. *)
Inductive PrismaError :=
| P2002 (target : string)          (* unique constraint failed on [target] *)
| P2003 (field : string)           (* foreign key constraint failed *)
| P2025                            (* record to update or delete not found *)
| PrismaFailure (message : string) (* any other client or connection failure *).

(** What a service method can throw. *)
Inductive Exn :=
| ConflictException (message : string)
| BadRequestException (message : string)
| UnauthorizedException (message : string)
| PrismaClientError (e : PrismaError)
| TypeError (message : string)
| Error (message : string).

Inductive Outcome (E A : Type) :=
| Ok (a : A)
| Fail (e : E).
Arguments Ok {E A} a.
Arguments Fail {E A} e.

(** A computation over a store [S]: it ends normally or by an exception, and
    in both cases leaves a store behind (writes made before a [throw] stay). *)
Definition M (E S A : Type) := S -> Outcome E A * S.

Definition ret {E S A} (a : A) : M E S A := fun s => (Ok a, s).
Definition throw {E S A} (e : E) : M E S A := fun s => (Fail e, s).
Definition bind {E S A B} (m : M E S A) (k : A -> M E S B) : M E S B :=
  fun s => match m s with
           | (Ok a, s') => k a s'
           | (Fail e, s') => (Fail e, s')
           end.
Definition try_catch {E S A} (m : M E S A) (h : E -> M E S A) : M E S A :=
  fun s => match m s with
           | (Ok a, s') => (Ok a, s')
           | (Fail e, s') => h e s'
           end.
Definition map_error {E E' S A} (f : E -> E') (m : M E S A) : M E' S A :=
  fun s => match m s with
           | (Ok a, s') => (Ok a, s')
           | (Fail e, s') => (Fail (f e), s')
           end.

Notation "x <- m ;; k" := (bind m (fun x => k))
  (at level 61, m at next level, right associativity).
Notation "m ;;; k" := (bind m (fun _ => k))
  (at level 61, right associativity).

(** ** Injected collaborators *)

(** The fields of a [UserTokens] row written by [userTokens.update] in
    refreshTokens. *)
Record UserTokensUpdate := {
  upd_refreshToken : string;
  upd_lastUsedAt : Z;
  upd_expiresAt : Z
}.

Record UserCreateInput := {
  uc_email : string;
  uc_username : string;
  uc_password : string;
  uc_isLocked : bool
}.

Record UserTokensCreateInput := {
  tc_userId : Z;
  tc_refreshToken : string;
  tc_userAgent : string;
  tc_ipAddress : string;
  tc_deviceInfo : string;
  tc_expiresAt : Z
}.

(** The calls the module makes on PrismaService, one field per call shape.
    [userTokens_findUnique] is the lookup by refreshToken with
    [include: { user: true }]. *)
Record PrismaService (S : Type) := {
  user_findUnique_email : string -> M PrismaError S (option User.t);
  user_findUnique_id : Z -> M PrismaError S (option User.t);
  user_create : UserCreateInput -> M PrismaError S User.t;
  user_update_password : Z -> string -> M PrismaError S User.t;
  userTokens_findUnique :
    string -> M PrismaError S (option (UserTokens.t * option User.t));
  userTokens_create : UserTokensCreateInput -> M PrismaError S UserTokens.t;
  userTokens_update : Z -> UserTokensUpdate -> M PrismaError S UserTokens.t;
  userTokens_delete : string -> M PrismaError S UserTokens.t;
  userTokens_deleteMany : Z -> option string -> M PrismaError S Z
}.

Record JwtPayload := {
  sub : Z;
  jp_username : string;
  jp_email : string;
  iat : option Z;
  exp : option Z
}.

(** JwtService.  Both calls read the codec's clock (first argument, in
    milliseconds).  [signAsync] resolves with the token or rejects with an
    Error carrying a message (an [expiresIn] it cannot read, for one);
    [verifyAsync] resolves with the decoded payload or rejects ([None]). *)
Record JwtService := {
  signAsync : Z -> JwtPayload -> string -> string -> Outcome string string;
  verifyAsync : Z -> string -> string -> option JwtPayload
}.

(** argon2: [hash] draws a salt, [verify hash plain]. *)
Record Argon2 := {
  hash : string -> string -> string;
  verify : string -> string -> bool
}.

(** ConfigService.get<string>(key). *)
Definition ConfigService := string -> option string.

(** [value || fallback] on an optional string: undefined and the empty
    string are both falsy. *)
Definition or_default (v : option string) (fallback : string) : string :=
  match v with
  | Some EmptyString => fallback
  | Some x => x
  | None => fallback
  end.

(** The clock readings of one request, in milliseconds since the epoch. *)
Record Instants := {
  at_expiryCheck : Z;  (* new Date() compared with expiresAt *)
  at_verify : Z;       (* the codec's clock inside verifyAsync *)
  at_signAccess : Z;   (* the codec's clock inside the first signAsync *)
  at_signRefresh : Z;  (* the codec's clock inside the second signAsync *)
  at_lastUsed : Z;     (* new Date() written to lastUsedAt *)
  at_expires : Z       (* Date.now() in the expiresAt expression *)
}.

(** ** Request and response shapes *)

Record RegisterDto := {
  reg_email : string;
  reg_username : string;
  reg_password : string
}.

Record LoginDto := {
  login_email : string;
  login_password : string
}.

Module Tokens.
Record t := mk {
  accessToken : string;
  refreshToken : string
}.
End Tokens.

Record RegisteredUser := {
  ru_id : Z;
  ru_email : string;
  ru_username : string;
  ru_createdAt : Z
}.

(** The identity projection: CurrentUserData. *)
Record CurrentUserData := {
  cu_id : Z;
  cu_username : string;
  cu_email : string
}.

Record LoginData := {
  ld_user : CurrentUserData;
  ld_accessToken : string;
  ld_refreshToken : string
}.

(** The columns selected by the lookup of JwtStrategy.validate. *)
Record SelectedUser := {
  sel_id : Z;
  sel_email : string;
  sel_username : string;
  sel_isLocked : bool
}.

Definition select_validate (u : User.t) : SelectedUser :=
  {| sel_id := User.id u;
     sel_email := User.email u;
     sel_username := User.username u;
     sel_isLocked := User.isLocked u |}.

(** What the strategy's extractors read from a request. *)
Record Request := {
  cookie_access_token : option string;
  bearer_token : option string
}.

Record Response (D : Type) := {
  success : bool;
  message : string;
  data : D
}.

(** 7 * 24 * 60 * 60 * 1000 *)
Definition SEVEN_DAYS_MS : Z := 7 * 24 * 60 * 60 * 1000.

(** The data of the update made by refreshTokens, for the pair [tokens]
    minted at [now]. *)
Definition rotation (now : Instants) (tokens : Tokens.t) : UserTokensUpdate :=
  {| upd_refreshToken := Tokens.refreshToken tokens;
     upd_lastUsedAt := at_lastUsed now;
     upd_expiresAt := at_expires now + SEVEN_DAYS_MS |}.

(** ** AuthService *)

Section AuthService.
Context {S : Type}.
Variable prisma : PrismaService S.
Variable jwtService : JwtService.
Variable argon2 : Argon2.
Variable configService : ConfigService.

(** A rejected Prisma promise surfaces as an exception of the caller. *)
Definition await {A} (m : M PrismaError S A) : M Exn S A :=
  map_error PrismaClientError m.

Definition register_try (registerDto : RegisterDto) (salt : string)
  : M Exn S (Response RegisteredUser) :=
  existingUserByEmail <-
    await (user_findUnique_email prisma (reg_email registerDto)) ;;
  match existingUserByEmail with
  | Some _ => throw (ConflictException "Email already exists")
  | None =>
      let hashedPassword := hash argon2 salt (reg_password registerDto) in
      user <- await (user_create prisma
                       {| uc_email := reg_email registerDto;
                          uc_username := reg_username registerDto;
                          uc_password := hashedPassword;
                          uc_isLocked := false |}) ;;
      ret {| success := true;
             message := "User registered successfully";
             data := {| ru_id := User.id user;
                        ru_email := User.email user;
                        ru_username := User.username user;
                        ru_createdAt := User.createdAt user |} |}
  end.

Definition register_catch (error : Exn) : M Exn S (Response RegisteredUser) :=
  match error with
  | ConflictException _ => throw error
  | _ => throw (BadRequestException "Failed to register user")
  end.

Definition register (registerDto : RegisterDto) (salt : string)
  : M Exn S (Response RegisteredUser) :=
  try_catch (register_try registerDto salt) register_catch.

Definition jwtSecret : string :=
  or_default (configService "JWT_SECRET") "your-secret-jwt-key".
Definition jwtRefreshSecret : string :=
  or_default (configService "JWT_REFRESH_SECRET") "your-refresh-secret".
Definition jwtExpiresIn : string :=
  or_default (configService "JWT_EXPIRES_IN") "15m".
Definition jwtRefreshExpiresIn : string :=
  or_default (configService "JWT_REFRESH_EXPIRES_IN") "7d".

(** An awaited promise that touches no store: the caller continues with
    its value or throws its rejection. *)
Definition settled {A} (o : Outcome Exn A) : M Exn S A := fun s => (o, s).

(** Both signAsync calls are started before [Promise.all] is awaited; it
    rejects with the first rejection, so that of the access token wins when
    both calls reject. *)
Definition generateTokens (now : Instants)
           (userId : Z) (username email : string) : Outcome Exn Tokens.t :=
  let payload := {| sub := userId; jp_username := username;
                    jp_email := email; iat := None; exp := None |} in
  match signAsync jwtService (at_signAccess now) payload
                  jwtSecret jwtExpiresIn,
        signAsync jwtService (at_signRefresh now) payload
                  jwtRefreshSecret jwtRefreshExpiresIn with
  | Ok accessToken, Ok refreshToken =>
      Ok {| Tokens.accessToken := accessToken;
            Tokens.refreshToken := refreshToken |}
  | Fail m, _ => Fail (Error m)
  | Ok _, Fail m => Fail (Error m)
  end.

Definition saveRefreshToken (now : Instants) (userId : Z)
           (refreshToken userAgent ipAddress : string) : M Exn S unit :=
  let expiresAt := at_expires now + SEVEN_DAYS_MS in
  await (userTokens_create prisma
           {| tc_userId := userId;
              tc_refreshToken := refreshToken;
              tc_userAgent := userAgent;
              tc_ipAddress := ipAddress;
              tc_deviceInfo := userAgent;
              tc_expiresAt := expiresAt |}) ;;;
  ret tt.

Definition login (now : Instants) (loginDto : LoginDto)
           (userAgent ipAddress : string) : M Exn S (Response LoginData) :=
  user <- await (user_findUnique_email prisma (login_email loginDto)) ;;
  match user with
  | None => throw (UnauthorizedException "Invalid email or password")
  | Some user =>
      if User.isLocked user then
        throw (UnauthorizedException "Account is locked")
      else
        let isPasswordValid :=
          verify argon2 (User.password user) (login_password loginDto) in
        if negb isPasswordValid then
          throw (UnauthorizedException "Invalid email or password")
        else
          tokens <- settled (generateTokens now (User.id user)
                               (User.username user) (User.email user)) ;;
          saveRefreshToken now (User.id user) (Tokens.refreshToken tokens)
                           userAgent ipAddress ;;;
          ret {| success := true;
                 message := "User logged in successfully";
                 data := {| ld_user := {| cu_id := User.id user;
                                          cu_username := User.username user;
                                          cu_email := User.email user |};
                            ld_accessToken := Tokens.accessToken tokens;
                            ld_refreshToken := Tokens.refreshToken tokens |} |}
  end.

Definition logout (userId : Z) (refreshToken : string)
  : M Exn S (Response unit) :=
  await (userTokens_deleteMany prisma userId (Some refreshToken)) ;;;
  ret {| success := true; message := "Logout successful"; data := tt |}.

Definition refreshTokens (now : Instants) (refreshToken : string)
  : M Exn S (Response Tokens.t) :=
  tokenRecord <- await (userTokens_findUnique prisma refreshToken) ;;
  match tokenRecord with
  | None => throw (UnauthorizedException "Invalid refresh token")
  | Some (tokenRecord, user) =>
      if UserTokens.expiresAt tokenRecord <? at_expiryCheck now then
        await (userTokens_delete prisma refreshToken) ;;;
        throw (UnauthorizedException "Refresh token expired")
      else
        match verifyAsync jwtService (at_verify now) refreshToken
                          jwtRefreshSecret with
        | None => throw (UnauthorizedException "Invalid refresh token")
        | Some _ =>
            match user with
            | None =>
                throw (TypeError "Cannot read properties of null")
            | Some user =>
                tokens <- settled (generateTokens now (User.id user)
                                     (User.username user)
                                     (User.email user)) ;;
                await (userTokens_update prisma (UserTokens.id tokenRecord)
                         {| upd_refreshToken := Tokens.refreshToken tokens;
                            upd_lastUsedAt := at_lastUsed now;
                            upd_expiresAt :=
                              at_expires now + SEVEN_DAYS_MS |}) ;;;
                ret {| success := true;
                       message := "Tokens refreshed successfully";
                       data := tokens |}
            end
        end
  end.

Definition changePassword (userId : Z)
           (currentPassword newPassword confirmPassword salt : string)
  : M Exn S (Response unit) :=
  if negb (newPassword =? confirmPassword)%string then
    throw (ConflictException "New passwords do not match")
  else if (currentPassword =? newPassword)%string then
    throw (ConflictException
             "New password must be different from current password")
  else
    user <- await (user_findUnique_id prisma userId) ;;
    match user with
    | None => throw (UnauthorizedException "User not found")
    | Some user =>
        let isCurrentPasswordValid :=
          verify argon2 (User.password user) currentPassword in
        if negb isCurrentPasswordValid then
          throw (UnauthorizedException "Current password is incorrect")
        else
          let hashedNewPassword := hash argon2 salt newPassword in
          await (user_update_password prisma userId hashedNewPassword) ;;;
          await (userTokens_deleteMany prisma userId None) ;;;
          ret {| success := true;
                 message :=
                   "Password changed successfully. Please login again.";
                 data := tt |}
    end.

(** JwtStrategy.validate: runs once the access token has passed the
    signature and expiry checks of the strategy.  The lookup selects
    id, email, username and isLocked. *)
Definition validate (payload : JwtPayload) : M Exn S CurrentUserData :=
  user <- await (user_findUnique_id prisma (sub payload)) ;;
  match option_map select_validate user with
  | None => throw (UnauthorizedException "User not found")
  | Some user =>
      if sel_isLocked user then
        throw (UnauthorizedException "Account is locked")
      else
        ret {| cu_id := sel_id user;
               cu_username := sel_username user;
               cu_email := sel_email user |}
  end.

(** The strategy as configured in the constructor: the token is taken from
    the access_token cookie, else from the bearer header; it is verified
    with the access secret, expiry included; then [validate] runs. *)
Definition jwtFromRequest (request : Request) : option string :=
  match cookie_access_token request with
  | Some EmptyString | None => bearer_token request
  | Some token => Some token
  end.

Definition secretOrKey : string :=
  or_default (configService "JWT_SECRET") "your-secret-jwt-key".

Definition authenticate (now : Z) (request : Request)
  : M Exn S CurrentUserData :=
  match jwtFromRequest request with
  | None => throw (UnauthorizedException "Unauthorized")
  | Some token =>
      match verifyAsync jwtService now token secretOrKey with
      | None => throw (UnauthorizedException "Unauthorized")
      | Some payload => validate payload
      end
  end.

End AuthService.

(** The row data that register passes to [user.create]. *)
Definition new_user (argon2 : Argon2) (dto : RegisterDto) (salt : string)
  : UserCreateInput :=
  {| uc_email := reg_email dto;
     uc_username := reg_username dto;
     uc_password := hash argon2 salt (reg_password dto);
     uc_isLocked := false |}.

(** ** The reference store

    PrismaService and the Prisma schema are not among the sources; the
    migration is.  [Db] is the Credential Store of the specification over
    the two tables of the migration, with their primary keys, the unique
    indexes on User.email, User.username and UserTokens.refreshToken, and
    the foreign key from UserTokens.userId to User.id. *)

Module Db.

Record Store := {
  users : list User.t;
  userTokens : list UserTokens.t;
  User_id_seq : Z;
  UserTokens_id_seq : Z
}.

Definition set_users (s : Store) (us : list User.t) : Store :=
  {| users := us; userTokens := userTokens s;
     User_id_seq := User_id_seq s;
     UserTokens_id_seq := UserTokens_id_seq s |}.

Definition set_userTokens (s : Store) (ts : list UserTokens.t) : Store :=
  {| users := users s; userTokens := ts;
     User_id_seq := User_id_seq s;
     UserTokens_id_seq := UserTokens_id_seq s |}.

Definition has_email (e : string) (u : User.t) : bool :=
  (User.email u =? e)%string.
Definition has_username (n : string) (u : User.t) : bool :=
  (User.username u =? n)%string.
Definition has_id (i : Z) (u : User.t) : bool := User.id u =? i.
Definition has_token (t : string) (r : UserTokens.t) : bool :=
  (UserTokens.refreshToken r =? t)%string.
Definition has_row_id (i : Z) (r : UserTokens.t) : bool :=
  UserTokens.id r =? i.
Definition owned_by (u : Z) (r : UserTokens.t) : bool :=
  UserTokens.userId r =? u.

Definition find_user_by_email (e : string) (s : Store) : option User.t :=
  find (has_email e) (users s).
Definition find_user_by_id (i : Z) (s : Store) : option User.t :=
  find (has_id i) (users s).
Definition find_token (t : string) (s : Store) : option UserTokens.t :=
  find (has_token t) (userTokens s).

Section At.
(** The store's clock for CURRENT_TIMESTAMP defaults and updatedAt. *)
Variable ts : Z.

Definition user_findUnique_email (e : string)
  : M PrismaError Store (option User.t) :=
  fun s => (Ok (find_user_by_email e s), s).

Definition user_findUnique_id (i : Z)
  : M PrismaError Store (option User.t) :=
  fun s => (Ok (find_user_by_id i s), s).

(** INSERT INTO "User": the id is drawn from the sequence (also when the
    statement then fails), the unique indexes on email and username are
    checked, the row is appended. *)
Definition user_create (d : UserCreateInput) : M PrismaError Store User.t :=
  fun s =>
    let s1 := {| users := users s; userTokens := userTokens s;
                 User_id_seq := User_id_seq s + 1;
                 UserTokens_id_seq := UserTokens_id_seq s |} in
    if existsb (has_email (uc_email d)) (users s) then
      (Fail (P2002 "email"), s1)
    else if existsb (has_username (uc_username d)) (users s) then
      (Fail (P2002 "username"), s1)
    else
      let u := {| User.id := User_id_seq s;
                  User.email := uc_email d;
                  User.password := uc_password d;
                  User.username := uc_username d;
                  User.isLocked := uc_isLocked d;
                  User.createdAt := ts;
                  User.updatedAt := ts |} in
      (Ok u, set_users s1 (users s ++ [u])).

Definition with_password (pw : string) (u : User.t) : User.t :=
  {| User.id := User.id u;
     User.email := User.email u;
     User.password := pw;
     User.username := User.username u;
     User.isLocked := User.isLocked u;
     User.createdAt := User.createdAt u;
     User.updatedAt := ts |}.

Definition user_update_password (i : Z) (pw : string)
  : M PrismaError Store User.t :=
  fun s =>
    match find_user_by_id i s with
    | None => (Fail P2025, s)
    | Some u =>
        (Ok (with_password pw u),
         set_users s (map (fun x => if has_id i x then with_password pw x
                                    else x) (users s)))
    end.

Definition userTokens_findUnique (t : string)
  : M PrismaError Store (option (UserTokens.t * option User.t)) :=
  fun s =>
    (Ok (option_map
           (fun r => (r, find_user_by_id (UserTokens.userId r) s))
           (find_token t s)), s).

(** INSERT INTO "UserTokens": foreign key on userId, unique index on
    refreshToken; lastUsedAt and createdAt default to the store's clock. *)
Definition userTokens_create (d : UserTokensCreateInput)
  : M PrismaError Store UserTokens.t :=
  fun s =>
    let s1 := {| users := users s; userTokens := userTokens s;
                 User_id_seq := User_id_seq s;
                 UserTokens_id_seq := UserTokens_id_seq s + 1 |} in
    if existsb (has_token (tc_refreshToken d)) (userTokens s) then
      (Fail (P2002 "refreshToken"), s1)
    else if negb (existsb (has_id (tc_userId d)) (users s)) then
      (Fail (P2003 "userId"), s1)
    else
      let r := {| UserTokens.id := UserTokens_id_seq s;
                  UserTokens.userId := tc_userId d;
                  UserTokens.refreshToken := tc_refreshToken d;
                  UserTokens.userAgent := tc_userAgent d;
                  UserTokens.ipAddress := tc_ipAddress d;
                  UserTokens.deviceInfo := tc_deviceInfo d;
                  UserTokens.lastUsedAt := ts;
                  UserTokens.expiresAt := tc_expiresAt d;
                  UserTokens.createdAt := ts;
                  UserTokens.updatedAt := ts |} in
      (Ok r, set_userTokens s1 (userTokens s ++ [r])).

Definition rotated (d : UserTokensUpdate) (r : UserTokens.t)
  : UserTokens.t :=
  {| UserTokens.id := UserTokens.id r;
     UserTokens.userId := UserTokens.userId r;
     UserTokens.refreshToken := upd_refreshToken d;
     UserTokens.userAgent := UserTokens.userAgent r;
     UserTokens.ipAddress := UserTokens.ipAddress r;
     UserTokens.deviceInfo := UserTokens.deviceInfo r;
     UserTokens.lastUsedAt := upd_lastUsedAt d;
     UserTokens.expiresAt := upd_expiresAt d;
     UserTokens.createdAt := UserTokens.createdAt r;
     UserTokens.updatedAt := ts |}.

(** UPDATE "UserTokens" ... WHERE id = i: fails when no row has the id, or
    when another row already holds the new refreshToken. *)
Definition userTokens_update (i : Z) (d : UserTokensUpdate)
  : M PrismaError Store UserTokens.t :=
  fun s =>
    match find (has_row_id i) (userTokens s) with
    | None => (Fail P2025, s)
    | Some r =>
        if existsb (fun x => has_token (upd_refreshToken d) x
                             && negb (has_row_id i x)) (userTokens s)
        then (Fail (P2002 "refreshToken"), s)
        else
          (Ok (rotated d r),
           set_userTokens s
             (map (fun x => if has_row_id i x then rotated d x else x)
                  (userTokens s)))
    end.

Definition userTokens_delete (t : string)
  : M PrismaError Store UserTokens.t :=
  fun s =>
    match find_token t s with
    | None => (Fail P2025, s)
    | Some r =>
        (Ok r, set_userTokens s
                 (filter (fun x => negb (has_token t x)) (userTokens s)))
    end.

Definition deleteMany_matches (u : Z) (t : option string)
           (r : UserTokens.t) : bool :=
  owned_by u r && match t with
                  | Some t => has_token t r
                  | None => true
                  end.

Definition userTokens_deleteMany (u : Z) (t : option string)
  : M PrismaError Store Z :=
  fun s =>
    (Ok (Z.of_nat (List.length (filter (deleteMany_matches u t) (userTokens s)))),
     set_userTokens s
       (filter (fun x => negb (deleteMany_matches u t x)) (userTokens s))).

(** Modelled from the spec: the Credential Store behind PrismaService
    (the service class and the Prisma schema are missing from the sources),
    each call a single atomic statement on the tables of the migration. *)
Definition prisma : PrismaService Store :=
  Build_PrismaService
    user_findUnique_email user_findUnique_id
    user_create user_update_password
    userTokens_findUnique userTokens_create
    userTokens_update userTokens_delete userTokens_deleteMany.
End At.

Definition empty : Store :=
  {| users := []; userTokens := [];
     User_id_seq := 1; UserTokens_id_seq := 1 |}.

(** No row of the session table holds the string [t]. *)
Definition absent (t : string) (s : Store) : Prop :=
  forall x, In x (userTokens s) -> UserTokens.refreshToken x <> t.

(** The keys of the session table: primary key, unique index on
    refreshToken, ids below the sequence. *)
Record consistent (s : Store) : Prop := {
  row_ids_unique : NoDup (map UserTokens.id (userTokens s));
  tokens_unique : NoDup (map UserTokens.refreshToken (userTokens s));
  row_ids_drawn :
    Forall (fun x => UserTokens.id x < UserTokens_id_seq s) (userTokens s)
}.

(** The account [i] with its locked flag set to [b] (an administrative
    change, made outside this module). *)
Definition with_locked (b : bool) (u : User.t) : User.t :=
  {| User.id := User.id u;
     User.email := User.email u;
     User.password := User.password u;
     User.username := User.username u;
     User.isLocked := b;
     User.createdAt := User.createdAt u;
     User.updatedAt := User.updatedAt u |}.

Definition set_locked (i : Z) (b : bool) (s : Store) : Store :=
  set_users s (map (fun u => if has_id i u then with_locked b u else u)
                   (users s)).

End Db.

(** ** Durations of the configuration

    The TTL settings are strings such as 15m and 7d
    (docs/ENVIRONMENT_VARIABLES.md).  [duration_ms] gives the length in
    milliseconds of a setting made of decimal digits and one unit letter. *)

Definition digit_of (c : ascii) : option Z :=
  let n := Z.of_nat (nat_of_ascii c) in
  if (48 <=? n) && (n <=? 57) then Some (n - 48) else None.

Definition unit_ms (c : ascii) : option Z :=
  if (c =? "s")%char then Some 1000
  else if (c =? "m")%char then Some (60 * 1000)
  else if (c =? "h")%char then Some (60 * 60 * 1000)
  else if (c =? "d")%char then Some (24 * 60 * 60 * 1000)
  else if (c =? "w")%char then Some (7 * 24 * 60 * 60 * 1000)
  else None.

Fixpoint parse_duration (acc : Z) (s : string) : option Z :=
  match s with
  | EmptyString => None
  | String c rest =>
      match digit_of c with
      | Some d => parse_duration (10 * acc + d) rest
      | None =>
          match rest with
          | EmptyString => option_map (Z.mul acc) (unit_ms c)
          | _ => None
          end
      end
  end.

Definition duration_ms (s : string) : option Z :=
  match s with
  | EmptyString => None
  | String c _ =>
      match digit_of c with
      | Some _ => parse_duration 0 s
      | None => None
      end
  end.

(** ** A transparent token codec

    JwtService is a library; the service only calls it.  [PlainCodec] is an
    instance of the interface used to run the service on concrete inputs.
    It follows the Token Codec of the specification: [sign] yields a compact
    string embedding the claims, an issued-at time and an expiry time (in
    whole seconds, as the iat and exp claims of a JWT are), bound to the
    secret, and rejects a TTL that [duration_ms] cannot read; [check]
    rejects a string made with another secret or whose expiry has elapsed.
    It is not secure: the secret is written in the token. *)

Module PlainCodec.

Definition show (z : Z) : string := NilZero.string_of_int (Z.to_int z).
Definition read (s : string) : option Z :=
  option_map Z.of_int (NilZero.int_of_string s).

Fixpoint split_bar (cur : string) (s : string) : list string :=
  match s with
  | EmptyString => [cur]
  | String c rest =>
      if (c =? "|")%char then cur :: split_bar EmptyString rest
      else split_bar (cur ++ String c EmptyString) rest
  end.

Definition sign (now : Z) (p : JwtPayload) (secret ttl : string)
  : Outcome string string :=
  let issued := now / 1000 in
  match duration_ms ttl with
  | None =>
      Fail "expiresIn should be a number of seconds or string representing a timespan"
  | Some d =>
      let expiry := issued + d / 1000 in
      Ok (secret ++ "|" ++ show (sub p) ++ "|" ++ jp_username p ++ "|"
                 ++ jp_email p ++ "|" ++ show issued ++ "|" ++ show expiry)
  end.

Definition check (now : Z) (token secret : string) : option JwtPayload :=
  match split_bar EmptyString token with
  | [sec; i; u; e; issued; expiry] =>
      match read i, read issued, read expiry with
      | Some i, Some issued, Some expiry =>
          if (sec =? secret)%string && (now / 1000 <? expiry)
          then Some {| sub := i; jp_username := u; jp_email := e;
                       iat := Some issued; exp := Some expiry |}
          else None
      | _, _, _ => None
      end
  | _ => None
  end.

(** Modelled from the spec: the Token Codec (sign and verify with a secret
    and a TTL), which the sources reach through the JwtService library. *)
Definition jwt : JwtService :=
  {| signAsync := sign; verifyAsync := check |}.

End PlainCodec.

(** A transparent password hasher, for the same purpose. *)
Module PlainHasher.
Definition hash (salt plain : string) : string := salt ++ "$" ++ plain.
Fixpoint after_dollar (s : string) : string :=
  match s with
  | EmptyString => EmptyString
  | String c rest => if (c =? "$")%char then rest else after_dollar rest
  end.
Definition verify (digest plain : string) : bool :=
  (after_dollar digest =? plain)%string.
Definition argon2 : Argon2 := Build_Argon2 hash verify.
End PlainHasher.

(** A deployment that sets none of the JWT variables. *)
Definition no_config : ConfigService := fun _ => None.

(** ** A store that cannot be reached

    Every call is rejected by the client; the rows are whatever they were. *)

Module Outage.
Definition down {A} : M PrismaError Db.Store A :=
  fun s => (Fail (PrismaFailure "Can't reach database server"), s).
Definition prisma : PrismaService Db.Store :=
  Build_PrismaService
    (fun _ => down) (fun _ => down) (fun _ => down) (fun _ _ => down)
    (fun _ => down) (fun _ => down) (fun _ _ => down) (fun _ => down)
    (fun _ _ => down).
End Outage.

(** ** Sequences of requests *)

Inductive Call :=
| CallRegister (registerDto : RegisterDto) (salt : string)
| CallLogin (loginDto : LoginDto) (userAgent ipAddress : string)
| CallLogout (userId : Z) (refreshToken : string)
| CallRefresh (refreshToken : string)
| CallChangePassword (userId : Z)
  (currentPassword newPassword confirmPassword salt : string).

(** A request as the service sees it: the call, the clock readings made
    while serving it, and the store's clock. *)
Record Event := {
  ev_call : Call;
  ev_now : Instants;
  ev_ts : Z
}.

Section Serving.
Variable jwtService : JwtService.
Variable argon2 : Argon2.
Variable configService : ConfigService.

(** The store left behind by one request. *)
Definition serve (s : Db.Store) (e : Event) : Db.Store :=
  let db := Db.prisma (ev_ts e) in
  match ev_call e with
  | CallRegister dto salt => snd (register db argon2 dto salt s)
  | CallLogin dto ua ip =>
      snd (login db jwtService argon2 configService (ev_now e) dto ua ip s)
  | CallLogout u t => snd (logout db u t s)
  | CallRefresh t =>
      snd (refreshTokens db jwtService configService (ev_now e) t s)
  | CallChangePassword u cur new conf salt =>
      snd (changePassword db argon2 u cur new conf salt s)
  end.

Definition serve_all (s : Db.Store) (es : list Event) : Db.Store :=
  fold_left serve es s.

(** The refresh token minted while serving [e] is never the string [t]. *)
Definition never_mints (t : string) (e : Event) : Prop :=
  forall payload,
    signAsync jwtService (at_signRefresh (ev_now e)) payload
              (jwtRefreshSecret configService)
              (jwtRefreshExpiresIn configService) <> Ok t.

(** The refresh token handed out by serving [e] in [s], if any: the one in
    the response of a login or of a refresh that succeeds. *)
Definition issued (s : Db.Store) (e : Event) : option string :=
  let db := Db.prisma (ev_ts e) in
  match ev_call e with
  | CallLogin dto ua ip =>
      match fst (login db jwtService argon2 configService (ev_now e)
                       dto ua ip s) with
      | Ok resp => Some (ld_refreshToken (data resp))
      | Fail _ => None
      end
  | CallRefresh t =>
      match fst (refreshTokens db jwtService configService (ev_now e) t s) with
      | Ok resp => Some (Tokens.refreshToken (data resp))
      | Fail _ => None
      end
  | _ => None
  end.

(** No request of [es], served in turn from [s], hands out the string [t]. *)
Fixpoint never_issued (t : string) (s : Db.Store) (es : list Event) : Prop :=
  match es with
  | [] => True
  | e :: es => issued s e <> Some t /\ never_issued t (serve s e) es
  end.
End Serving.

(** ** Sample data *)

Module Sample.

(** All clock readings of a request equal to [t]. *)
Definition at_ (t : Z) : Instants :=
  {| at_expiryCheck := t; at_verify := t; at_signAccess := t;
     at_signRefresh := t; at_lastUsed := t; at_expires := t |}.

Definition one_day : ConfigService :=
  fun key => if (key =? "JWT_REFRESH_EXPIRES_IN")%string then Some "1d"
             else None.

(** A deployment whose refresh TTL is not a time span. *)
Definition unreadable_ttl : ConfigService :=
  fun key => if (key =? "JWT_REFRESH_EXPIRES_IN")%string then Some "soon"
             else None.

Definition alice_dto : RegisterDto :=
  {| reg_email := "a@x.com"; reg_username := "alice";
     reg_password := "Abc123!" |}.
Definition alice_login : LoginDto :=
  {| login_email := "a@x.com"; login_password := "Abc123!" |}.

(** register alice at time 0, then log her in at time 2000, under the
    configuration [cfg]. *)
Definition registered : Db.Store :=
  Eval vm_compute in
    snd (register (Db.prisma 0) PlainHasher.argon2 alice_dto "na" Db.empty).

Definition logged_in (cfg : ConfigService) : Db.Store :=
  snd (login (Db.prisma 2000) PlainCodec.jwt PlainHasher.argon2 cfg
             (at_ 2000) alice_login "curl" "10.0.0.1" registered).

Definition s_default : Db.Store := Eval vm_compute in logged_in no_config.
Definition s_one_day : Db.Store := Eval vm_compute in logged_in one_day.

(** The same store after an administrator locked alice. *)
Definition s_locked : Db.Store :=
  Eval vm_compute in Db.set_locked 1 true s_default.

(** A second registration: alice's username with another email. *)
Definition alice2_dto : RegisterDto :=
  {| reg_email := "a2@x.com"; reg_username := "alice";
     reg_password := "Xyz789!" |}.

Definition alice : User.t :=
  {| User.id := 1; User.email := "a@x.com"; User.password := "na$Abc123!";
     User.username := "alice"; User.isLocked := false;
     User.createdAt := 0; User.updatedAt := 0 |}.

(** alice's session row in [s_default]. *)
Definition session : UserTokens.t :=
  {| UserTokens.id := 1; UserTokens.userId := 1;
     UserTokens.refreshToken :=
       "your-refresh-secret|1|alice|a@x.com|2|604802";
     UserTokens.userAgent := "curl"; UserTokens.ipAddress := "10.0.0.1";
     UserTokens.deviceInfo := "curl"; UserTokens.lastUsedAt := 2000;
     UserTokens.expiresAt := 604802000; UserTokens.createdAt := 2000;
     UserTokens.updatedAt := 2000 |}.

(** The two requests that lead from the empty store to [s_default]. *)
Definition history : list Event :=
  [ {| ev_call := CallRegister alice_dto "na";
       ev_now := at_ 0; ev_ts := 0 |};
    {| ev_call := CallLogin alice_login "curl" "10.0.0.1";
       ev_now := at_ 2000; ev_ts := 2000 |} ].

(** alice logs in with her new password at time 20000. *)
Definition relogin : list Event :=
  [ {| ev_call :=
         CallLogin {| login_email := "a@x.com";
                      login_password := "Xyz789!" |} "curl" "10.0.0.1";
       ev_now := at_ 20000; ev_ts := 20000 |} ].

Definition alice_payload : JwtPayload :=
  {| sub := 1; jp_username := "alice"; jp_email := "a@x.com";
     iat := Some 2; exp := Some 902 |}.

Definition nobody_login : LoginDto :=
  {| login_email := "nobody@x.com"; login_password := "Abc123!" |}.
Definition alice_wrong_login : LoginDto :=
  {| login_email := "a@x.com"; login_password := "abc123!" |}.

Definition t_default : string :=
  "your-refresh-secret|1|alice|a@x.com|2|604802".
Definition t_one_day : string :=
  "your-refresh-secret|1|alice|a@x.com|2|86402".

End Sample.

(** ** AuthController

    The route handlers of auth.controller.ts.  Each handler writes its
    cookies after its last call that can reject, so the cookie writes are
    returned with the response body, in the order they are made. *)

(** What the handlers read from the Express request. *)
Record HttpRequest := {
  header_user_agent : option string;       (* req.headers['user-agent'] *)
  header_x_forwarded_for : option string;  (* req.headers['x-forwarded-for'] *)
  socket_remoteAddress : option string;    (* req.socket.remoteAddress *)
  cookie_refresh_token : option string     (* req.cookies?.refresh_token *)
}.

Record CookieOptions := {
  httpOnly : bool;
  secure : bool;
  sameSite : string;
  maxAge : Z
}.

Inductive CookieOp :=
| SetCookie (name value : string) (options : CookieOptions)
| ClearCookie (name : string).

(** The body of the login response: the tokens are left out. *)
Record LoginBody := {
  lb_user : CurrentUserData
}.

(** The body of GET /auth/me. *)
Record ProfileResponse := {
  pr_success : bool;
  pr_user : CurrentUserData
}.

Record ChangePasswordDto := {
  cp_currentPassword : string;
  cp_newPassword : string;
  cp_confirmPassword : string
}.

(** A string value in a condition: undefined and the empty string are
    falsy. *)
Definition truthy (v : option string) : option string :=
  match v with
  | Some EmptyString | None => None
  | Some x => Some x
  end.

(** [a || b] where [b] may be undefined too. *)
Definition or_else (a b : option string) : option string :=
  match truthy a with
  | Some x => Some x
  | None => b
  end.

(** [s.split(',')[0]]: the part of [s] before its first comma. *)
Fixpoint before_comma (s : string) : string :=
  match s with
  | EmptyString => EmptyString
  | String c rest =>
      if (c =? ",")%char then EmptyString else String c (before_comma rest)
  end.

Module AuthController.
Section Handlers.
Context {S : Type}.
Variable prisma : PrismaService S.
Variable jwtService : JwtService.
Variable argon2 : Argon2.
Variable configService : ConfigService.
(** process.env.NODE_ENV *)
Variable NODE_ENV : option string.

Definition production : bool :=
  match NODE_ENV with
  | Some v => (v =? "production")%string
  | None => false
  end.

Definition token_cookie (maxAge : Z) : CookieOptions :=
  {| httpOnly := true; secure := production; sameSite := "strict";
     maxAge := maxAge |}.

Definition register (registerDto : RegisterDto) (salt : string)
  : M Exn S (Response RegisteredUser) :=
  register prisma argon2 registerDto salt.

Definition userAgent_of (req : HttpRequest) : string :=
  or_default (header_user_agent req) "unknown".

Definition ipAddress_of (req : HttpRequest) : string :=
  or_default
    (or_else (option_map before_comma (header_x_forwarded_for req))
             (socket_remoteAddress req))
    "unknown".

Definition login (now : Instants) (loginDto : LoginDto) (req : HttpRequest)
  : M Exn S (Response LoginBody * list CookieOp) :=
  let userAgent := userAgent_of req in
  let ipAddress := ipAddress_of req in
  result <- login prisma jwtService argon2 configService now loginDto
                  userAgent ipAddress ;;
  ret ({| success := success result;
          message := message result;
          data := {| lb_user := ld_user (data result) |} |},
       [ SetCookie "access_token" (ld_accessToken (data result))
                   (token_cookie (15 * 60 * 1000));
         SetCookie "refresh_token" (ld_refreshToken (data result))
                   (token_cookie (7 * 24 * 60 * 60 * 1000)) ]).

Definition logout (user : CurrentUserData) (req : HttpRequest)
  : M Exn S (Response unit * list CookieOp) :=
  match truthy (cookie_refresh_token req) with
  | Some refreshToken =>
      logout prisma (cu_id user) refreshToken ;;; ret tt
  | None => ret tt
  end ;;;
  ret ({| success := true; message := "Logout successful"; data := tt |},
       [ ClearCookie "access_token"; ClearCookie "refresh_token" ]).

Definition refresh (now : Instants) (req : HttpRequest)
  : M Exn S (Response unit * list CookieOp) :=
  match truthy (cookie_refresh_token req) with
  | None => throw (UnauthorizedException "Refresh token not found")
  | Some refreshToken =>
      result <- refreshTokens prisma jwtService configService now
                              refreshToken ;;
      ret ({| success := success result;
              message := message result;
              data := tt |},
           [ SetCookie "access_token" (Tokens.accessToken (data result))
                       (token_cookie (15 * 60 * 1000));
             SetCookie "refresh_token" (Tokens.refreshToken (data result))
                       (token_cookie (7 * 24 * 60 * 60 * 1000)) ])
  end.

Definition getProfile (user : CurrentUserData) : ProfileResponse :=
  {| pr_success := true; pr_user := user |}.

Definition changePassword (user : CurrentUserData)
           (changePasswordDto : ChangePasswordDto) (salt : string)
  : M Exn S (Response unit * list CookieOp) :=
  result <- changePassword prisma argon2 (cu_id user)
              (cp_currentPassword changePasswordDto)
              (cp_newPassword changePasswordDto)
              (cp_confirmPassword changePasswordDto) salt ;;
  ret (result, [ ClearCookie "access_token"; ClearCookie "refresh_token" ]).

End Handlers.
End AuthController.

(** ** The user table across requests *)

Module Accounts.

(** What identifies an account and decides its standing: the columns this
    module never rewrites. *)
Definition standing (u : User.t) : Z * string * string * bool :=
  (User.id u, User.email u, User.username u, User.isLocked u).

(** The keys of the user table and the foreign key of the session table. *)
Record keys (s : Db.Store) : Prop := {
  user_ids_unique : NoDup (map User.id (Db.users s));
  emails_unique : NoDup (map User.email (Db.users s));
  usernames_unique : NoDup (map User.username (Db.users s));
  user_ids_drawn :
    Forall (fun u => User.id u < Db.User_id_seq s) (Db.users s);
  owners_exist :
    Forall (fun r => existsb (Db.has_id (UserTokens.userId r)) (Db.users s)
                     = true) (Db.userTokens s)
}.

End Accounts.

Definition is_login (e : Event) : bool :=
  match ev_call e with
  | CallLogin _ _ _ => true
  | _ => false
  end.

(** ** A second scenario: two users, two sessions *)

Module Scenario.

Definition bob_dto : RegisterDto :=
  {| reg_email := "b@x.com"; reg_username := "bob";
     reg_password := "Bob456!" |}.
Definition bob_login : LoginDto :=
  {| login_email := "b@x.com"; login_password := "Bob456!" |}.

(** From [Sample.s_default]: bob registers at time 3000 and logs in at time
    4000. *)
Definition more : list Event :=
  [ {| ev_call := CallRegister bob_dto "nb";
       ev_now := Sample.at_ 3000; ev_ts := 3000 |};
    {| ev_call := CallLogin bob_login "firefox" "10.0.0.2";
       ev_now := Sample.at_ 4000; ev_ts := 4000 |} ].

Definition two : Db.Store :=
  Eval vm_compute in
    serve_all PlainCodec.jwt PlainHasher.argon2 no_config
              Sample.s_default more.

Definition t_bob : string := "your-refresh-secret|2|bob|b@x.com|4|604804".

(** From [Sample.s_default]: bob has registered and not yet logged in. *)
Definition bob_registers : list Event :=
  [ {| ev_call := CallRegister bob_dto "nb";
       ev_now := Sample.at_ 3000; ev_ts := 3000 |} ].

Definition bob_registered : Db.Store :=
  Eval vm_compute in
    serve_all PlainCodec.jwt PlainHasher.argon2 no_config
              Sample.s_default bob_registers.

(** From [Sample.s_default]: alice logs in from a second device at time
    3000. *)
Definition second_device : list Event :=
  [ {| ev_call := CallLogin Sample.alice_login "phone" "10.0.0.9";
       ev_now := Sample.at_ 3000; ev_ts := 3000 |} ].

Definition two_devices : Db.Store :=
  Eval vm_compute in
    serve_all PlainCodec.jwt PlainHasher.argon2 no_config
              Sample.s_default second_device.

Definition alice_identity : CurrentUserData :=
  {| cu_id := 1; cu_username := "alice"; cu_email := "a@x.com" |}.
Definition bob_identity : CurrentUserData :=
  {| cu_id := 2; cu_username := "bob"; cu_email := "b@x.com" |}.

(** A browser behind two proxies, holding alice's refresh cookie. *)
Definition browser : HttpRequest :=
  {| header_user_agent := Some "Mozilla/5.0";
     header_x_forwarded_for := Some "203.0.113.7, 10.1.1.1";
     socket_remoteAddress := Some "10.1.1.1";
     cookie_refresh_token := Some Sample.t_default |}.

(** A client that sends no headers and no cookie. *)
Definition bare : HttpRequest :=
  {| header_user_agent := None;
     header_x_forwarded_for := None;
     socket_remoteAddress := None;
     cookie_refresh_token := None |}.

End Scenario.

(** The session row that a login served at store time [ts] inserts for
    [user]. *)
Definition opened_session (ts : Z) (now : Instants) (s : Db.Store)
           (user : User.t) (token ua ip : string) : UserTokens.t :=
  {| UserTokens.id := Db.UserTokens_id_seq s;
     UserTokens.userId := User.id user;
     UserTokens.refreshToken := token;
     UserTokens.userAgent := ua;
     UserTokens.ipAddress := ip;
     UserTokens.deviceInfo := ua;
     UserTokens.lastUsedAt := ts;
     UserTokens.expiresAt := at_expires now + SEVEN_DAYS_MS;
     UserTokens.createdAt := ts;
     UserTokens.updatedAt := ts |}.

(** The user row that a register call served at store time [ts] inserts. *)
Definition registered_user (argon2 : Argon2) (ts : Z) (s : Db.Store)
           (dto : RegisterDto) (salt : string) : User.t :=
  {| User.id := Db.User_id_seq s;
     User.email := reg_email dto;
     User.password := hash argon2 salt (reg_password dto);
     User.username := reg_username dto;
     User.isLocked := false;
     User.createdAt := ts;
     User.updatedAt := ts |}.

(** ** Basic facts about the store *)

Module DbFacts.
Import Db.

Lemma has_token_true t x :
  has_token t x = true <-> UserTokens.refreshToken x = t.
Proof. unfold has_token. apply String.eqb_eq. Qed.

Lemma has_token_false t x :
  has_token t x = false <-> UserTokens.refreshToken x <> t.
Proof. unfold has_token. apply String.eqb_neq. Qed.

Lemma has_row_id_true i x : has_row_id i x = true <-> UserTokens.id x = i.
Proof. unfold has_row_id. apply Z.eqb_eq. Qed.

Lemma find_token_none t s : find_token t s = None <-> absent t s.
Proof.
  unfold find_token, absent. split.
  - intros H x Hx. apply has_token_false. exact (find_none _ _ H x Hx).
  - intros H. destruct (find (has_token t) (userTokens s)) eqn:E; auto.
    apply find_some in E. destruct E as [Hin Ht].
    apply has_token_true in Ht. elim (H _ Hin Ht).
Qed.

Lemma find_token_some t s r :
  find_token t s = Some r ->
  In r (userTokens s) /\ UserTokens.refreshToken r = t.
Proof.
  unfold find_token. intros H. apply find_some in H.
  destruct H as [Hin Ht]. split; auto. now apply has_token_true.
Qed.

Lemma existsb_has_token t s :
  existsb (has_token t) (userTokens s) = false <-> absent t s.
Proof.
  unfold absent. split.
  - intros H x Hx E. apply has_token_true in E.
    assert (existsb (has_token t) (userTokens s) = true)
      by (apply existsb_exists; eauto).
    congruence.
  - intros H. destruct (existsb (has_token t) (userTokens s)) eqn:E; auto.
    apply existsb_exists in E. destruct E as [x [Hx Ht]].
    apply has_token_true in Ht. elim (H _ Hx Ht).
Qed.

(** Deleting rows keeps a key column free of duplicates. *)
Lemma keys_unique_after_delete {R K} (key : R -> K) (keep : R -> bool) rows :
  NoDup (map key rows) -> NoDup (map key (filter keep rows)).
Proof.
  intros Hnd. induction rows as [|r rows IH]; simpl in *; [constructor|].
  apply NoDup_cons_iff in Hnd. destruct Hnd as [Hfresh Hrest].
  destruct (keep r); simpl; [|now apply IH].
  apply NoDup_cons_iff. split; [|now apply IH].
  rewrite in_map_iff in *. intros (x & Hk & Hx).
  apply Hfresh. exists x. apply filter_In in Hx. tauto.
Qed.

(** In a table with unique tokens, the row found by token is the only one
    that holds it. *)
Lemma unique_holder (l : list UserTokens.t) x y :
  NoDup (map UserTokens.refreshToken l) ->
  In x l -> In y l ->
  UserTokens.refreshToken x = UserTokens.refreshToken y -> x = y.
Proof.
  induction l as [|a l IH]; simpl; intros Hnd Hx Hy E; [contradiction|].
  inversion Hnd as [|? ? Hn Hd]; subst.
  destruct Hx as [Hx|Hx], Hy as [Hy|Hy]; subst; auto.
  - elim Hn. rewrite E. now apply in_map.
  - elim Hn. rewrite <- E. now apply in_map.
Qed.

End DbFacts.

(** ** generateTokens *)

(** The pair is returned exactly when both signAsync calls resolve, and it
    holds what they resolved with. *)
Lemma generateTokens_resolves jwt cfg now i u e tokens :
  generateTokens jwt cfg now i u e = Ok tokens <->
  signAsync jwt (at_signAccess now)
            {| sub := i; jp_username := u; jp_email := e;
               iat := None; exp := None |}
            (jwtSecret cfg) (jwtExpiresIn cfg)
  = Ok (Tokens.accessToken tokens)
  /\ signAsync jwt (at_signRefresh now)
               {| sub := i; jp_username := u; jp_email := e;
                  iat := None; exp := None |}
               (jwtRefreshSecret cfg) (jwtRefreshExpiresIn cfg)
     = Ok (Tokens.refreshToken tokens).
Proof.
  unfold generateTokens.
  destruct (signAsync jwt (at_signAccess now) _ _ _) as [a|m];
    [destruct (signAsync jwt (at_signRefresh now) _ _ _) as [r|m']|];
    destruct tokens as [a' r']; simpl; split;
      try discriminate; try (intros [? ?]; discriminate).
  - intros H. inversion H. auto.
  - intros [Ha Hr]. inversion Ha. inversion Hr. reflexivity.
Qed.

(** It throws nothing but the Error of a rejected signAsync. *)
Lemma generateTokens_rejects jwt cfg now i u e err :
  generateTokens jwt cfg now i u e = Fail err -> exists m, err = Error m.
Proof.
  unfold generateTokens.
  destruct (signAsync jwt (at_signAccess now) _ _ _) as [a|m];
    [destruct (signAsync jwt (at_signRefresh now) _ _ _) as [r|m']|];
    intros H; inversion H; eauto.
Qed.

(** ** refreshTokens on the reference store *)

Section RefreshFacts.
Import Db.
Variable jwtService : JwtService.
Variable configService : ConfigService.

Local Abbreviation refresh ts now t :=
  (refreshTokens (prisma ts) jwtService configService now t).
Local Abbreviation mint now user :=
  (generateTokens jwtService configService now (User.id user)
                  (User.username user) (User.email user)).

(** The body of refreshTokens, call by call. *)
Lemma refreshTokens_unfold ts now t s :
  refresh ts now t s =
  match find_token t s with
  | None => (Fail (UnauthorizedException "Invalid refresh token"), s)
  | Some row =>
      if UserTokens.expiresAt row <? at_expiryCheck now then
        (Fail (UnauthorizedException "Refresh token expired"),
         set_userTokens s
           (filter (fun x => negb (has_token t x)) (userTokens s)))
      else
        match verifyAsync jwtService (at_verify now) t
                          (jwtRefreshSecret configService) with
        | None => (Fail (UnauthorizedException "Invalid refresh token"), s)
        | Some _ =>
            match find_user_by_id (UserTokens.userId row) s with
            | None =>
                (Fail (TypeError "Cannot read properties of null"), s)
            | Some user =>
                match mint now user with
                | Fail e => (Fail e, s)
                | Ok tokens =>
                    match userTokens_update ts (UserTokens.id row)
                            (rotation now tokens) s with
                    | (Ok _, s') =>
                        (Ok {| success := true;
                               message := "Tokens refreshed successfully";
                               data := tokens |}, s')
                    | (Fail e, s') => (Fail (PrismaClientError e), s')
                    end
                end
            end
        end
  end.
Proof.
  unfold refreshTokens, bind, await, map_error, throw, ret, settled; simpl.
  unfold userTokens_findUnique, userTokens_delete.
  destruct (find_token t s) as [row|] eqn:Hf; simpl; [|reflexivity].
  destruct (UserTokens.expiresAt row <? at_expiryCheck now); simpl.
  - rewrite Hf. reflexivity.
  - destruct (verifyAsync _ _ _ _); [|reflexivity].
    destruct (find_user_by_id _ s) as [user|]; [|reflexivity].
    destruct (mint now user) as [tokens|e]; [|reflexivity].
    unfold rotation.
    destruct (userTokens_update _ _ _ s) as [[?|?] ?]; reflexivity.
Qed.

Lemma userTokens_update_rows ts i d s r s' :
  userTokens_update ts i d s = (Ok r, s') ->
  s' = set_userTokens s
         (map (fun x => if has_row_id i x then rotated ts d x else x)
              (userTokens s))
  /\ (forall x, In x (userTokens s) ->
                UserTokens.refreshToken x = upd_refreshToken d ->
                UserTokens.id x = i).
Proof.
  unfold userTokens_update.
  destruct (find (has_row_id i) (userTokens s)); [|discriminate].
  destruct (existsb _ (userTokens s)) eqn:E; [discriminate|].
  intros H; inversion H; subst; clear H. split; [reflexivity|].
  intros x Hx Ht.
  destruct (has_row_id i x) eqn:Hi; [now apply DbFacts.has_row_id_true|].
  assert (existsb (fun x => has_token (upd_refreshToken d) x
                            && negb (has_row_id i x)) (userTokens s) = true).
  { apply existsb_exists. exists x. split; auto.
    rewrite Hi. simpl. rewrite andb_true_r.
    now apply DbFacts.has_token_true. }
  congruence.
Qed.

Lemma userTokens_update_fails ts i d s e s' :
  userTokens_update ts i d s = (Fail e, s') -> s' = s.
Proof.
  unfold userTokens_update.
  destruct (find (has_row_id i) (userTokens s)).
  - destruct (existsb _ (userTokens s)); intros H; inversion H; auto.
  - intros H; inversion H; auto.
Qed.

(** What a successful refresh did. *)
Lemma refresh_success ts now t s resp s' :
  refresh ts now t s = (Ok resp, s') ->
  exists row user tokens,
    find_token t s = Some row
    /\ at_expiryCheck now <= UserTokens.expiresAt row
    /\ verifyAsync jwtService (at_verify now) t
                   (jwtRefreshSecret configService) <> None
    /\ find_user_by_id (UserTokens.userId row) s = Some user
    /\ mint now user = Ok tokens
    /\ resp = {| success := true;
                 message := "Tokens refreshed successfully";
                 data := tokens |}
    /\ s' = set_userTokens s
              (map (fun x => if has_row_id (UserTokens.id row) x
                             then rotated ts (rotation now tokens) x
                             else x)
                   (userTokens s))
    /\ (forall x, In x (userTokens s) ->
                  UserTokens.refreshToken x = Tokens.refreshToken tokens ->
                  UserTokens.id x = UserTokens.id row).
Proof.
  rewrite refreshTokens_unfold.
  destruct (find_token t s) as [row|]; [|discriminate].
  destruct (UserTokens.expiresAt row <? at_expiryCheck now) eqn:Hexp;
    [discriminate|].
  destruct (verifyAsync _ _ _ _) eqn:Hv; [|discriminate].
  destruct (find_user_by_id _ s) as [user|] eqn:Hfu; [|discriminate].
  destruct (mint now user) as [tokens|m] eqn:Hm; [|discriminate].
  destruct (userTokens_update _ _ _ s) as [[r|e] s1] eqn:Hu; [|discriminate].
  intros H; inversion H; subst; clear H.
  apply userTokens_update_rows in Hu. destruct Hu as [Hs Hc].
  exists row, user, tokens. repeat split; auto.
  - apply Z.ltb_ge in Hexp. lia.
  - discriminate.
Qed.

End RefreshFacts.

(** ** Rotation (C1) *)

Lemma rotated_in_table ts d row l :
  In row l ->
  In (Db.rotated ts d row)
     (map (fun x => if Db.has_row_id (UserTokens.id row) x
                    then Db.rotated ts d x else x) l).
Proof.
  intros Hin. apply in_map_iff. exists row. split; auto.
  unfold Db.has_row_id. now rewrite Z.eqb_refl.
Qed.

Lemma others_in_table ts d i l x :
  In x l -> UserTokens.id x <> i ->
  In x (map (fun x => if Db.has_row_id i x then Db.rotated ts d x else x) l).
Proof.
  intros Hin Hne. apply in_map_iff. exists x. split; auto.
  unfold Db.has_row_id. destruct (UserTokens.id x =? i) eqn:E; auto.
  apply Z.eqb_eq in E. contradiction.
Qed.

Lemma unique_row_id (l : list UserTokens.t) x y :
  NoDup (map UserTokens.id l) ->
  In x l -> In y l -> UserTokens.id x = UserTokens.id y -> x = y.
Proof.
  induction l as [|a l IH]; simpl; intros Hnd Hx Hy E; [contradiction|].
  inversion Hnd as [|? ? Hn Hd]; subst.
  destruct Hx as [Hx|Hx], Hy as [Hy|Hy]; subst; auto.
  - elim Hn. rewrite E. now apply in_map.
  - elim Hn. rewrite <- E. now apply in_map.
Qed.

(** C1, amended.  A refresh call that succeeds found its session row,
    unexpired and with a valid signature, and updated the rows of that id in
    place: the row now carries the newly minted refresh token,
    lastUsedAt = now and expiresAt = now + 7 days (the constant of the code,
    whatever refresh TTL is configured); its id, owner and device columns are
    kept, the user table is untouched and the session table has as many rows
    as before.  In a store that respects the keys of the table every other
    row is left as it was. *)
Theorem refresh_rotates_in_place :
  forall jwt cfg ts now t s resp s',
    refreshTokens (Db.prisma ts) jwt cfg now t s = (Ok resp, s') ->
    exists row user,
      Db.find_token t s = Some row
      /\ at_expiryCheck now <= UserTokens.expiresAt row
      /\ verifyAsync jwt (at_verify now) t (jwtRefreshSecret cfg) <> None
      /\ Db.find_user_by_id (UserTokens.userId row) s = Some user
      /\ generateTokens jwt cfg now (User.id user)
                        (User.username user) (User.email user)
         = Ok (data resp)
      /\ Db.userTokens s'
         = map (fun x => if Db.has_row_id (UserTokens.id row) x
                         then Db.rotated ts (rotation now (data resp)) x
                         else x)
               (Db.userTokens s)
      /\ In {| UserTokens.id := UserTokens.id row;
               UserTokens.userId := UserTokens.userId row;
               UserTokens.refreshToken := Tokens.refreshToken (data resp);
               UserTokens.userAgent := UserTokens.userAgent row;
               UserTokens.ipAddress := UserTokens.ipAddress row;
               UserTokens.deviceInfo := UserTokens.deviceInfo row;
               UserTokens.lastUsedAt := at_lastUsed now;
               UserTokens.expiresAt := at_expires now + SEVEN_DAYS_MS;
               UserTokens.createdAt := UserTokens.createdAt row;
               UserTokens.updatedAt := ts |} (Db.userTokens s')
      /\ Db.users s' = Db.users s
      /\ List.length (Db.userTokens s') = List.length (Db.userTokens s)
      /\ map UserTokens.id (Db.userTokens s')
         = map UserTokens.id (Db.userTokens s)
      /\ (Db.consistent s ->
          forall x, In x (Db.userTokens s) -> x <> row ->
                    In x (Db.userTokens s')).
Proof.
  intros jwt cfg ts now t s resp s' H.
  apply refresh_success in H.
  destruct H as (row & user & tokens & Hf & Hexp & Hv & Hu & Hm & Hr & Hs & _).
  destruct (DbFacts.find_token_some _ _ Hf) as [Hin _].
  exists row, user. subst resp s'. simpl.
  repeat split; auto.
  - exact (rotated_in_table ts _ row _ Hin).
  - now rewrite length_map.
  - rewrite map_map. apply map_ext. intros x.
    destruct (Db.has_row_id _ x); reflexivity.
  - intros Hc x Hx Hne. apply others_in_table; auto.
    intros E. apply Hne.
    eapply unique_row_id; eauto. apply (Db.row_ids_unique Hc).
Qed.

(** The refresh served at time 5000 under [Sample.one_day]. *)
Lemma refresh_rotates_in_place_witness :
  exists resp s',
    refreshTokens (Db.prisma 5000) PlainCodec.jwt Sample.one_day
                  (Sample.at_ 5000) Sample.t_one_day Sample.s_one_day
    = (Ok resp, s')
    /\ exists row user,
      Db.find_token Sample.t_one_day Sample.s_one_day = Some row
      /\ Db.find_user_by_id (UserTokens.userId row) Sample.s_one_day
         = Some user
      /\ List.length (Db.userTokens s')
         = List.length (Db.userTokens Sample.s_one_day).
Proof.
  eexists. eexists. split.
  - vm_compute. reflexivity.
  - destruct (@refresh_rotates_in_place
                PlainCodec.jwt Sample.one_day 5000
                (Sample.at_ 5000) Sample.t_one_day Sample.s_one_day
                _ _ ltac:(vm_compute; reflexivity))
      as (row & user & Hf & _ & _ & Hu & _ & _ & _ & _ & Hl & _).
    exists row, user. split; [exact Hf|]. split; [exact Hu|exact Hl].
Defined.

(** C1 as stated fails: with JWT_REFRESH_EXPIRES_IN set to 1d the refresh TTL
    is 86400000 ms, yet the refresh served at time 5000 writes
    expiresAt = 5000 + 604800000. *)
Lemma refresh_expiry_is_not_now_plus_ttl :
  duration_ms (jwtRefreshExpiresIn Sample.one_day) = Some 86400000
  /\ (exists resp s',
         refreshTokens (Db.prisma 5000) PlainCodec.jwt Sample.one_day
                       (Sample.at_ 5000) Sample.t_one_day Sample.s_one_day
         = (Ok resp, s')
         /\ map UserTokens.refreshToken (Db.userTokens s')
            = [Tokens.refreshToken (data resp)]
         /\ map UserTokens.expiresAt (Db.userTokens s') = [604805000])
  /\ 604805000 <> at_expires (Sample.at_ 5000) + 86400000.
Proof.
  split; [reflexivity|]. split.
  - eexists. eexists. split; [vm_compute; reflexivity|].
    split; reflexivity.
  - vm_compute. discriminate.
Qed.

(** ** login on the reference store *)

Section LoginFacts.
Import Db.
Variable jwtService : JwtService.
Variable argon2 : Argon2.
Variable configService : ConfigService.

Lemma login_unfold ts now dto ua ip s :
  login (prisma ts) jwtService argon2 configService now dto ua ip s =
  match find_user_by_email (login_email dto) s with
  | None => (Fail (UnauthorizedException "Invalid email or password"), s)
  | Some user =>
      if User.isLocked user then
        (Fail (UnauthorizedException "Account is locked"), s)
      else if verify argon2 (User.password user) (login_password dto) then
        match generateTokens jwtService configService now
                (User.id user) (User.username user) (User.email user) with
        | Fail e => (Fail e, s)
        | Ok tokens =>
            match userTokens_create ts
                    {| tc_userId := User.id user;
                       tc_refreshToken := Tokens.refreshToken tokens;
                       tc_userAgent := ua;
                       tc_ipAddress := ip;
                       tc_deviceInfo := ua;
                       tc_expiresAt := at_expires now + SEVEN_DAYS_MS |} s with
            | (Ok _, s') =>
                (Ok {| success := true;
                       message := "User logged in successfully";
                       data :=
                         {| ld_user := {| cu_id := User.id user;
                                          cu_username := User.username user;
                                          cu_email := User.email user |};
                            ld_accessToken := Tokens.accessToken tokens;
                            ld_refreshToken := Tokens.refreshToken tokens |}
                    |}, s')
            | (Fail e, s') => (Fail (PrismaClientError e), s')
            end
        end
      else (Fail (UnauthorizedException "Invalid email or password"), s)
  end.
Proof.
  unfold login, saveRefreshToken, bind, await, map_error, throw, ret, settled;
    simpl.
  unfold user_findUnique_email.
  destruct (find_user_by_email (login_email dto) s) as [user|]; [|reflexivity].
  destruct (User.isLocked user); [reflexivity|].
  destruct (verify argon2 _ _); simpl; [|reflexivity].
  destruct (generateTokens _ _ _ _ _ _) as [tokens|e]; [|reflexivity].
  destruct (userTokens_create _ _ s) as [[?|?] ?]; reflexivity.
Qed.

Lemma userTokens_create_rows ts d s r s' :
  userTokens_create ts d s = (Ok r, s') ->
  userTokens s' = (userTokens s ++ [r])%list
  /\ users s' = users s
  /\ UserTokens.id r = UserTokens_id_seq s
  /\ UserTokens_id_seq s' = UserTokens_id_seq s + 1
  /\ UserTokens.userId r = tc_userId d
  /\ UserTokens.refreshToken r = tc_refreshToken d
  /\ UserTokens.userAgent r = tc_userAgent d
  /\ UserTokens.ipAddress r = tc_ipAddress d
  /\ UserTokens.deviceInfo r = tc_deviceInfo d
  /\ UserTokens.expiresAt r = tc_expiresAt d
  /\ absent (tc_refreshToken d) s.
Proof.
  unfold userTokens_create.
  destruct (existsb (has_token _) (userTokens s)) eqn:E; [discriminate|].
  destruct (negb _); [discriminate|].
  intros H; inversion H; subst; clear H; simpl.
  repeat split; auto. now apply DbFacts.existsb_has_token.
Qed.

Lemma userTokens_create_fails ts d s e s' :
  userTokens_create ts d s = (Fail e, s') ->
  userTokens s' = userTokens s /\ users s' = users s.
Proof.
  unfold userTokens_create.
  destruct (existsb (has_token _) (userTokens s));
    [intros H; inversion H; subst; auto|].
  destruct (negb _); intros H; inversion H; subst; auto.
Qed.

(** What a successful login did. *)
Lemma login_success ts now dto ua ip s resp s' :
  login (prisma ts) jwtService argon2 configService now dto ua ip s
  = (Ok resp, s') ->
  exists user row tokens,
    find_user_by_email (login_email dto) s = Some user
    /\ User.isLocked user = false
    /\ verify argon2 (User.password user) (login_password dto) = true
    /\ generateTokens jwtService configService now
         (User.id user) (User.username user) (User.email user) = Ok tokens
    /\ ld_refreshToken (data resp) = Tokens.refreshToken tokens
    /\ userTokens s' = (userTokens s ++ [row])%list
    /\ UserTokens.userId row = User.id user
    /\ UserTokens.refreshToken row = ld_refreshToken (data resp)
    /\ UserTokens.userAgent row = ua
    /\ UserTokens.ipAddress row = ip
    /\ UserTokens.deviceInfo row = ua
    /\ UserTokens.expiresAt row = at_expires now + SEVEN_DAYS_MS.
Proof.
  rewrite login_unfold.
  destruct (find_user_by_email (login_email dto) s) as [user|]; [|discriminate].
  destruct (User.isLocked user) eqn:Hl; [discriminate|].
  destruct (verify argon2 _ _) eqn:Hv; [|discriminate].
  destruct (generateTokens _ _ _ _ _ _) as [tokens|m] eqn:Hm; [|discriminate].
  destruct (userTokens_create _ _ s) as [[r|e] s1] eqn:Hc; [|discriminate].
  intros H; inversion H; subst; clear H. simpl.
  apply userTokens_create_rows in Hc. simpl in Hc.
  destruct Hc as (Hrows & _ & _ & _ & Hu & Ht & Hua & Hip & Hd & He & _).
  exists user, r, tokens. repeat split; auto.
Qed.

End LoginFacts.

(** ** The expiry written to the session row (C7) *)

(** C7, amended.  Under every configuration, the row created by a successful
    login and the row rewritten by a successful refresh carry
    expiresAt = now + 7 days, the constant written in saveRefreshToken and
    refreshTokens.  The configured refresh TTL (JWT_REFRESH_EXPIRES_IN,
    fallback 7d) is passed to the codec when the refresh token is signed, and
    only there; the two agree when the setting is absent or empty, since the
    fallback 7d denotes the same 604800000 ms. *)
Theorem session_expiry_is_seven_days :
  forall jwt argon2 cfg ts now,
    (forall dto ua ip s resp s',
        login (Db.prisma ts) jwt argon2 cfg now dto ua ip s = (Ok resp, s') ->
        exists row,
          Db.userTokens s' = (Db.userTokens s ++ [row])%list
          /\ UserTokens.refreshToken row = ld_refreshToken (data resp)
          /\ UserTokens.expiresAt row = at_expires now + SEVEN_DAYS_MS)
    /\ (forall t s resp s',
           refreshTokens (Db.prisma ts) jwt cfg now t s = (Ok resp, s') ->
           (exists x, In x (Db.userTokens s')
                      /\ UserTokens.refreshToken x
                         = Tokens.refreshToken (data resp))
           /\ forall x, In x (Db.userTokens s') ->
                        UserTokens.refreshToken x
                        = Tokens.refreshToken (data resp) ->
                        UserTokens.expiresAt x
                        = at_expires now + SEVEN_DAYS_MS)
    /\ (forall i u e tokens,
           generateTokens jwt cfg now i u e = Ok tokens ->
           signAsync jwt (at_signRefresh now)
                     {| sub := i; jp_username := u; jp_email := e;
                        iat := None; exp := None |}
                     (jwtRefreshSecret cfg) (jwtRefreshExpiresIn cfg)
           = Ok (Tokens.refreshToken tokens))
    /\ (or_default (cfg "JWT_REFRESH_EXPIRES_IN") "7d" = "7d" ->
        duration_ms (jwtRefreshExpiresIn cfg) = Some SEVEN_DAYS_MS)
    /\ SEVEN_DAYS_MS = 604800000.
Proof.
  intros jwt argon2 cfg ts now. repeat split.
  - intros dto ua ip s resp s' H. apply login_success in H.
    destruct H as (user & row & tokens & _ & _ & _ & _ & _ & Hrows & _ & Ht
                   & _ & _ & _ & He).
    exists row. auto.
  - apply refresh_success in H.
    destruct H as (row & user & tokens & Hf & _ & _ & _ & _ & Hr & Hs & _).
    destruct (DbFacts.find_token_some _ _ Hf) as [Hin _].
    subst resp s'. simpl.
    eexists. split; [exact (rotated_in_table ts _ row _ Hin)|reflexivity].
  - intros x Hx Ht. apply refresh_success in H.
    destruct H as (row & user & tokens & Hf & _ & _ & _ & _ & Hr & Hs & Hc).
    subst resp s'. simpl in *.
    apply in_map_iff in Hx. destruct Hx as (y & Hy & Hin).
    destruct (Db.has_row_id (UserTokens.id row) y) eqn:Hi.
    + subst x. reflexivity.
    + subst x. apply Hc in Ht; auto.
      apply DbFacts.has_row_id_true in Ht. congruence.
  - intros i u e tokens H. now apply generateTokens_resolves in H.
  - unfold jwtRefreshExpiresIn. intros ->. reflexivity.
Qed.

(** login at time 2000 and refresh at time 5000 with no configuration. *)
Lemma session_expiry_is_seven_days_witness :
  (exists resp s',
      login (Db.prisma 2000) PlainCodec.jwt PlainHasher.argon2 no_config
            (Sample.at_ 2000) Sample.alice_login "curl" "10.0.0.1"
            Sample.registered = (Ok resp, s')
      /\ map UserTokens.expiresAt (Db.userTokens s') = [2000 + SEVEN_DAYS_MS])
  /\ (exists resp s',
         refreshTokens (Db.prisma 5000) PlainCodec.jwt no_config
                       (Sample.at_ 5000) Sample.t_default Sample.s_default
         = (Ok resp, s')
         /\ map UserTokens.expiresAt (Db.userTokens s')
            = [5000 + SEVEN_DAYS_MS])
  /\ duration_ms (jwtRefreshExpiresIn no_config) = Some SEVEN_DAYS_MS.
Proof.
  destruct (session_expiry_is_seven_days PlainCodec.jwt PlainHasher.argon2
              no_config 2000 (Sample.at_ 2000)) as (Hlogin & _ & _ & Hd & _).
  destruct (session_expiry_is_seven_days PlainCodec.jwt PlainHasher.argon2
              no_config 5000 (Sample.at_ 5000)) as (_ & Hrefresh & _).
  split; [|split].
  - eexists. eexists. split; [vm_compute; reflexivity|].
    destruct (Hlogin Sample.alice_login "curl" "10.0.0.1" Sample.registered
                _ _ ltac:(vm_compute; reflexivity)) as (row & Hrows & _ & He).
    rewrite Hrows, map_app. simpl. rewrite He. reflexivity.
  - eexists. eexists. split; [vm_compute; reflexivity|].
    destruct (Hrefresh Sample.t_default Sample.s_default
                _ _ ltac:(vm_compute; reflexivity)) as (_ & Hall).
    vm_compute. reflexivity.
  - apply Hd. reflexivity.
Defined.

(** C7 as stated fails: with JWT_REFRESH_EXPIRES_IN set to 1d (86400000 ms)
    the login served at time 2000 persists expiresAt = 2000 + 604800000. *)
Lemma login_expiry_ignores_configured_ttl :
  duration_ms (jwtRefreshExpiresIn Sample.one_day) = Some 86400000
  /\ (exists resp s',
         login (Db.prisma 2000) PlainCodec.jwt PlainHasher.argon2
               Sample.one_day (Sample.at_ 2000) Sample.alice_login
               "curl" "10.0.0.1" Sample.registered = (Ok resp, s')
         /\ map UserTokens.refreshToken (Db.userTokens s')
            = [ld_refreshToken (data resp)]
         /\ map UserTokens.expiresAt (Db.userTokens s') = [604802000])
  /\ 604802000 <> at_expires (Sample.at_ 2000) + 86400000.
Proof.
  split; [reflexivity|]. split.
  - eexists. eexists. split; [vm_compute; reflexivity|].
    split; reflexivity.
  - vm_compute. discriminate.
Qed.

(** ** Failures of login (C4) *)

(** C4.  In every store, a login with an email that no user has and a login
    with the email of an unlocked user and a password that does not verify
    both fail with UnauthorizedException "Invalid email or password" and
    leave the store as it was, so the two errors are the same value.  A login
    for a locked user fails with UnauthorizedException "Account is locked"
    whatever password is supplied: the password is not looked at. *)
Theorem login_failures :
  forall jwt argon2 cfg s,
    (forall ts now dto ua ip,
        Db.find_user_by_email (login_email dto) s = None ->
        login (Db.prisma ts) jwt argon2 cfg now dto ua ip s
        = (Fail (UnauthorizedException "Invalid email or password"), s))
    /\ (forall ts now dto ua ip user,
           Db.find_user_by_email (login_email dto) s = Some user ->
           User.isLocked user = false ->
           verify argon2 (User.password user) (login_password dto) = false ->
           login (Db.prisma ts) jwt argon2 cfg now dto ua ip s
           = (Fail (UnauthorizedException "Invalid email or password"), s))
    /\ (forall ts1 now1 dto1 ua1 ip1 ts2 now2 dto2 ua2 ip2 user,
           Db.find_user_by_email (login_email dto1) s = None ->
           Db.find_user_by_email (login_email dto2) s = Some user ->
           User.isLocked user = false ->
           verify argon2 (User.password user) (login_password dto2) = false ->
           login (Db.prisma ts1) jwt argon2 cfg now1 dto1 ua1 ip1 s
           = login (Db.prisma ts2) jwt argon2 cfg now2 dto2 ua2 ip2 s)
    /\ (forall ts now dto ua ip user,
           Db.find_user_by_email (login_email dto) s = Some user ->
           User.isLocked user = true ->
           login (Db.prisma ts) jwt argon2 cfg now dto ua ip s
           = (Fail (UnauthorizedException "Account is locked"), s)).
Proof.
  intros jwt argon2 cfg s.
  assert (Habsent : forall ts now dto ua ip,
             Db.find_user_by_email (login_email dto) s = None ->
             login (Db.prisma ts) jwt argon2 cfg now dto ua ip s
             = (Fail (UnauthorizedException "Invalid email or password"), s)).
  { intros ts now dto ua ip Hf. rewrite login_unfold, Hf. reflexivity. }
  assert (Hwrong : forall ts now dto ua ip user,
             Db.find_user_by_email (login_email dto) s = Some user ->
             User.isLocked user = false ->
             verify argon2 (User.password user) (login_password dto) = false ->
             login (Db.prisma ts) jwt argon2 cfg now dto ua ip s
             = (Fail (UnauthorizedException "Invalid email or password"), s)).
  { intros ts now dto ua ip user Hf Hl Hv.
    rewrite login_unfold, Hf, Hl, Hv. reflexivity. }
  split; [exact Habsent|]. split; [exact Hwrong|]. split.
  - intros ts1 now1 dto1 ua1 ip1 ts2 now2 dto2 ua2 ip2 user H1 H2 Hl Hv.
    rewrite (Habsent ts1 now1 dto1 ua1 ip1 H1).
    rewrite (Hwrong ts2 now2 dto2 ua2 ip2 user H2 Hl Hv). reflexivity.
  - intros ts now dto ua ip user Hf Hl.
    rewrite login_unfold, Hf, Hl. reflexivity.
Qed.

(** Logins against the sample stores: an unknown email, a wrong password
    for alice, and alice locked with her right password. *)
Lemma login_failures_witness :
  login (Db.prisma 9000) PlainCodec.jwt PlainHasher.argon2 no_config
        (Sample.at_ 9000) Sample.nobody_login "curl" "10.0.0.1"
        Sample.s_default
  = login (Db.prisma 9500) PlainCodec.jwt PlainHasher.argon2 no_config
          (Sample.at_ 9500) Sample.alice_wrong_login "curl" "10.0.0.2"
          Sample.s_default
  /\ login (Db.prisma 9000) PlainCodec.jwt PlainHasher.argon2 no_config
           (Sample.at_ 9000) Sample.alice_wrong_login "curl" "10.0.0.1"
           Sample.s_default
     = (Fail (UnauthorizedException "Invalid email or password"),
        Sample.s_default)
  /\ login (Db.prisma 9000) PlainCodec.jwt PlainHasher.argon2 no_config
           (Sample.at_ 9000) Sample.alice_login "curl" "10.0.0.1"
           Sample.s_locked
     = (Fail (UnauthorizedException "Account is locked"), Sample.s_locked).
Proof.
  destruct (login_failures PlainCodec.jwt PlainHasher.argon2 no_config
              Sample.s_default) as (_ & Hwrong & Hsame & _).
  destruct (login_failures PlainCodec.jwt PlainHasher.argon2 no_config
              Sample.s_locked) as (_ & _ & _ & Hlocked).
  split; [|split].
  - eapply Hsame; vm_compute; reflexivity.
  - eapply Hwrong; vm_compute; reflexivity.
  - eapply Hlocked; vm_compute; reflexivity.
Defined.

(** ** Failures of refreshTokens (C3) *)

(** C3.  refreshTokens fails with an UnauthorizedException in three cases,
    tested in this order: no row holds the string ("Invalid refresh token",
    store unchanged); the row is expired, now > expiresAt ("Refresh token
    expired", and the row is deleted); the row is unexpired and the string
    does not verify against the refresh secret ("Invalid refresh token",
    store unchanged).  These are the only ways it fails with an
    UnauthorizedException, and a failure that changed the store is the
    second. *)
Theorem refresh_failures :
  forall jwt cfg ts now t s,
    (Db.find_token t s = None ->
     refreshTokens (Db.prisma ts) jwt cfg now t s
     = (Fail (UnauthorizedException "Invalid refresh token"), s))
    /\ (forall row,
           Db.find_token t s = Some row ->
           UserTokens.expiresAt row < at_expiryCheck now ->
           refreshTokens (Db.prisma ts) jwt cfg now t s
           = (Fail (UnauthorizedException "Refresh token expired"),
              Db.set_userTokens s
                (filter (fun x => negb (Db.has_token t x)) (Db.userTokens s)))
           /\ ~ In row (filter (fun x => negb (Db.has_token t x))
                               (Db.userTokens s)))
    /\ (forall row,
           Db.find_token t s = Some row ->
           at_expiryCheck now <= UserTokens.expiresAt row ->
           verifyAsync jwt (at_verify now) t (jwtRefreshSecret cfg) = None ->
           refreshTokens (Db.prisma ts) jwt cfg now t s
           = (Fail (UnauthorizedException "Invalid refresh token"), s))
    /\ (forall m s',
           refreshTokens (Db.prisma ts) jwt cfg now t s
           = (Fail (UnauthorizedException m), s') ->
           (Db.find_token t s = None
            /\ m = "Invalid refresh token" /\ s' = s)
           \/ (exists row,
                  Db.find_token t s = Some row
                  /\ UserTokens.expiresAt row < at_expiryCheck now
                  /\ m = "Refresh token expired"
                  /\ s' = Db.set_userTokens s
                            (filter (fun x => negb (Db.has_token t x))
                                    (Db.userTokens s)))
           \/ (exists row,
                  Db.find_token t s = Some row
                  /\ at_expiryCheck now <= UserTokens.expiresAt row
                  /\ verifyAsync jwt (at_verify now) t (jwtRefreshSecret cfg)
                     = None
                  /\ m = "Invalid refresh token" /\ s' = s))
    /\ (forall e s',
           refreshTokens (Db.prisma ts) jwt cfg now t s = (Fail e, s') ->
           s' <> s ->
           e = UnauthorizedException "Refresh token expired").
Proof.
  intros jwt cfg ts now t s.
  rewrite refreshTokens_unfold.
  destruct (Db.find_token t s) as [row|] eqn:Hf.
  2:{ repeat split; try discriminate; try reflexivity.
      - intros m s' H. inversion H; subst. left. auto.
      - intros e s' H Hne. inversion H; subst. contradiction. }
  destruct (UserTokens.expiresAt row <? at_expiryCheck now) eqn:Hexp.
  { apply Z.ltb_lt in Hexp.
    split; [discriminate|]. split.
    { intros row' E _. inversion E; subst row'. split; [reflexivity|].
      intros Hin. apply filter_In in Hin. destruct Hin as [_ Hn].
      destruct (DbFacts.find_token_some _ _ Hf) as [_ Ht].
      apply DbFacts.has_token_true in Ht. rewrite Ht in Hn. discriminate. }
    split.
    { intros row' E Hle. inversion E; subst row'. lia. }
    split.
    { intros m s' H. inversion H; subst. right. left. exists row. auto. }
    intros e s' H _. inversion H; subst. reflexivity. }
  apply Z.ltb_ge in Hexp.
  split; [discriminate|]. split.
  { intros row' E Hlt. inversion E; subst row'. lia. }
  destruct (verifyAsync jwt (at_verify now) t (jwtRefreshSecret cfg)) eqn:Hv.
  2:{ split; [reflexivity|]. split.
      - intros m s' H. inversion H; subst. right. right. exists row. auto.
      - intros e s' H Hne. inversion H; subst. contradiction. }
  split; [discriminate|].
  destruct (Db.find_user_by_id (UserTokens.userId row) s) as [user|].
  2:{ split; [discriminate|].
      intros e s' H Hne. inversion H; subst. contradiction. }
  destruct (generateTokens jwt cfg now _ _ _) as [tokens|err] eqn:Hm.
  2:{ destruct (generateTokens_rejects _ _ _ _ _ _ Hm) as [m0 ->].
      split; [discriminate|].
      intros e s' H Hne. inversion H; subst. contradiction. }
  destruct (Db.userTokens_update _ _ _ s) as [[r|e0] s1] eqn:Hu.
  { split; discriminate. }
  apply userTokens_update_fails in Hu. subst s1.
  split; [discriminate|].
  intros e s' H Hne. inversion H; subst. contradiction.
Qed.

(** Refreshes against the sample stores: an unknown string, the sample token
    after its row expired, and the one-day token presented on the second
    day (the row is within its seven days, the token is not). *)
Lemma refresh_failures_witness :
  refreshTokens (Db.prisma 9000) PlainCodec.jwt no_config (Sample.at_ 9000)
                "not-a-token" Sample.s_default
  = (Fail (UnauthorizedException "Invalid refresh token"), Sample.s_default)
  /\ (exists s',
         refreshTokens (Db.prisma 700000000) PlainCodec.jwt no_config
                       (Sample.at_ 700000000) Sample.t_default
                       Sample.s_default
         = (Fail (UnauthorizedException "Refresh token expired"), s')
         /\ Db.userTokens s' = [])
  /\ refreshTokens (Db.prisma 100000000) PlainCodec.jwt Sample.one_day
                   (Sample.at_ 100000000) Sample.t_one_day Sample.s_one_day
     = (Fail (UnauthorizedException "Invalid refresh token"),
        Sample.s_one_day).
Proof.
  split; [|split].
  - apply (refresh_failures PlainCodec.jwt no_config 9000 (Sample.at_ 9000)
             "not-a-token" Sample.s_default).
    vm_compute. reflexivity.
  - eexists. split.
    + eapply (refresh_failures PlainCodec.jwt no_config 700000000
                (Sample.at_ 700000000) Sample.t_default Sample.s_default).
      * vm_compute. reflexivity.
      * vm_compute. reflexivity.
    + vm_compute. reflexivity.
  - eapply (refresh_failures PlainCodec.jwt Sample.one_day 100000000
              (Sample.at_ 100000000) Sample.t_one_day Sample.s_one_day).
    + vm_compute. reflexivity.
    + vm_compute. discriminate.
    + vm_compute. reflexivity.
Defined.

(** ** register (C6, C9) *)

Section RegisterFacts.
Context {S : Type}.
Variable prisma : PrismaService S.
Variable argon2 : Argon2.

(** register over any implementation of the store interface. *)
Lemma register_unfold dto salt s :
  register prisma argon2 dto salt s =
  match user_findUnique_email prisma (reg_email dto) s with
  | (Fail _, s1) => (Fail (BadRequestException "Failed to register user"), s1)
  | (Ok (Some _), s1) => (Fail (ConflictException "Email already exists"), s1)
  | (Ok None, s1) =>
      match user_create prisma (new_user argon2 dto salt) s1 with
      | (Fail _, s2) =>
          (Fail (BadRequestException "Failed to register user"), s2)
      | (Ok user, s2) =>
          (Ok {| success := true;
                 message := "User registered successfully";
                 data := {| ru_id := User.id user;
                            ru_email := User.email user;
                            ru_username := User.username user;
                            ru_createdAt := User.createdAt user |} |}, s2)
      end
  end.
Proof.
  unfold register, register_try, register_catch, try_catch, bind, await,
    map_error, throw, ret, new_user.
  destruct (user_findUnique_email prisma (reg_email dto) s) as [[[u|]|e] s1];
    try reflexivity.
  destruct (user_create prisma _ s1) as [[u|e] s2]; reflexivity.
Qed.

End RegisterFacts.

(** C6.  On the reference store, a register call whose email some user
    already has fails with ConflictException "Email already exists" and
    leaves the store exactly as it was, so no user row is created.  Over any
    implementation of the store: when the email lookup finds a user the
    conflict is what the caller gets; when the lookup or the insertion is
    rejected by the store, whatever the error, the caller gets
    BadRequestException "Failed to register user"; and register fails in no
    other way. *)
Theorem register_conflict_and_fallback :
  (forall argon2 ts dto salt s u,
      Db.find_user_by_email (reg_email dto) s = Some u ->
      register (Db.prisma ts) argon2 dto salt s
      = (Fail (ConflictException "Email already exists"), s))
  /\ (forall (S : Type) (prisma : PrismaService S) argon2 dto salt s,
         (forall u s1,
             user_findUnique_email prisma (reg_email dto) s
             = (Ok (Some u), s1) ->
             register prisma argon2 dto salt s
             = (Fail (ConflictException "Email already exists"), s1))
         /\ (forall e s1,
                user_findUnique_email prisma (reg_email dto) s
                = (Fail e, s1) ->
                register prisma argon2 dto salt s
                = (Fail (BadRequestException "Failed to register user"), s1))
         /\ (forall s1 e s2,
                user_findUnique_email prisma (reg_email dto) s
                = (Ok None, s1) ->
                user_create prisma (new_user argon2 dto salt) s1
                = (Fail e, s2) ->
                register prisma argon2 dto salt s
                = (Fail (BadRequestException "Failed to register user"), s2))
         /\ (forall e s',
                register prisma argon2 dto salt s = (Fail e, s') ->
                e = ConflictException "Email already exists"
                \/ e = BadRequestException "Failed to register user")).
Proof.
  split.
  - intros argon2 ts dto salt s u Hf. rewrite register_unfold. simpl.
    unfold Db.user_findUnique_email. rewrite Hf. reflexivity.
  - intros S prisma argon2 dto salt s. rewrite register_unfold.
    split; [|split; [|split]].
    + intros u s1 H. rewrite H. reflexivity.
    + intros e s1 H. rewrite H. reflexivity.
    + intros s1 e s2 H1 H2. rewrite H1, H2. reflexivity.
    + intros e s'.
      destruct (user_findUnique_email prisma (reg_email dto) s)
        as [[[u|]|e0] s1].
      * intros H. inversion H. auto.
      * destruct (user_create prisma _ s1) as [[u|e1] s2];
          intros H; inversion H; auto.
      * intros H. inversion H. auto.
Qed.

(** alice registers a second time on the sample store; somebody registers
    while the store cannot be reached. *)
Lemma register_conflict_and_fallback_witness :
  register (Db.prisma 9000) PlainHasher.argon2 Sample.alice_dto "nb"
           Sample.s_default
  = (Fail (ConflictException "Email already exists"), Sample.s_default)
  /\ register Outage.prisma PlainHasher.argon2 Sample.alice2_dto "nb"
              Sample.s_default
     = (Fail (BadRequestException "Failed to register user"),
        Sample.s_default).
Proof.
  destruct register_conflict_and_fallback as [Hdb Hany].
  split.
  - eapply Hdb. vm_compute. reflexivity.
  - destruct (Hany _ Outage.prisma PlainHasher.argon2 Sample.alice2_dto "nb"
                   Sample.s_default) as (_ & Hdown & _).
    eapply Hdown. vm_compute. reflexivity.
Defined.

(** C9.  A register call whose email no user has and whose username some
    user has fails with BadRequestException "Failed to register user", not
    with a ConflictException: the lookup before the insertion is by email
    only, the insertion is rejected by the unique index on username (P2002),
    and the handler turns that error into the generic one.  No user row is
    created. *)
Theorem register_taken_username :
  forall argon2 ts dto salt s,
    Db.find_user_by_email (reg_email dto) s = None ->
    existsb (Db.has_username (reg_username dto)) (Db.users s) = true ->
    exists s',
      register_try (Db.prisma ts) argon2 dto salt s
      = (Fail (PrismaClientError (P2002 "username")), s')
      /\ register (Db.prisma ts) argon2 dto salt s
         = (Fail (BadRequestException "Failed to register user"), s')
      /\ Db.users s' = Db.users s
      /\ Db.userTokens s' = Db.userTokens s.
Proof.
  intros argon2 ts dto salt s Hf Hu.
  assert (He : existsb (Db.has_email (reg_email dto)) (Db.users s) = false).
  { destruct (existsb (Db.has_email (reg_email dto)) (Db.users s)) eqn:E;
      [|reflexivity].
    apply existsb_exists in E. destruct E as (x & Hx & Hm).
    unfold Db.find_user_by_email in Hf.
    pose proof (find_none _ _ Hf x Hx) as Hn. rewrite Hn in Hm.
    discriminate. }
  eexists. split; [|split; [|split]].
  - unfold register_try, bind, await, map_error, throw; simpl.
    unfold Db.user_findUnique_email, Db.user_create. rewrite Hf. simpl.
    rewrite He, Hu. reflexivity.
  - rewrite register_unfold. simpl.
    unfold Db.user_findUnique_email, Db.user_create. rewrite Hf. simpl.
    rewrite He, Hu. reflexivity.
  - reflexivity.
  - reflexivity.
Qed.

(** On the sample store: a new email with alice's username. *)
Lemma register_taken_username_witness :
  exists s',
    register (Db.prisma 9000) PlainHasher.argon2 Sample.alice2_dto "nb"
             Sample.s_default
    = (Fail (BadRequestException "Failed to register user"), s')
    /\ Db.users s' = Db.users Sample.s_default.
Proof.
  destruct (@register_taken_username PlainHasher.argon2 9000
              Sample.alice2_dto "nb" Sample.s_default
              ltac:(vm_compute; reflexivity) ltac:(vm_compute; reflexivity))
    as (s' & _ & Hr & Hu & _).
  exists s'. split; assumption.
Defined.

(** ** The identity gate (C8) *)

(** A change of rows that keeps their ids commutes with the lookup by id. *)
Lemma find_by_id_map (f : User.t -> User.t) i (l : list User.t) :
  (forall u, User.id (f u) = User.id u) ->
  find (Db.has_id i) (map f l) = option_map f (find (Db.has_id i) l).
Proof.
  intros Hid. induction l as [|a l IH]; simpl; [reflexivity|].
  unfold Db.has_id at 1. rewrite Hid. fold (Db.has_id i a).
  destruct (Db.has_id i a); [reflexivity|exact IH].
Qed.

Lemma validate_unfold ts payload s :
  validate (Db.prisma ts) payload s =
  match Db.find_user_by_id (sub payload) s with
  | None => (Fail (UnauthorizedException "User not found"), s)
  | Some user =>
      if User.isLocked user then
        (Fail (UnauthorizedException "Account is locked"), s)
      else (Ok {| cu_id := User.id user;
                  cu_username := User.username user;
                  cu_email := User.email user |}, s)
  end.
Proof.
  unfold validate, bind, await, map_error, throw, ret; simpl.
  unfold Db.user_findUnique_id.
  destruct (Db.find_user_by_id (sub payload) s) as [user|]; simpl;
    [|reflexivity].
  destruct (User.isLocked user); reflexivity.
Qed.

(** C8.  A request whose token was extracted and verified against the access
    secret is handed to validate with the decoded payload.  validate looks
    the subject up by id in the store: no such user, or a user whose locked
    flag is set, and the request is rejected with an UnauthorizedException;
    otherwise the identity exposed is the record of the user's id, username
    and email, nothing else.  validate accepts in no other case and never
    changes the store, and its outcome is the same before and after any
    user's password hash is replaced. *)
Theorem gate_rechecks_user :
  forall jwt cfg ts s,
    (forall now request token payload,
        jwtFromRequest request = Some token ->
        verifyAsync jwt now token (secretOrKey cfg) = Some payload ->
        authenticate (Db.prisma ts) jwt cfg now request s
        = validate (Db.prisma ts) payload s)
    /\ (forall payload,
           Db.find_user_by_id (sub payload) s = None ->
           validate (Db.prisma ts) payload s
           = (Fail (UnauthorizedException "User not found"), s))
    /\ (forall payload user,
           Db.find_user_by_id (sub payload) s = Some user ->
           User.isLocked user = true ->
           validate (Db.prisma ts) payload s
           = (Fail (UnauthorizedException "Account is locked"), s))
    /\ (forall payload user,
           Db.find_user_by_id (sub payload) s = Some user ->
           User.isLocked user = false ->
           validate (Db.prisma ts) payload s
           = (Ok {| cu_id := User.id user;
                    cu_username := User.username user;
                    cu_email := User.email user |}, s))
    /\ (forall payload identity s',
           validate (Db.prisma ts) payload s = (Ok identity, s') ->
           s' = s
           /\ exists user,
               Db.find_user_by_id (sub payload) s = Some user
               /\ User.isLocked user = false
               /\ User.id user = sub payload
               /\ identity = {| cu_id := User.id user;
                                cu_username := User.username user;
                                cu_email := User.email user |})
    /\ (forall payload ts1 i pw r s1,
           Db.user_update_password ts1 i pw s = (Ok r, s1) ->
           fst (validate (Db.prisma ts) payload s1)
           = fst (validate (Db.prisma ts) payload s)).
Proof.
  intros jwt cfg ts s. split; [|split; [|split; [|split; [|split]]]].
  - intros now request token payload Hx Hv.
    unfold authenticate. rewrite Hx, Hv. reflexivity.
  - intros payload Hf. rewrite validate_unfold, Hf. reflexivity.
  - intros payload user Hf Hl. rewrite validate_unfold, Hf, Hl. reflexivity.
  - intros payload user Hf Hl. rewrite validate_unfold, Hf, Hl. reflexivity.
  - intros payload identity s' H. rewrite validate_unfold in H.
    destruct (Db.find_user_by_id (sub payload) s) as [user|] eqn:Hf;
      [|discriminate].
    destruct (User.isLocked user) eqn:Hl; [discriminate|].
    inversion H; subst. split; [reflexivity|].
    exists user. repeat split; auto.
    unfold Db.find_user_by_id in Hf. apply find_some in Hf.
    destruct Hf as [_ Hi]. now apply Z.eqb_eq in Hi.
  - intros payload ts1 i pw r s1 H. unfold Db.user_update_password in H.
    destruct (Db.find_user_by_id i s); inversion H; subst; clear H.
    rewrite !validate_unfold. unfold Db.find_user_by_id. simpl.
    rewrite find_by_id_map
      by (intros u; destruct (Db.has_id i u); reflexivity).
    destruct (find (Db.has_id (sub payload)) (Db.users s)) as [u|]; simpl;
      [|reflexivity].
    destruct (Db.has_id i u); simpl; destruct (User.isLocked u); reflexivity.
Qed.

(** A request presenting alice's access token, minted at her login, is
    accepted on the sample store and rejected once she is locked. *)
Lemma gate_rechecks_user_witness :
  authenticate (Db.prisma 5000) PlainCodec.jwt no_config 5000
               {| cookie_access_token := None;
                  bearer_token :=
                    Some "your-secret-jwt-key|1|alice|a@x.com|2|902" |}
               Sample.s_default
  = validate (Db.prisma 5000) Sample.alice_payload Sample.s_default
  /\ validate (Db.prisma 5000) Sample.alice_payload Sample.s_default
     = (Ok {| cu_id := 1; cu_username := "alice"; cu_email := "a@x.com" |},
        Sample.s_default)
  /\ validate (Db.prisma 5000) Sample.alice_payload Sample.s_locked
     = (Fail (UnauthorizedException "Account is locked"), Sample.s_locked).
Proof.
  destruct (gate_rechecks_user PlainCodec.jwt no_config 5000 Sample.s_default)
    as (Hauth & _ & _ & Hok & _).
  destruct (gate_rechecks_user PlainCodec.jwt no_config 5000 Sample.s_locked)
    as (_ & _ & Hlocked & _).
  split; [|split].
  - eapply Hauth; vm_compute; reflexivity.
  - apply (Hok Sample.alice_payload Sample.alice); vm_compute; reflexivity.
  - eapply (Hlocked Sample.alice_payload); vm_compute; reflexivity.
Defined.

(** ** logout and changePassword on the reference store *)

Lemma logout_unfold ts u t s :
  logout (Db.prisma ts) u t s
  = (Ok {| success := true; message := "Logout successful"; data := tt |},
     Db.set_userTokens s
       (filter (fun x => negb (Db.deleteMany_matches u (Some t) x))
               (Db.userTokens s))).
Proof. reflexivity. Qed.

Lemma changePassword_unfold argon2 ts u cur new conf salt s :
  changePassword (Db.prisma ts) argon2 u cur new conf salt s =
  if negb (new =? conf)%string then
    (Fail (ConflictException "New passwords do not match"), s)
  else if (cur =? new)%string then
    (Fail (ConflictException
             "New password must be different from current password"), s)
  else
    match Db.find_user_by_id u s with
    | None => (Fail (UnauthorizedException "User not found"), s)
    | Some user =>
        if verify argon2 (User.password user) cur then
          (Ok {| success := true;
                 message :=
                   "Password changed successfully. Please login again.";
                 data := tt |},
           {| Db.users :=
                map (fun x => if Db.has_id u x
                              then Db.with_password ts
                                     (hash argon2 salt new) x
                              else x) (Db.users s);
              Db.userTokens :=
                filter (fun x => negb (Db.owned_by u x)) (Db.userTokens s);
              Db.User_id_seq := Db.User_id_seq s;
              Db.UserTokens_id_seq := Db.UserTokens_id_seq s |})
        else
          (Fail (UnauthorizedException "Current password is incorrect"), s)
    end.
Proof.
  unfold changePassword.
  destruct (negb (new =? conf)%string); [reflexivity|].
  destruct (cur =? new)%string; [reflexivity|].
  unfold bind, await, map_error, throw, ret; simpl.
  unfold Db.user_findUnique_id, Db.user_update_password.
  destruct (Db.find_user_by_id u s) as [user|] eqn:Hf; [|reflexivity].
  destruct (verify argon2 (User.password user) cur); simpl; [|reflexivity].
  rewrite Hf. simpl. unfold Db.userTokens_deleteMany, Db.set_userTokens. simpl.
  f_equal. f_equal. apply filter_ext. intros x.
  unfold Db.deleteMany_matches. now rewrite andb_true_r.
Qed.

Lemma register_keeps_sessions argon2 ts dto salt s :
  Db.userTokens (snd (register (Db.prisma ts) argon2 dto salt s))
  = Db.userTokens s
  /\ Db.UserTokens_id_seq (snd (register (Db.prisma ts) argon2 dto salt s))
     = Db.UserTokens_id_seq s.
Proof.
  rewrite register_unfold. simpl.
  unfold Db.user_findUnique_email, Db.user_create.
  destruct (Db.find_user_by_email (reg_email dto) s); simpl; auto.
  destruct (existsb _ (Db.users s)); simpl; auto.
  destruct (existsb _ (Db.users s)); simpl; auto.
Qed.

(** ** A string that is absent stays absent unless it is minted again *)

Section Traces.
Variable jwtService : JwtService.
Variable argon2 : Argon2.
Variable configService : ConfigService.

Lemma absent_filter t s keep :
  Db.absent t s -> Db.absent t (Db.set_userTokens s (filter keep (Db.userTokens s))).
Proof.
  unfold Db.absent. simpl. intros H x Hx. apply filter_In in Hx.
  apply H. tauto.
Qed.

(** A request adds no string to the session table but the one it hands
    out. *)
Lemma absent_serve_issued t s e :
  Db.absent t s ->
  issued jwtService argon2 configService s e <> Some t ->
  Db.absent t (serve jwtService argon2 configService s e).
Proof.
  intros Ha Hi. unfold serve. unfold issued in Hi.
  destruct (ev_call e) as [dto salt|dto ua ip|u t'|t'|u cur new conf salt].
  - unfold Db.absent.
    rewrite (proj1 (register_keeps_sessions argon2 (ev_ts e) dto salt s)).
    exact Ha.
  - rewrite login_unfold in *.
    destruct (Db.find_user_by_email (login_email dto) s) as [user|]; auto.
    destruct (User.isLocked user); auto.
    destruct (verify argon2 _ _); auto.
    destruct (generateTokens _ _ _ _ _ _) as [tokens|err0]; auto.
    destruct (Db.userTokens_create _ _ s) as [[r|err] s1] eqn:Hc;
      cbn [fst snd data ld_refreshToken] in *.
    + apply userTokens_create_rows in Hc. simpl in Hc.
      destruct Hc as (Hrows & _ & _ & _ & _ & Ht & _).
      unfold Db.absent. rewrite Hrows. intros x Hx.
      apply in_app_or in Hx. destruct Hx as [Hx|[Hx|[]]]; [now apply Ha|].
      subst x. rewrite Ht. congruence.
    + apply userTokens_create_fails in Hc. destruct Hc as [Hrows _].
      unfold Db.absent. rewrite Hrows. exact Ha.
  - rewrite logout_unfold. simpl. now apply absent_filter.
  - rewrite refreshTokens_unfold in *.
    destruct (Db.find_token t' s) as [row|]; auto.
    destruct (UserTokens.expiresAt row <? _);
      [cbn [snd]; now apply absent_filter|].
    destruct (verifyAsync _ _ _ _); auto.
    destruct (Db.find_user_by_id _ s) as [user|]; auto.
    destruct (generateTokens _ _ _ _ _ _) as [tokens|err0]; auto.
    destruct (Db.userTokens_update _ _ _ s) as [[r|err] s1] eqn:Hu;
      cbn [fst snd data] in *.
    + apply userTokens_update_rows in Hu. destruct Hu as [Hs _]. subst s1.
      unfold Db.absent. simpl. intros x Hx.
      apply in_map_iff in Hx. destruct Hx as (y & Hy & Hin).
      destruct (Db.has_row_id _ y); subst x; [|now apply Ha].
      simpl. congruence.
    + apply userTokens_update_fails in Hu. now subst s1.
  - rewrite changePassword_unfold.
    destruct (negb _); auto. destruct (cur =? new)%string; auto.
    destruct (Db.find_user_by_id u s) as [user|]; auto.
    destruct (verify argon2 _ _); auto. simpl.
    unfold Db.absent. simpl. intros x Hx. apply filter_In in Hx.
    apply Ha. tauto.
Qed.

Lemma absent_serve_all_issued t es : forall s,
  Db.absent t s ->
  never_issued jwtService argon2 configService t s es ->
  Db.absent t (serve_all jwtService argon2 configService s es).
Proof.
  induction es as [|e es IH]; intros s Ha Hn; simpl; auto.
  destruct Hn as [Hi Hn]. apply IH; auto. now apply absent_serve_issued.
Qed.

Lemma absent_serve t s e :
  Db.absent t s ->
  never_mints jwtService configService t e ->
  Db.absent t (serve jwtService argon2 configService s e).
Proof.
  intros Ha Hm. unfold serve.
  destruct (ev_call e) as [dto salt|dto ua ip|u t'|t'|u cur new conf salt].
  - unfold Db.absent.
    rewrite (proj1 (register_keeps_sessions argon2 (ev_ts e) dto salt s)).
    exact Ha.
  - rewrite login_unfold.
    destruct (Db.find_user_by_email (login_email dto) s) as [user|]; auto.
    destruct (User.isLocked user); auto.
    destruct (verify argon2 _ _); auto.
    destruct (generateTokens _ _ _ _ _ _) as [tokens|err0] eqn:Hg; auto.
    apply generateTokens_resolves in Hg. destruct Hg as [_ Hg].
    destruct (Db.userTokens_create _ _ s) as [[r|err] s1] eqn:Hc; simpl.
    + apply userTokens_create_rows in Hc. simpl in Hc.
      destruct Hc as (Hrows & _ & _ & _ & _ & Ht & _).
      unfold Db.absent. rewrite Hrows. intros x Hx.
      apply in_app_or in Hx. destruct Hx as [Hx|[Hx|[]]]; [now apply Ha|].
      subst x. rewrite Ht. intros E. rewrite E in Hg. exact (Hm _ Hg).
    + apply userTokens_create_fails in Hc. destruct Hc as [Hrows _].
      unfold Db.absent. rewrite Hrows. exact Ha.
  - rewrite logout_unfold. simpl. now apply absent_filter.
  - rewrite refreshTokens_unfold.
    destruct (Db.find_token t' s) as [row|]; auto.
    destruct (UserTokens.expiresAt row <? _); simpl;
      [now apply absent_filter|].
    destruct (verifyAsync _ _ _ _); auto.
    destruct (Db.find_user_by_id _ s) as [user|]; auto.
    destruct (generateTokens _ _ _ _ _ _) as [tokens|err0] eqn:Hg; auto.
    apply generateTokens_resolves in Hg. destruct Hg as [_ Hg].
    destruct (Db.userTokens_update _ _ _ s) as [[r|err] s1] eqn:Hu; simpl.
    + apply userTokens_update_rows in Hu. destruct Hu as [Hs _]. subst s1.
      unfold Db.absent. simpl. intros x Hx.
      apply in_map_iff in Hx. destruct Hx as (y & Hy & Hin).
      destruct (Db.has_row_id _ y); subst x; [|now apply Ha].
      simpl. intros E. rewrite E in Hg. exact (Hm _ Hg).
    + apply userTokens_update_fails in Hu. now subst s1.
  - rewrite changePassword_unfold.
    destruct (negb _); auto. destruct (cur =? new)%string; auto.
    destruct (Db.find_user_by_id u s) as [user|]; auto.
    destruct (verify argon2 _ _); auto. simpl.
    unfold Db.absent. simpl. intros x Hx. apply filter_In in Hx.
    apply Ha. tauto.
Qed.

Lemma absent_serve_all t es : forall s,
  Db.absent t s ->
  Forall (never_mints jwtService configService t) es ->
  Db.absent t (serve_all jwtService argon2 configService s es).
Proof.
  induction es as [|e es IH]; intros s Ha Hall; simpl; auto.
  inversion Hall; subst. apply IH; auto. now apply absent_serve.
Qed.

(** A refresh with a string that no row holds. *)
Lemma refresh_absent ts now t s :
  Db.absent t s ->
  refreshTokens (Db.prisma ts) jwtService configService now t s
  = (Fail (UnauthorizedException "Invalid refresh token"), s).
Proof.
  intros Ha. rewrite refreshTokens_unfold.
  apply DbFacts.find_token_none in Ha. now rewrite Ha.
Qed.

End Traces.

(** ** The keys of the session table are kept by every request *)

Lemma consistent_same_rows s s' :
  Db.userTokens s' = Db.userTokens s ->
  Db.UserTokens_id_seq s <= Db.UserTokens_id_seq s' ->
  Db.consistent s -> Db.consistent s'.
Proof.
  intros Hr Hq [Hi Ht Hd]. constructor; rewrite Hr; auto.
  eapply Forall_impl; [|exact Hd]. simpl. intros x Hx. lia.
Qed.

Lemma consistent_after_delete s s' keep :
  Db.userTokens s' = filter keep (Db.userTokens s) ->
  Db.UserTokens_id_seq s' = Db.UserTokens_id_seq s ->
  Db.consistent s -> Db.consistent s'.
Proof.
  intros Hr Hq [Hi Ht Hd]. constructor; rewrite Hr.
  - now apply DbFacts.keys_unique_after_delete.
  - now apply DbFacts.keys_unique_after_delete.
  - rewrite Hq. apply Forall_forall. intros x Hx. apply filter_In in Hx.
    rewrite Forall_forall in Hd. apply Hd. tauto.
Qed.

Lemma consistent_after_insert s s' r :
  Db.userTokens s' = (Db.userTokens s ++ [r])%list ->
  UserTokens.id r = Db.UserTokens_id_seq s ->
  Db.UserTokens_id_seq s' = Db.UserTokens_id_seq s + 1 ->
  Db.absent (UserTokens.refreshToken r) s ->
  Db.consistent s -> Db.consistent s'.
Proof.
  intros Hr Hid Hq Ha [Hi Ht Hd]. rewrite Forall_forall in Hd.
  constructor; rewrite Hr.
  - rewrite map_app. simpl. apply NoDup_app; auto.
    + constructor; [intros []|constructor].
    + intros i Hin [E|[]]. apply in_map_iff in Hin.
      destruct Hin as (x & Hx & Hin). apply Hd in Hin. lia.
  - rewrite map_app. simpl. apply NoDup_app; auto.
    + constructor; [intros []|constructor].
    + intros t Hin [E|[]]. apply in_map_iff in Hin.
      destruct Hin as (x & Hx & Hin). apply (Ha x Hin). congruence.
  - apply Forall_forall. intros x Hx. apply in_app_or in Hx.
    destruct Hx as [Hx|[Hx|[]]].
    + apply Hd in Hx. lia.
    + subst x. lia.
Qed.

Lemma tokens_unique_after_rotate ts d i (l : list UserTokens.t) :
  NoDup (map UserTokens.id l) ->
  NoDup (map UserTokens.refreshToken l) ->
  (forall x, In x l -> UserTokens.refreshToken x = upd_refreshToken d ->
             UserTokens.id x = i) ->
  NoDup (map UserTokens.refreshToken
             (map (fun x => if Db.has_row_id i x then Db.rotated ts d x else x)
                  l)).
Proof.
  induction l as [|a l IH]; simpl; intros Hi Ht Hc; [constructor|].
  apply NoDup_cons_iff in Hi. destruct Hi as [Hia Hi].
  apply NoDup_cons_iff in Ht. destruct Ht as [Hta Ht].
  apply NoDup_cons_iff. split; [|apply IH; auto].
  intros Hin. apply in_map_iff in Hin. destruct Hin as (y' & Hy' & Hin).
  apply in_map_iff in Hin. destruct Hin as (y & Hy & Hin). subst y'.
  destruct (Db.has_row_id i a) eqn:Ea, (Db.has_row_id i y) eqn:Ey;
    simpl in Hy'.
  - apply DbFacts.has_row_id_true in Ea, Ey. apply Hia.
    apply in_map_iff. exists y. split; [congruence|assumption].
  - assert (UserTokens.id y = i) by (apply Hc; auto).
    apply DbFacts.has_row_id_true in H. congruence.
  - assert (UserTokens.id a = i) by (apply Hc; auto).
    apply DbFacts.has_row_id_true in H. congruence.
  - apply Hta. apply in_map_iff. exists y. auto.
Qed.

Lemma consistent_after_rotate ts d i s :
  (forall x, In x (Db.userTokens s) ->
             UserTokens.refreshToken x = upd_refreshToken d ->
             UserTokens.id x = i) ->
  Db.consistent s ->
  Db.consistent
    (Db.set_userTokens s
       (map (fun x => if Db.has_row_id i x then Db.rotated ts d x else x)
            (Db.userTokens s))).
Proof.
  intros Hc [Hi Ht Hd].
  assert (Hids : map UserTokens.id
                     (map (fun x => if Db.has_row_id i x
                                    then Db.rotated ts d x else x)
                          (Db.userTokens s))
                 = map UserTokens.id (Db.userTokens s)).
  { rewrite map_map. apply map_ext. intros x.
    destruct (Db.has_row_id i x); reflexivity. }
  constructor; simpl.
  - now rewrite Hids.
  - now apply tokens_unique_after_rotate.
  - apply Forall_forall. intros x Hx. apply in_map_iff in Hx.
    destruct Hx as (y & Hy & Hin). rewrite Forall_forall in Hd.
    apply Hd in Hin. destruct (Db.has_row_id i y); subst x; simpl; lia.
Qed.

Lemma userTokens_create_burns_id ts d s e s' :
  Db.userTokens_create ts d s = (Fail e, s') ->
  Db.UserTokens_id_seq s <= Db.UserTokens_id_seq s'.
Proof.
  unfold Db.userTokens_create.
  destruct (existsb _ (Db.userTokens s));
    [intros H; inversion H; subst; simpl; lia|].
  destruct (negb _); intros H; inversion H; subst; simpl; lia.
Qed.

(** Every request keeps the keys of the session table. *)
Lemma consistent_serve jwt argon2 cfg s e :
  Db.consistent s -> Db.consistent (serve jwt argon2 cfg s e).
Proof.
  intros Hs. unfold serve.
  destruct (ev_call e) as [dto salt|dto ua ip|u t'|t'|u cur new conf salt].
  - destruct (register_keeps_sessions argon2 (ev_ts e) dto salt s) as [Hr Hq].
    eapply consistent_same_rows; eauto. lia.
  - rewrite login_unfold.
    destruct (Db.find_user_by_email (login_email dto) s) as [user|]; auto.
    destruct (User.isLocked user); auto.
    destruct (verify argon2 _ _); auto.
    destruct (generateTokens _ _ _ _ _ _) as [tokens|err0]; auto.
    destruct (Db.userTokens_create _ _ s) as [[r|err] s1] eqn:Hc; simpl.
    + apply userTokens_create_rows in Hc. simpl in Hc.
      destruct Hc as (Hrows & _ & Hid & Hq & _ & Ht & _ & _ & _ & _ & Ha).
      eapply consistent_after_insert; eauto. now rewrite Ht.
    + pose proof (userTokens_create_burns_id _ _ _ Hc).
      apply userTokens_create_fails in Hc. destruct Hc as [Hrows _].
      eapply consistent_same_rows; eauto.
  - rewrite logout_unfold. simpl.
    eapply consistent_after_delete with (s := s);
      [reflexivity|reflexivity|exact Hs].
  - rewrite refreshTokens_unfold.
    destruct (Db.find_token t' s) as [row|]; auto.
    destruct (UserTokens.expiresAt row <? _); simpl;
      [eapply consistent_after_delete with (s := s);
       [reflexivity|reflexivity|exact Hs]|].
    destruct (verifyAsync _ _ _ _); auto.
    destruct (Db.find_user_by_id _ s) as [user|]; auto.
    destruct (generateTokens _ _ _ _ _ _) as [tokens|err0]; auto.
    destruct (Db.userTokens_update _ _ _ s) as [[r|err] s1] eqn:Hu; simpl.
    + apply userTokens_update_rows in Hu. destruct Hu as [Hs1 Hc]. subst s1.
      now apply consistent_after_rotate.
    + apply userTokens_update_fails in Hu. now subst s1.
  - rewrite changePassword_unfold.
    destruct (negb _); auto. destruct (cur =? new)%string; auto.
    destruct (Db.find_user_by_id u s) as [user|]; auto.
    destruct (verify argon2 _ _); auto. simpl.
    eapply consistent_after_delete with (s := s);
      [reflexivity|reflexivity|exact Hs].
Qed.

Lemma consistent_empty : Db.consistent Db.empty.
Proof. constructor; simpl; constructor. Qed.

(** So every store reached from the empty one respects the keys. *)
Lemma consistent_serve_all jwt argon2 cfg es : forall s,
  Db.consistent s -> Db.consistent (serve_all jwt argon2 cfg s es).
Proof.
  induction es as [|e es IH]; intros s Hs; simpl; auto.
  apply IH. now apply consistent_serve.
Qed.

(** ** When the update of refreshTokens is accepted *)

Lemma userTokens_update_accepted ts i d s x0 :
  In x0 (Db.userTokens s) -> UserTokens.id x0 = i ->
  (forall x, In x (Db.userTokens s) ->
             UserTokens.refreshToken x = upd_refreshToken d ->
             UserTokens.id x = i) ->
  exists r,
    Db.userTokens_update ts i d s
    = (Ok r, Db.set_userTokens s
               (map (fun x => if Db.has_row_id i x then Db.rotated ts d x
                              else x) (Db.userTokens s))).
Proof.
  intros Hin Hid Hc. unfold Db.userTokens_update.
  destruct (find (Db.has_row_id i) (Db.userTokens s)) as [r0|] eqn:Hf.
  2:{ pose proof (find_none _ _ Hf x0 Hin) as Hn.
      apply DbFacts.has_row_id_true in Hid. congruence. }
  destruct (existsb _ (Db.userTokens s)) eqn:E.
  - apply existsb_exists in E. destruct E as (x & Hx & Hb).
    apply andb_true_iff in Hb. destruct Hb as [Ht Hn].
    apply DbFacts.has_token_true in Ht. apply Hc in Ht; auto.
    apply DbFacts.has_row_id_true in Ht. rewrite Ht in Hn. discriminate.
  - eexists. reflexivity.
Qed.

Lemma refresh_accepted jwt cfg ts now t s row user tokens :
  Db.find_token t s = Some row ->
  Db.find_user_by_id (UserTokens.userId row) s = Some user ->
  at_expiryCheck now <= UserTokens.expiresAt row ->
  verifyAsync jwt (at_verify now) t (jwtRefreshSecret cfg) <> None ->
  generateTokens jwt cfg now (User.id user) (User.username user)
                 (User.email user) = Ok tokens ->
  (forall x, In x (Db.userTokens s) ->
             UserTokens.refreshToken x = Tokens.refreshToken tokens ->
             UserTokens.id x = UserTokens.id row) ->
  refreshTokens (Db.prisma ts) jwt cfg now t s
  = (Ok {| success := true;
           message := "Tokens refreshed successfully";
           data := tokens |},
     Db.set_userTokens s
       (map (fun x => if Db.has_row_id (UserTokens.id row) x
                      then Db.rotated ts (rotation now tokens) x
                      else x) (Db.userTokens s))).
Proof.
  intros Hf Hu Hexp Hv Hm Hc. rewrite refreshTokens_unfold, Hf.
  assert (E : (UserTokens.expiresAt row <? at_expiryCheck now) = false)
    by (apply Z.ltb_ge; lia).
  rewrite E.
  destruct (verifyAsync jwt (at_verify now) t (jwtRefreshSecret cfg));
    [|congruence].
  rewrite Hu, Hm.
  destruct (DbFacts.find_token_some _ _ Hf) as [Hin _].
  destruct (@userTokens_update_accepted ts (UserTokens.id row)
              (rotation now tokens) s row Hin eq_refl Hc) as [r Hr].
  rewrite Hr. reflexivity.
Qed.

(** ** Password change revokes the sessions (C5) *)

(** C5, amended.  In a store that respects the keys of the session table, a
    changePassword call that succeeds leaves exactly the session rows of the
    other users.  Every refresh token held by a row of that user before the
    call is then held by no row, so a refresh with it on the store left by
    changePassword, at any time, fails with UnauthorizedException "Invalid
    refresh token"; and this stays so after any further requests, as long
    as no login or refresh among them hands out that very string again. *)
Theorem changePassword_revokes_sessions :
  forall jwt argon2 cfg ts u cur new conf salt s resp s',
    Db.consistent s ->
    changePassword (Db.prisma ts) argon2 u cur new conf salt s
    = (Ok resp, s') ->
    Db.userTokens s'
    = filter (fun x => negb (Db.owned_by u x)) (Db.userTokens s)
    /\ (forall x, In x (Db.userTokens s') -> UserTokens.userId x <> u)
    /\ (forall row,
           In row (Db.userTokens s) -> UserTokens.userId row = u ->
           Db.absent (UserTokens.refreshToken row) s'
           /\ (forall ts2 now2,
                  refreshTokens (Db.prisma ts2) jwt cfg now2
                                (UserTokens.refreshToken row) s'
                  = (Fail (UnauthorizedException "Invalid refresh token"),
                     s'))
           /\ (forall es ts2 now2,
                  never_issued jwt argon2 cfg (UserTokens.refreshToken row)
                               s' es ->
                  refreshTokens (Db.prisma ts2) jwt cfg now2
                                (UserTokens.refreshToken row)
                                (serve_all jwt argon2 cfg s' es)
                  = (Fail (UnauthorizedException "Invalid refresh token"),
                     serve_all jwt argon2 cfg s' es))).
Proof.
  intros jwt argon2 cfg ts u cur new conf salt s resp s' Hs H.
  rewrite changePassword_unfold in H.
  destruct (negb _); [discriminate|].
  destruct (cur =? new)%string; [discriminate|].
  destruct (Db.find_user_by_id u s) as [user|]; [|discriminate].
  destruct (verify argon2 _ _); [|discriminate].
  inversion H; subst; clear H. simpl.
  split; [reflexivity|]. split.
  - intros x Hx. apply filter_In in Hx. destruct Hx as [_ Hn].
    unfold Db.owned_by in Hn. intros E. apply Z.eqb_eq in E.
    rewrite E in Hn. discriminate.
  - intros row Hin Hu.
    match goal with |- Db.absent ?t ?st /\ _ =>
      assert (Ha : Db.absent t st) end.
    { unfold Db.absent. simpl. intros x Hx E.
      apply filter_In in Hx. destruct Hx as [Hx Hn].
      assert (x = row)
        by (eapply DbFacts.unique_holder; eauto; apply (Db.tokens_unique Hs)).
      subst x. unfold Db.owned_by in Hn.
      apply Z.eqb_eq in Hu. rewrite Hu in Hn. discriminate. }
    split; [exact Ha|]. split.
    + intros ts2 now2. now apply refresh_absent.
    + intros es ts2 now2 Hes. apply refresh_absent.
      now apply absent_serve_all_issued.
Qed.

Lemma sample_reached :
  serve_all PlainCodec.jwt PlainHasher.argon2 no_config Db.empty
            Sample.history = Sample.s_default.
Proof. vm_compute. reflexivity. Qed.

Lemma sample_consistent : Db.consistent Sample.s_default.
Proof.
  rewrite <- sample_reached.
  apply consistent_serve_all. exact consistent_empty.
Qed.

(** alice changes her password on the sample store; the token of her
    session is then refused, and is still refused after she has logged in
    again with the new password at time 20000. *)
Lemma changePassword_revokes_sessions_witness :
  exists resp s',
    changePassword (Db.prisma 9000) PlainHasher.argon2 1 "Abc123!" "Xyz789!"
                   "Xyz789!" "nc" Sample.s_default = (Ok resp, s')
    /\ Db.userTokens s' = []
    /\ refreshTokens (Db.prisma 9500) PlainCodec.jwt no_config
                     (Sample.at_ 9500) Sample.t_default s'
       = (Fail (UnauthorizedException "Invalid refresh token"), s')
    /\ refreshTokens (Db.prisma 30000) PlainCodec.jwt no_config
                     (Sample.at_ 30000) Sample.t_default
                     (serve_all PlainCodec.jwt PlainHasher.argon2 no_config
                                s' Sample.relogin)
       = (Fail (UnauthorizedException "Invalid refresh token"),
          serve_all PlainCodec.jwt PlainHasher.argon2 no_config
                    s' Sample.relogin).
Proof.
  eexists. eexists. split; [vm_compute; reflexivity|].
  destruct (@changePassword_revokes_sessions PlainCodec.jwt
              PlainHasher.argon2 no_config 9000 1 "Abc123!" "Xyz789!"
              "Xyz789!" "nc" Sample.s_default _ _ sample_consistent
              ltac:(vm_compute; reflexivity)) as (Hrows & _ & Hrow).
  split; [exact Hrows|].
  destruct (Hrow Sample.session ltac:(vm_compute; auto) eq_refl)
    as (_ & Href & Hlater).
  split; [exact (Href 9500 (Sample.at_ 9500))|].
  apply (Hlater Sample.relogin 30000 (Sample.at_ 30000)).
  vm_compute. split; [discriminate|exact I].
Defined.

(** C5 as stated fails.  alice logs in at time 2000 and changes her
    password at time 2100: her session row is deleted.  She logs in again
    with the new password at time 2200; the codec, given the same claims in
    the same second, mints the string of her first login, and the new row
    holds it.  A refresh at time 2300 with the token issued before the
    password change then succeeds. *)
Lemma relogin_within_a_second_revives_token :
  exists resp s1 resp2 s2 resp3 s3,
    map UserTokens.refreshToken (Db.userTokens Sample.s_default)
    = [Sample.t_default]
    /\ changePassword (Db.prisma 2100) PlainHasher.argon2 1 "Abc123!"
                      "Xyz789!" "Xyz789!" "nc" Sample.s_default
       = (Ok resp, s1)
    /\ Db.userTokens s1 = []
    /\ login (Db.prisma 2200) PlainCodec.jwt PlainHasher.argon2 no_config
             (Sample.at_ 2200)
             {| login_email := "a@x.com"; login_password := "Xyz789!" |}
             "curl" "10.0.0.1" s1 = (Ok resp2, s2)
    /\ ld_refreshToken (data resp2) = Sample.t_default
    /\ refreshTokens (Db.prisma 2300) PlainCodec.jwt no_config
                     (Sample.at_ 2300) Sample.t_default s2 = (Ok resp3, s3).
Proof.
  eexists. eexists. eexists. eexists. eexists. eexists.
  split; [reflexivity|].
  split; [vm_compute; reflexivity|].
  split; [reflexivity|].
  split; [vm_compute; reflexivity|].
  split; [reflexivity|].
  vm_compute. reflexivity.
Qed.

(** ** refreshTokens and the locked flag (C10) *)

Lemma find_user_set_locked i j b s :
  Db.find_user_by_id i (Db.set_locked j b s)
  = option_map (fun u => if Db.has_id j u then Db.with_locked b u else u)
               (Db.find_user_by_id i s).
Proof.
  unfold Db.find_user_by_id, Db.set_locked. simpl.
  apply find_by_id_map. intros u. destruct (Db.has_id j u); reflexivity.
Qed.

(** refreshTokens commutes with locking or unlocking any account. *)
Lemma refresh_set_locked jwt cfg ts now t j b s :
  refreshTokens (Db.prisma ts) jwt cfg now t (Db.set_locked j b s)
  = (fst (refreshTokens (Db.prisma ts) jwt cfg now t s),
     Db.set_locked j b (snd (refreshTokens (Db.prisma ts) jwt cfg now t s))).
Proof.
  rewrite !refreshTokens_unfold.
  change (Db.find_token t (Db.set_locked j b s)) with (Db.find_token t s).
  destruct (Db.find_token t s) as [row|]; [|reflexivity].
  destruct (UserTokens.expiresAt row <? at_expiryCheck now); [reflexivity|].
  destruct (verifyAsync jwt (at_verify now) t (jwtRefreshSecret cfg));
    [|reflexivity].
  rewrite find_user_set_locked.
  destruct (Db.find_user_by_id (UserTokens.userId row) s) as [user|];
    simpl; [|reflexivity].
  assert (E : generateTokens jwt cfg now
                (User.id (if Db.has_id j user then Db.with_locked b user
                          else user))
                (User.username (if Db.has_id j user then Db.with_locked b user
                                else user))
                (User.email (if Db.has_id j user then Db.with_locked b user
                             else user))
              = generateTokens jwt cfg now (User.id user)
                               (User.username user) (User.email user))
    by (destruct (Db.has_id j user); reflexivity).
  rewrite E. clear E.
  destruct (generateTokens jwt cfg now (User.id user) (User.username user)
                           (User.email user)) as [tokens|err];
    [|reflexivity].
  unfold Db.userTokens_update.
  change (Db.userTokens (Db.set_locked j b s)) with (Db.userTokens s).
  destruct (find (Db.has_row_id (UserTokens.id row)) (Db.userTokens s));
    [|reflexivity].
  destruct (existsb _ (Db.userTokens s)); reflexivity.
Qed.

(** When another row holds the minted string the update is refused by the
    unique index and the store is left as it was. *)
Lemma refresh_collides jwt cfg ts now t s row user tokens other :
  Db.find_token t s = Some row ->
  Db.find_user_by_id (UserTokens.userId row) s = Some user ->
  at_expiryCheck now <= UserTokens.expiresAt row ->
  verifyAsync jwt (at_verify now) t (jwtRefreshSecret cfg) <> None ->
  generateTokens jwt cfg now (User.id user) (User.username user)
                 (User.email user) = Ok tokens ->
  In other (Db.userTokens s) ->
  UserTokens.refreshToken other = Tokens.refreshToken tokens ->
  UserTokens.id other <> UserTokens.id row ->
  refreshTokens (Db.prisma ts) jwt cfg now t s
  = (Fail (PrismaClientError (P2002 "refreshToken")), s).
Proof.
  intros Hf Hu Hexp Hv Hm Hin Ht Hid. rewrite refreshTokens_unfold, Hf.
  assert (E : (UserTokens.expiresAt row <? at_expiryCheck now) = false)
    by (apply Z.ltb_ge; lia).
  rewrite E.
  destruct (verifyAsync jwt (at_verify now) t (jwtRefreshSecret cfg));
    [|congruence].
  rewrite Hu, Hm. unfold Db.userTokens_update.
  destruct (DbFacts.find_token_some _ _ Hf) as [Hrow _].
  destruct (find (Db.has_row_id (UserTokens.id row)) (Db.userTokens s))
    as [r0|] eqn:Hfind.
  2:{ pose proof (find_none _ _ Hfind row Hrow) as Hn.
      unfold Db.has_row_id in Hn. rewrite Z.eqb_refl in Hn. discriminate. }
  assert (Hex : existsb (fun x => Db.has_token
                                    (upd_refreshToken (rotation now tokens)) x
                                  && negb (Db.has_row_id (UserTokens.id row) x))
                        (Db.userTokens s) = true).
  { apply existsb_exists. exists other. split; [exact Hin|].
    apply andb_true_iff. split.
    - apply DbFacts.has_token_true. exact Ht.
    - unfold Db.has_row_id. apply negb_true_iff. now apply Z.eqb_neq. }
  rewrite Hex. reflexivity.
Qed.

(** C10, amended.  The locked flag plays no part in refreshTokens: setting
    or clearing it on any account changes neither the result nor the
    session rows written.  So for a user whose flag is set, a refresh with
    the token of one of the user's session rows, unexpired and validly
    signed, does what it does for an unlocked user.  When signAsync mints a
    pair and no other session row holds the minted refresh string, it
    succeeds and returns that pair, and the account stays locked; when
    another row holds the minted string, the update is refused by the
    unique index and the call fails with P2002, the store unchanged.  The
    gate does read the flag: validate rejects the same user with "Account
    is locked". *)
Theorem refresh_ignores_lock :
  forall jwt cfg ts now t s row user tokens,
    Db.find_token t s = Some row ->
    Db.find_user_by_id (UserTokens.userId row) s = Some user ->
    User.isLocked user = true ->
    at_expiryCheck now <= UserTokens.expiresAt row ->
    verifyAsync jwt (at_verify now) t (jwtRefreshSecret cfg) <> None ->
    generateTokens jwt cfg now (User.id user) (User.username user)
                   (User.email user) = Ok tokens ->
    ((forall x, In x (Db.userTokens s) ->
                UserTokens.refreshToken x = Tokens.refreshToken tokens ->
                UserTokens.id x = UserTokens.id row) ->
     exists s',
       refreshTokens (Db.prisma ts) jwt cfg now t s
       = (Ok {| success := true;
                message := "Tokens refreshed successfully";
                data := tokens |}, s')
       /\ Db.find_user_by_id (UserTokens.userId row) s' = Some user
       /\ exists row',
           In row' (Db.userTokens s')
           /\ UserTokens.id row' = UserTokens.id row
           /\ UserTokens.refreshToken row' = Tokens.refreshToken tokens)
    /\ (forall other,
           In other (Db.userTokens s) ->
           UserTokens.refreshToken other = Tokens.refreshToken tokens ->
           UserTokens.id other <> UserTokens.id row ->
           refreshTokens (Db.prisma ts) jwt cfg now t s
           = (Fail (PrismaClientError (P2002 "refreshToken")), s))
    /\ (forall j b,
           refreshTokens (Db.prisma ts) jwt cfg now t (Db.set_locked j b s)
           = (fst (refreshTokens (Db.prisma ts) jwt cfg now t s),
              Db.set_locked j b
                (snd (refreshTokens (Db.prisma ts) jwt cfg now t s))))
    /\ (forall ts2 payload,
           sub payload = UserTokens.userId row ->
           validate (Db.prisma ts2) payload s
           = (Fail (UnauthorizedException "Account is locked"), s)).
Proof.
  intros jwt cfg ts now t s row user tokens Hf Hu Hl Hexp Hv Hm.
  split; [|split; [|split]].
  - intros Hc.
    eexists. split;
      [apply refresh_accepted with (row := row) (user := user); assumption|].
    split; [exact Hu|].
    destruct (DbFacts.find_token_some _ _ Hf) as [Hin _].
    eexists. split; [exact (rotated_in_table ts _ row _ Hin)|].
    split; reflexivity.
  - intros other Hin Ht Hid.
    now apply refresh_collides with (row := row) (user := user)
                                    (tokens := tokens) (other := other).
  - intros j b. apply refresh_set_locked.
  - intros ts2 payload Hp. rewrite validate_unfold, Hp, Hu, Hl. reflexivity.
Qed.

(** alice, locked, refreshes her session at time 5000. *)
Lemma refresh_ignores_lock_witness :
  exists s',
    refreshTokens (Db.prisma 5000) PlainCodec.jwt no_config (Sample.at_ 5000)
                  Sample.t_default Sample.s_locked
    = (Ok {| success := true;
             message := "Tokens refreshed successfully";
             data := {| Tokens.accessToken :=
                          "your-secret-jwt-key|1|alice|a@x.com|5|905";
                        Tokens.refreshToken :=
                          "your-refresh-secret|1|alice|a@x.com|5|604805" |}
          |}, s')
    /\ Db.find_user_by_id 1 s' = Some (Db.with_locked true Sample.alice).
Proof.
  destruct (@refresh_ignores_lock PlainCodec.jwt no_config 5000
              (Sample.at_ 5000) Sample.t_default Sample.s_locked
              Sample.session (Db.with_locked true Sample.alice)
              {| Tokens.accessToken :=
                   "your-secret-jwt-key|1|alice|a@x.com|5|905";
                 Tokens.refreshToken :=
                   "your-refresh-secret|1|alice|a@x.com|5|604805" |}
              ltac:(vm_compute; reflexivity) ltac:(vm_compute; reflexivity)
              eq_refl ltac:(vm_compute; discriminate)
              ltac:(vm_compute; discriminate)
              ltac:(vm_compute; reflexivity))
    as (Hok & _).
  destruct Hok as (s' & Hr & Hu & _).
  - intros x [Hx|[]] Ht. subst x. reflexivity.
  - exists s'. split; [exact Hr|exact Hu].
Defined.

(** C10 as stated fails.  alice holds two sessions, opened at times 2000 and
    3000, and is then locked.  Her refresh of the first session at time 3500
    presents a token that is found, unexpired and validly signed; the codec
    mints for it the string that her second session already holds (same
    claims, same second), the update is refused by the unique index on
    refreshToken, and the call fails with P2002 instead of returning a
    pair. *)
Lemma locked_refresh_hits_unique_index :
  let s := Db.set_locked 1 true Scenario.two_devices in
  Db.find_token Sample.t_default s = Some Sample.session
  /\ option_map User.isLocked (Db.find_user_by_id 1 s) = Some true
  /\ at_expiryCheck (Sample.at_ 3500) <= UserTokens.expiresAt Sample.session
  /\ verifyAsync PlainCodec.jwt (at_verify (Sample.at_ 3500))
                 Sample.t_default (jwtRefreshSecret no_config) <> None
  /\ refreshTokens (Db.prisma 3500) PlainCodec.jwt no_config
                   (Sample.at_ 3500) Sample.t_default s
     = (Fail (PrismaClientError (P2002 "refreshToken")), s).
Proof.
  cbv zeta. split; [vm_compute; reflexivity|].
  split; [vm_compute; reflexivity|].
  split; [vm_compute; discriminate|].
  split; [vm_compute; discriminate|].
  vm_compute. reflexivity.
Qed.

(** ** The rotated-out token (C2) *)

(** After a successful refresh, the row found by the new token is the
    rotated session row. *)
Lemma find_rotated ts now s row tokens :
  Db.consistent s ->
  In row (Db.userTokens s) ->
  (forall x, In x (Db.userTokens s) ->
             UserTokens.refreshToken x = Tokens.refreshToken tokens ->
             UserTokens.id x = UserTokens.id row) ->
  Db.find_token
    (Tokens.refreshToken tokens)
    (Db.set_userTokens s
       (map (fun x => if Db.has_row_id (UserTokens.id row) x
                      then Db.rotated ts (rotation now tokens) x
                      else x) (Db.userTokens s)))
  = Some (Db.rotated ts (rotation now tokens) row).
Proof.
  intros Hs Hin Hc.
  set (r := Tokens.refreshToken _) in *.
  set (d := rotation now _).
  set (s' := Db.set_userTokens s _).
  destruct (Db.find_token r s') as [x|] eqn:Hf.
  - apply DbFacts.find_token_some in Hf. destruct Hf as [Hx Ht].
    subst s'. simpl in Hx. apply in_map_iff in Hx.
    destruct Hx as (y & Hy & Hyin).
    destruct (Db.has_row_id (UserTokens.id row) y) eqn:Ei.
    + apply DbFacts.has_row_id_true in Ei.
      assert (y = row)
        by (eapply unique_row_id; eauto; apply (Db.row_ids_unique Hs)).
      congruence.
    + subst x. apply Hc in Ht; auto.
      apply DbFacts.has_row_id_true in Ht. congruence.
  - apply DbFacts.find_token_none in Hf. exfalso.
    apply (Hf (Db.rotated ts d row)); [|reflexivity].
    subst s'. simpl. now apply rotated_in_table.
Qed.

(** C2, amended.  In a store that respects the keys of the session table,
    let refresh(t) succeed and return a refresh token different from t.
    Then no session row holds t any more: a refresh with t fails with
    UnauthorizedException "Invalid refresh token", at once and after any
    further requests that do not mint the string t again (none is served at
    an instant at which the codec would mint t, or, more precisely, no login
    or refresh among them hands out t).  A refresh with
    the returned token succeeds, when it is made within the seven days of
    the row, the token verifies, signAsync mints a pair for it, and no other
    row holds the refresh string of that pair. *)
Theorem rotation_retires_old_token :
  forall jwt cfg ts now t s resp s',
    Db.consistent s ->
    refreshTokens (Db.prisma ts) jwt cfg now t s = (Ok resp, s') ->
    Tokens.refreshToken (data resp) <> t ->
    Db.absent t s'
    /\ (forall ts2 now2,
           refreshTokens (Db.prisma ts2) jwt cfg now2 t s'
           = (Fail (UnauthorizedException "Invalid refresh token"), s'))
    /\ (forall argon2 es ts2 now2,
           Forall (never_mints jwt cfg t) es ->
           Db.absent t (serve_all jwt argon2 cfg s' es)
           /\ refreshTokens (Db.prisma ts2) jwt cfg now2 t
                            (serve_all jwt argon2 cfg s' es)
              = (Fail (UnauthorizedException "Invalid refresh token"),
                 serve_all jwt argon2 cfg s' es))
    /\ (forall argon2 es ts2 now2,
           never_issued jwt argon2 cfg t s' es ->
           Db.absent t (serve_all jwt argon2 cfg s' es)
           /\ refreshTokens (Db.prisma ts2) jwt cfg now2 t
                            (serve_all jwt argon2 cfg s' es)
              = (Fail (UnauthorizedException "Invalid refresh token"),
                 serve_all jwt argon2 cfg s' es))
    /\ (exists row user,
           Db.find_token t s = Some row
           /\ Db.find_user_by_id (UserTokens.userId row) s = Some user
           /\ forall ts2 now2 tokens2,
               at_expiryCheck now2 <= at_expires now + SEVEN_DAYS_MS ->
               verifyAsync jwt (at_verify now2)
                           (Tokens.refreshToken (data resp))
                           (jwtRefreshSecret cfg) <> None ->
               generateTokens jwt cfg now2 (User.id user)
                              (User.username user) (User.email user)
               = Ok tokens2 ->
               (forall x, In x (Db.userTokens s') ->
                          UserTokens.refreshToken x
                          = Tokens.refreshToken tokens2 ->
                          UserTokens.id x = UserTokens.id row) ->
               exists s2,
                 refreshTokens (Db.prisma ts2) jwt cfg now2
                               (Tokens.refreshToken (data resp)) s'
                 = (Ok {| success := true;
                          message := "Tokens refreshed successfully";
                          data := tokens2 |},
                    s2)).
Proof.
  intros jwt cfg ts now t s resp s' Hs H Hne.
  apply refresh_success in H.
  destruct H as (row & user & tokens & Hf & Hexp & Hv & Hu & Hm & Hr & Hs'
                 & Hc).
  destruct (DbFacts.find_token_some _ _ Hf) as [Hin Ht].
  assert (Ha : Db.absent t s').
  { subst s' resp. unfold Db.absent. simpl in *. intros x Hx E.
    apply in_map_iff in Hx. destruct Hx as (y & Hy & Hyin).
    destruct (Db.has_row_id (UserTokens.id row) y) eqn:Ei; subst x.
    - simpl in E. congruence.
    - assert (y = row).
      { eapply DbFacts.unique_holder; eauto.
        - apply (Db.tokens_unique Hs).
        - congruence. }
      subst y. unfold Db.has_row_id in Ei. rewrite Z.eqb_refl in Ei.
      discriminate. }
  split; [exact Ha|]. split; [|split; [|split]].
  - intros ts2 now2. now apply refresh_absent.
  - intros argon2 es ts2 now2 Hes.
    assert (Ha2 : Db.absent t (serve_all jwt argon2 cfg s' es))
      by now apply absent_serve_all.
    split; [exact Ha2|]. now apply refresh_absent.
  - intros argon2 es ts2 now2 Hes.
    assert (Ha2 : Db.absent t (serve_all jwt argon2 cfg s' es))
      by now apply absent_serve_all_issued.
    split; [exact Ha2|]. now apply refresh_absent.
  - exists row, user. split; [exact Hf|]. split; [exact Hu|].
    intros ts2 now2 tokens2 Hexp2 Hv2 Hm2 Hc2. subst resp s'. simpl in *.
    eexists.
    apply refresh_accepted
      with (row := Db.rotated ts (rotation now tokens) row) (user := user).
    + now apply find_rotated.
    + exact Hu.
    + simpl. exact Hexp2.
    + exact Hv2.
    + exact Hm2.
    + exact Hc2.
Qed.

(** alice refreshes at time 5000, three seconds after her login: the token
    of her login is then refused and the new one is accepted at time
    9000. *)
Lemma rotation_retires_old_token_witness :
  exists resp s',
    refreshTokens (Db.prisma 5000) PlainCodec.jwt no_config (Sample.at_ 5000)
                  Sample.t_default Sample.s_default = (Ok resp, s')
    /\ Tokens.refreshToken (data resp) <> Sample.t_default
    /\ refreshTokens (Db.prisma 9000) PlainCodec.jwt no_config
                     (Sample.at_ 9000) Sample.t_default s'
       = (Fail (UnauthorizedException "Invalid refresh token"), s')
    /\ exists s2,
        refreshTokens (Db.prisma 9000) PlainCodec.jwt no_config
                      (Sample.at_ 9000) (Tokens.refreshToken (data resp)) s'
        = (Ok {| success := true;
                 message := "Tokens refreshed successfully";
                 data := {| Tokens.accessToken :=
                              "your-secret-jwt-key|1|alice|a@x.com|9|909";
                            Tokens.refreshToken :=
                              "your-refresh-secret|1|alice|a@x.com|9|604809"
                         |} |}, s2).
Proof.
  eexists. eexists. split; [vm_compute; reflexivity|].
  split; [vm_compute; discriminate|].
  destruct (@rotation_retires_old_token PlainCodec.jwt no_config 5000
              (Sample.at_ 5000) Sample.t_default Sample.s_default _ _
              sample_consistent ltac:(vm_compute; reflexivity)
              ltac:(vm_compute; discriminate))
    as (_ & Hold & _ & _ & (row & user & Hf & Hu & Hnew)).
  split; [exact (Hold 9000 (Sample.at_ 9000))|].
  vm_compute in Hf. inversion Hf; subst row.
  vm_compute in Hu. inversion Hu; subst user.
  apply (Hnew 9000 (Sample.at_ 9000)).
  - vm_compute. discriminate.
  - vm_compute. discriminate.
  - vm_compute. reflexivity.
  - intros x [Hx|[]] Ht. subst x. reflexivity.
Defined.

(** C2 as stated fails.  The codec stamps the issued-at and expiry times in
    whole seconds, so for the same claims it mints the same string twice
    within one second.  alice logs in at time 2000; her refresh at time 2500
    succeeds and returns the string she presented, the row is rewritten with
    that same string, and a second refresh with it at time 2700 succeeds
    too. *)
Lemma refresh_twice_within_a_second :
  exists resp s' resp2 s2,
    refreshTokens (Db.prisma 2500) PlainCodec.jwt no_config (Sample.at_ 2500)
                  Sample.t_default Sample.s_default = (Ok resp, s')
    /\ Tokens.refreshToken (data resp) = Sample.t_default
    /\ map UserTokens.refreshToken (Db.userTokens s') = [Sample.t_default]
    /\ refreshTokens (Db.prisma 2700) PlainCodec.jwt no_config
                     (Sample.at_ 2700) Sample.t_default s' = (Ok resp2, s2).
Proof.
  eexists. eexists. eexists. eexists.
  split; [vm_compute; reflexivity|].
  split; [reflexivity|]. split; [reflexivity|].
  vm_compute. reflexivity.
Qed.

(** * Further properties of the module *)

(** ** logout *)

(** X1.  logout always succeeds.  It removes the session rows that have both
    the given owner and the given token and leaves every other row and every
    user as they were; when the row holding the token belongs to somebody
    else, nothing is removed. *)
Theorem logout_removes_own_session_only :
  forall ts u t s,
    exists s',
      logout (Db.prisma ts) u t s
      = (Ok {| success := true; message := "Logout successful"; data := tt |},
         s')
      /\ Db.users s' = Db.users s
      /\ (forall x, In x (Db.userTokens s') <->
                    In x (Db.userTokens s)
                    /\ ~ (UserTokens.userId x = u
                          /\ UserTokens.refreshToken x = t))
      /\ ((forall x, In x (Db.userTokens s) ->
                     UserTokens.refreshToken x = t ->
                     UserTokens.userId x <> u) ->
          Db.userTokens s' = Db.userTokens s).
Proof.
  intros ts u t s. eexists. split; [apply logout_unfold|]. simpl.
  split; [reflexivity|]. split.
  - intros x. rewrite filter_In. unfold Db.deleteMany_matches, Db.owned_by.
    split; intros [Hin Hm]; split; auto.
    + intros [Hu Ht]. apply Z.eqb_eq in Hu.
      apply DbFacts.has_token_true in Ht. rewrite Hu, Ht in Hm. discriminate.
    + destruct (UserTokens.userId x =? u) eqn:Eu; [|reflexivity].
      destruct (Db.has_token t x) eqn:Et; [|reflexivity].
      exfalso. apply Hm. split; [now apply Z.eqb_eq|].
      now apply DbFacts.has_token_true.
  - intros Hother. apply forallb_filter_id. apply forallb_forall.
    intros x Hx. unfold Db.deleteMany_matches, Db.owned_by.
    destruct (Db.has_token t x) eqn:Et; [|now rewrite andb_false_r].
    apply DbFacts.has_token_true in Et. specialize (Hother x Hx Et).
    apply Z.eqb_neq in Hother. rewrite Hother. reflexivity.
Qed.

(** bob presents alice's refresh token to logout: her session stays. *)
Lemma logout_removes_own_session_only_witness :
  exists s',
    logout (Db.prisma 9000) 2 Sample.t_default Scenario.two
    = (Ok {| success := true; message := "Logout successful"; data := tt |},
       s')
    /\ Db.userTokens s' = Db.userTokens Scenario.two.
Proof.
  destruct (logout_removes_own_session_only 9000 2 Sample.t_default
              Scenario.two) as (s' & Hr & _ & _ & Hsame).
  exists s'. split; [exact Hr|]. apply Hsame.
  intros x [Hx|[Hx|[]]] Ht; subst x; vm_compute; discriminate.
Defined.




(** ** changePassword *)

(** X3.  The two comparisons of changePassword come before any call on the
    store, whatever the store is: a confirmation that differs from the new
    password gives ConflictException "New passwords do not match", and a new
    password equal to the current one gives ConflictException "New password
    must be different from current password"; the store is left as it was,
    and neither the user id nor the current password is looked at. *)
Theorem changePassword_compares_first :
  forall (S : Type) (prisma : PrismaService S) argon2 u cur new conf salt s,
    (new <> conf ->
     changePassword prisma argon2 u cur new conf salt s
     = (Fail (ConflictException "New passwords do not match"), s))
    /\ (new = conf -> cur = new ->
        changePassword prisma argon2 u cur new conf salt s
        = (Fail (ConflictException
                   "New password must be different from current password"),
           s)).
Proof.
  intros S prisma argon2 u cur new conf salt s. unfold changePassword. split.
  - intros Hne. apply String.eqb_neq in Hne. rewrite Hne. reflexivity.
  - intros E1 E2. subst conf cur. rewrite String.eqb_refl. reflexivity.
Qed.

(** With the store out of reach, a mismatch is still reported as such. *)
Lemma changePassword_compares_first_witness :
  changePassword Outage.prisma PlainHasher.argon2 7 "Abc123!" "Xyz789!"
                 "Xyz780!" "nc" Sample.s_default
  = (Fail (ConflictException "New passwords do not match"), Sample.s_default)
  /\ changePassword Outage.prisma PlainHasher.argon2 7 "Abc123!" "Abc123!"
                    "Abc123!" "nc" Sample.s_default
     = (Fail (ConflictException
                "New password must be different from current password"),
        Sample.s_default).
Proof.
  split.
  - apply (changePassword_compares_first Outage.prisma PlainHasher.argon2 7
             "Abc123!" "Xyz789!" "Xyz780!" "nc" Sample.s_default).
    discriminate.
  - apply (changePassword_compares_first Outage.prisma PlainHasher.argon2 7
             "Abc123!" "Abc123!" "Abc123!" "nc" Sample.s_default);
      reflexivity.
Defined.

(** X4.  A changePassword call that fails leaves the store exactly as it
    was, and fails in one of four ways, tested in this order: the
    confirmation differs, the new password equals the current one, no user
    has the id, the current password does not verify against the stored
    hash. *)
Theorem changePassword_fails_cleanly :
  forall argon2 ts u cur new conf salt s e s',
    changePassword (Db.prisma ts) argon2 u cur new conf salt s
    = (Fail e, s') ->
    s' = s
    /\ ((new <> conf
         /\ e = ConflictException "New passwords do not match")
        \/ (new = conf /\ cur = new
            /\ e = ConflictException
                     "New password must be different from current password")
        \/ (new = conf /\ cur <> new
            /\ Db.find_user_by_id u s = None
            /\ e = UnauthorizedException "User not found")
        \/ (new = conf /\ cur <> new
            /\ exists user,
                Db.find_user_by_id u s = Some user
                /\ verify argon2 (User.password user) cur = false
                /\ e = UnauthorizedException "Current password is incorrect")).
Proof.
  intros argon2 ts u cur new conf salt s e s' H.
  rewrite changePassword_unfold in H.
  destruct (new =? conf)%string eqn:E1; simpl in H.
  2:{ inversion H; subst. split; [reflexivity|]. left.
      split; [now apply String.eqb_neq|reflexivity]. }
  apply String.eqb_eq in E1.
  destruct (cur =? new)%string eqn:E2.
  { inversion H; subst. split; [reflexivity|]. right. left.
    apply String.eqb_eq in E2. auto. }
  apply String.eqb_neq in E2.
  destruct (Db.find_user_by_id u s) as [user|] eqn:Hf.
  2:{ inversion H; subst. split; [reflexivity|]. right. right. left. auto. }
  destruct (verify argon2 (User.password user) cur) eqn:Hv; [discriminate|].
  inversion H; subst. split; [reflexivity|]. right. right. right.
  split; [reflexivity|]. split; [assumption|]. exists user. auto.
Qed.

(** alice mistypes her current password. *)
Lemma changePassword_fails_cleanly_witness :
  changePassword (Db.prisma 9000) PlainHasher.argon2 1 "abc123!" "Xyz789!"
                 "Xyz789!" "nc" Sample.s_default
  = (Fail (UnauthorizedException "Current password is incorrect"),
     Sample.s_default).
Proof.
  destruct (changePassword (Db.prisma 9000) PlainHasher.argon2 1 "abc123!"
              "Xyz789!" "Xyz789!" "nc" Sample.s_default)
    as [[r|e] s'] eqn:E; [vm_compute in E; discriminate|].
  destruct (changePassword_fails_cleanly _ _ _ _ _ _ _ _ E) as [Hs Hcases].
  subst s'. f_equal. f_equal.
  destruct Hcases as [[Hne _]|[(_ & Hc & _)|[(_ & _ & Hf & _)|
                     (_ & _ & user & _ & _ & He)]]].
  - elim Hne. reflexivity.
  - discriminate Hc.
  - vm_compute in Hf. discriminate.
  - exact He.
Defined.


(** X5.  A changePassword call that succeeds found the user, verified the
    current password, and replaced the stored hash of the users with that id
    by the hash of the new password.  No user is added or removed, nobody's
    id, email, username or locked flag changes, and the rows of the other
    users are untouched. *)
Theorem changePassword_replaces_hash :
  forall argon2 ts u cur new conf salt s resp s',
    changePassword (Db.prisma ts) argon2 u cur new conf salt s
    = (Ok resp, s') ->
    new = conf /\ cur <> new
    /\ (exists user,
           Db.find_user_by_id u s = Some user
           /\ verify argon2 (User.password user) cur = true)
    /\ message resp = "Password changed successfully. Please login again."
    /\ map Accounts.standing (Db.users s')
       = map Accounts.standing (Db.users s)
    /\ (forall x, In x (Db.users s') -> User.id x = u ->
                  User.password x = hash argon2 salt new)
    /\ (forall x, In x (Db.users s) -> User.id x <> u ->
                  In x (Db.users s'))
    /\ (forall x, In x (Db.users s') -> User.id x <> u ->
                  In x (Db.users s)).
Proof.
  intros argon2 ts u cur new conf salt s resp s' H.
  rewrite changePassword_unfold in H.
  destruct (new =? conf)%string eqn:E1; simpl in H; [|discriminate].
  destruct (cur =? new)%string eqn:E2; [discriminate|].
  destruct (Db.find_user_by_id u s) as [user|] eqn:Hf; [|discriminate].
  destruct (verify argon2 (User.password user) cur) eqn:Hv; [|discriminate].
  inversion H; subst; clear H. simpl.
  apply String.eqb_eq in E1. apply String.eqb_neq in E2.
  split; [assumption|]. split; [assumption|].
  split; [exists user; auto|]. split; [reflexivity|].
  split; [|split; [|split]].
  - rewrite map_map. apply map_ext. intros x.
    destruct (Db.has_id u x); reflexivity.
  - intros x Hx Hid. apply in_map_iff in Hx. destruct Hx as (y & Hy & _).
    destruct (Db.has_id u y) eqn:Ey; subst x; [reflexivity|].
    unfold Db.has_id in Ey. apply Z.eqb_neq in Ey. contradiction.
  - intros x Hx Hid. apply in_map_iff. exists x. split; [|assumption].
    unfold Db.has_id. apply Z.eqb_neq in Hid. now rewrite Hid.
  - intros x Hx Hid. apply in_map_iff in Hx. destruct Hx as (y & Hy & Hin).
    destruct (Db.has_id u y) eqn:Ey; subst x; [|assumption].
    simpl in Hid. unfold Db.has_id in Ey. apply Z.eqb_eq in Ey.
    contradiction.
Qed.

(** alice changes her password in the two-user store; bob's row stays. *)
Lemma changePassword_replaces_hash_witness :
  exists resp s',
    changePassword (Db.prisma 9000) PlainHasher.argon2 1 "Abc123!" "Xyz789!"
                   "Xyz789!" "nc" Scenario.two = (Ok resp, s')
    /\ map Accounts.standing (Db.users s')
       = map Accounts.standing (Db.users Scenario.two)
    /\ map User.password (Db.users s') = ["nc$Xyz789!"; "nb$Bob456!"].
Proof.
  eexists. eexists. split; [vm_compute; reflexivity|].
  destruct (@changePassword_replaces_hash PlainHasher.argon2 9000 1
              "Abc123!" "Xyz789!" "Xyz789!" "nc" Scenario.two _ _
              ltac:(vm_compute; reflexivity))
    as (_ & _ & _ & _ & Hst & _).
  split; [exact Hst|reflexivity].
Defined.


(** ** login, once the credentials are right *)

Lemma login_accepted jwt argon2 cfg ts now dto ua ip s user tokens :
  Db.find_user_by_email (login_email dto) s = Some user ->
  User.isLocked user = false ->
  verify argon2 (User.password user) (login_password dto) = true ->
  generateTokens jwt cfg now (User.id user) (User.username user)
                 (User.email user) = Ok tokens ->
  Db.absent (Tokens.refreshToken tokens) s ->
  login (Db.prisma ts) jwt argon2 cfg now dto ua ip s
  = (Ok {| success := true;
           message := "User logged in successfully";
           data :=
             {| ld_user := {| cu_id := User.id user;
                              cu_username := User.username user;
                              cu_email := User.email user |};
                ld_accessToken := Tokens.accessToken tokens;
                ld_refreshToken := Tokens.refreshToken tokens |} |},
     {| Db.users := Db.users s;
        Db.userTokens :=
          (Db.userTokens s
             ++ [opened_session ts now s user
                   (Tokens.refreshToken tokens) ua ip])%list;
        Db.User_id_seq := Db.User_id_seq s;
        Db.UserTokens_id_seq := Db.UserTokens_id_seq s + 1 |}).
Proof.
  intros Hf Hl Hv Hm Ha. rewrite login_unfold, Hf, Hl, Hv, Hm.
  unfold Db.userTokens_create.
  cbn [tc_refreshToken tc_userId tc_userAgent tc_ipAddress tc_deviceInfo
       tc_expiresAt].
  apply DbFacts.existsb_has_token in Ha. rewrite Ha.
  assert (Hfk : existsb (Db.has_id (User.id user)) (Db.users s) = true).
  { apply existsb_exists. exists user. split.
    - unfold Db.find_user_by_email in Hf. now apply find_some in Hf.
    - unfold Db.has_id. apply Z.eqb_refl. }
  rewrite Hfk. reflexivity.
Qed.

(** When signAsync rejects, login throws its Error and writes nothing. *)
Lemma login_unsigned jwt argon2 cfg ts now dto ua ip s user err :
  Db.find_user_by_email (login_email dto) s = Some user ->
  User.isLocked user = false ->
  verify argon2 (User.password user) (login_password dto) = true ->
  generateTokens jwt cfg now (User.id user) (User.username user)
                 (User.email user) = Fail err ->
  login (Db.prisma ts) jwt argon2 cfg now dto ua ip s = (Fail err, s).
Proof.
  intros Hf Hl Hv Hm. rewrite login_unfold, Hf, Hl, Hv, Hm. reflexivity.
Qed.




(** ** register, when it succeeds *)

Lemma email_free_iff e s :
  Db.find_user_by_email e s = None
  <-> existsb (Db.has_email e) (Db.users s) = false.
Proof.
  unfold Db.find_user_by_email. split; intros H.
  - destruct (existsb (Db.has_email e) (Db.users s)) eqn:E; [|reflexivity].
    apply existsb_exists in E. destruct E as (x & Hx & Hm).
    rewrite (find_none _ _ H x Hx) in Hm. discriminate.
  - destruct (find (Db.has_email e) (Db.users s)) as [u|] eqn:E;
      [|reflexivity].
    apply find_some in E. destruct E as [Hin Hm].
    assert (existsb (Db.has_email e) (Db.users s) = true)
      by (apply existsb_exists; eauto).
    congruence.
Qed.

Lemma register_on_fresh argon2 ts dto salt s :
  Db.find_user_by_email (reg_email dto) s = None ->
  existsb (Db.has_username (reg_username dto)) (Db.users s) = false ->
  register (Db.prisma ts) argon2 dto salt s
  = (Ok {| success := true;
           message := "User registered successfully";
           data := {| ru_id := Db.User_id_seq s;
                      ru_email := reg_email dto;
                      ru_username := reg_username dto;
                      ru_createdAt := ts |} |},
     {| Db.users :=
          (Db.users s ++ [registered_user argon2 ts s dto salt])%list;
        Db.userTokens := Db.userTokens s;
        Db.User_id_seq := Db.User_id_seq s + 1;
        Db.UserTokens_id_seq := Db.UserTokens_id_seq s |}).
Proof.
  intros Hf Hu. rewrite register_unfold. simpl.
  unfold Db.user_findUnique_email, Db.user_create. simpl.
  rewrite Hf. simpl. apply email_free_iff in Hf. rewrite Hf, Hu.
  reflexivity.
Qed.

Lemma register_success_was_fresh argon2 ts dto salt s resp s' :
  register (Db.prisma ts) argon2 dto salt s = (Ok resp, s') ->
  Db.find_user_by_email (reg_email dto) s = None
  /\ existsb (Db.has_username (reg_username dto)) (Db.users s) = false.
Proof.
  rewrite register_unfold. simpl.
  unfold Db.user_findUnique_email, Db.user_create. simpl.
  destruct (Db.find_user_by_email (reg_email dto) s) eqn:Hf; simpl;
    [discriminate|].
  destruct (existsb (Db.has_email _) (Db.users s)); [discriminate|].
  destruct (existsb (Db.has_username _) (Db.users s)); [discriminate|].
  auto.
Qed.

(** X7.  register succeeds exactly when no user has the email and no user
    has the username.  It then appends one user row: the next id of the
    sequence, the email and username of the request, the argon2 hash of the
    password, the locked flag cleared; the response carries the id, email,
    username and creation time of that row, and the session table is left
    as it was. *)
Theorem register_creates_unlocked_user :
  forall argon2 ts dto salt s,
    (Db.find_user_by_email (reg_email dto) s = None ->
     existsb (Db.has_username (reg_username dto)) (Db.users s) = false ->
     register (Db.prisma ts) argon2 dto salt s
     = (Ok {| success := true;
              message := "User registered successfully";
              data := {| ru_id := Db.User_id_seq s;
                         ru_email := reg_email dto;
                         ru_username := reg_username dto;
                         ru_createdAt := ts |} |},
        {| Db.users :=
             (Db.users s ++ [registered_user argon2 ts s dto salt])%list;
           Db.userTokens := Db.userTokens s;
           Db.User_id_seq := Db.User_id_seq s + 1;
           Db.UserTokens_id_seq := Db.UserTokens_id_seq s |}))
    /\ (forall resp s',
           register (Db.prisma ts) argon2 dto salt s = (Ok resp, s') ->
           Db.find_user_by_email (reg_email dto) s = None
           /\ existsb (Db.has_username (reg_username dto)) (Db.users s)
              = false).
Proof.
  intros argon2 ts dto salt s. split.
  - apply register_on_fresh.
  - intros resp s'. apply register_success_was_fresh.
Qed.

(** bob registers on the sample store. *)
Lemma register_creates_unlocked_user_witness :
  exists s',
    register (Db.prisma 3000) PlainHasher.argon2 Scenario.bob_dto "nb"
             Sample.s_default
    = (Ok {| success := true;
             message := "User registered successfully";
             data := {| ru_id := 2; ru_email := "b@x.com";
                        ru_username := "bob"; ru_createdAt := 3000 |} |}, s')
    /\ map User.isLocked (Db.users s') = [false; false]
    /\ map User.password (Db.users s') = ["na$Abc123!"; "nb$Bob456!"].
Proof.
  eexists. split.
  - apply (register_creates_unlocked_user PlainHasher.argon2 3000
             Scenario.bob_dto "nb" Sample.s_default);
      vm_compute; reflexivity.
  - split; reflexivity.
Defined.

Lemma find_new_user_by_email e (l : list User.t) u :
  find (Db.has_email e) l = None -> User.email u = e ->
  find (Db.has_email e) (l ++ [u]) = Some u.
Proof.
  intros Hn He. induction l as [|a l IH]; simpl in *.
  - unfold Db.has_email. rewrite He, String.eqb_refl. reflexivity.
  - destruct (Db.has_email e a); [discriminate|]. now apply IH.
Qed.

(** X8.  After a successful register: a second register with the same
    email, whatever the username and password, fails with ConflictException
    "Email already exists" and changes nothing.  Take a login with that
    email and a password that verifies against the stored hash.  If
    signAsync mints a pair for it and the refresh string of the pair is held
    by no session row, the login succeeds, returns that pair with the id
    that register returned, and appends one session row.  If signAsync
    rejects, the login throws that Error and writes nothing.  For a
    password that does not verify the login fails with "Invalid email or
    password". *)
Theorem register_then_login :
  forall jwt argon2 cfg ts dto salt s resp s',
    register (Db.prisma ts) argon2 dto salt s = (Ok resp, s') ->
    (forall ts2 dto2 salt2,
        reg_email dto2 = reg_email dto ->
        register (Db.prisma ts2) argon2 dto2 salt2 s'
        = (Fail (ConflictException "Email already exists"), s'))
    /\ (forall ts2 now2 ua ip pw tokens,
           verify argon2 (hash argon2 salt (reg_password dto)) pw = true ->
           generateTokens jwt cfg now2 (ru_id (data resp))
                          (reg_username dto) (reg_email dto) = Ok tokens ->
           Db.absent (Tokens.refreshToken tokens) s ->
           exists resp2 s2,
             login (Db.prisma ts2) jwt argon2 cfg now2
                   {| login_email := reg_email dto; login_password := pw |}
                   ua ip s' = (Ok resp2, s2)
             /\ ld_user (data resp2)
                = {| cu_id := ru_id (data resp);
                     cu_username := reg_username dto;
                     cu_email := reg_email dto |}
             /\ ld_accessToken (data resp2) = Tokens.accessToken tokens
             /\ ld_refreshToken (data resp2) = Tokens.refreshToken tokens
             /\ Db.userTokens s2
                = (Db.userTokens s
                     ++ [opened_session ts2 now2 s'
                           (registered_user argon2 ts s dto salt)
                           (ld_refreshToken (data resp2)) ua ip])%list)
    /\ (forall ts2 now2 ua ip pw err,
           verify argon2 (hash argon2 salt (reg_password dto)) pw = true ->
           generateTokens jwt cfg now2 (ru_id (data resp))
                          (reg_username dto) (reg_email dto) = Fail err ->
           login (Db.prisma ts2) jwt argon2 cfg now2
                 {| login_email := reg_email dto; login_password := pw |}
                 ua ip s' = (Fail err, s'))
    /\ (forall ts2 now2 ua ip pw,
           verify argon2 (hash argon2 salt (reg_password dto)) pw = false ->
           login (Db.prisma ts2) jwt argon2 cfg now2
                 {| login_email := reg_email dto; login_password := pw |}
                 ua ip s'
           = (Fail (UnauthorizedException "Invalid email or password"), s')).
Proof.
  intros jwt argon2 cfg ts dto salt s resp s' H.
  destruct (register_success_was_fresh _ _ _ _ _ H) as [Hf Hu].
  rewrite (register_on_fresh argon2 ts dto salt s Hf Hu) in H.
  inversion H; subst resp s'; clear H.
  set (u := registered_user argon2 ts s dto salt).
  set (s' := {| Db.users := _; Db.userTokens := _;
                Db.User_id_seq := _; Db.UserTokens_id_seq := _ |}).
  assert (Hf' : Db.find_user_by_email (reg_email dto) s' = Some u).
  { unfold Db.find_user_by_email. subst s'. simpl.
    apply find_new_user_by_email; [exact Hf|reflexivity]. }
  split; [|split; [|split]].
  - intros ts2 dto2 salt2 He. rewrite register_unfold. simpl.
    unfold Db.user_findUnique_email. rewrite He, Hf'. reflexivity.
  - intros ts2 now2 ua ip pw tokens Hv Hm Ha. eexists. eexists. split.
    + apply login_accepted with (user := u) (tokens := tokens); auto.
    + repeat split; reflexivity.
  - intros ts2 now2 ua ip pw err Hv Hm.
    apply login_unsigned with (user := u); auto.
  - intros ts2 now2 ua ip pw Hv. rewrite login_unfold. simpl login_email.
    rewrite Hf'. simpl. rewrite Hv. reflexivity.
Qed.

(** bob registers on the sample store, then logs in at time 4000; under a
    refresh TTL that is not a time span his login ends with the codec's
    Error and no session row. *)
Lemma register_then_login_witness :
  exists resp s' resp2 s2,
    register (Db.prisma 3000) PlainHasher.argon2 Scenario.bob_dto "nb"
             Sample.s_default = (Ok resp, s')
    /\ register (Db.prisma 3500) PlainHasher.argon2
                {| reg_email := "b@x.com"; reg_username := "bobby";
                   reg_password := "Other99!" |} "nx" s'
       = (Fail (ConflictException "Email already exists"), s')
    /\ login (Db.prisma 4000) PlainCodec.jwt PlainHasher.argon2 no_config
             (Sample.at_ 4000) Scenario.bob_login "firefox" "10.0.0.2" s'
       = (Ok resp2, s2)
    /\ ld_user (data resp2) = Scenario.bob_identity
    /\ exists m,
        login (Db.prisma 4000) PlainCodec.jwt PlainHasher.argon2
              Sample.unreadable_ttl (Sample.at_ 4000) Scenario.bob_login
              "firefox" "10.0.0.2" s'
        = (Fail (Error m), s').
Proof.
  destruct (register (Db.prisma 3000) PlainHasher.argon2 Scenario.bob_dto
              "nb" Sample.s_default) as [[resp|e] s'] eqn:E;
    [|vm_compute in E; discriminate].
  destruct (@register_then_login PlainCodec.jwt PlainHasher.argon2 no_config
              3000 Scenario.bob_dto "nb" Sample.s_default resp s' E)
    as (Hagain & Hlogin & _).
  destruct (@register_then_login PlainCodec.jwt PlainHasher.argon2
              Sample.unreadable_ttl 3000 Scenario.bob_dto "nb"
              Sample.s_default resp s' E)
    as (_ & _ & Hunsigned & _).
  destruct (Hlogin 4000 (Sample.at_ 4000) "firefox" "10.0.0.2" "Bob456!"
              {| Tokens.accessToken :=
                   "your-secret-jwt-key|2|bob|b@x.com|4|904";
                 Tokens.refreshToken := Scenario.t_bob |})
    as (resp2 & s2 & Hl & Hid & _).
  - vm_compute. reflexivity.
  - vm_compute in E. inversion E; subst resp s'. vm_compute. reflexivity.
  - intros x [Hx|[]]; subst x; vm_compute; discriminate.
  - exists resp, s', resp2, s2. split; [reflexivity|]. split.
    + apply Hagain. reflexivity.
    + split; [exact Hl|]. split.
      * rewrite Hid.
        vm_compute in E. inversion E; subst resp s'. reflexivity.
      * eexists.
        apply (Hunsigned 4000 (Sample.at_ 4000) "firefox" "10.0.0.2"
                 "Bob456!").
        -- vm_compute. reflexivity.
        -- vm_compute in E. inversion E; subst resp s'.
           vm_compute. reflexivity.
Defined.

(** ** The keys of the user table are kept by every request *)

Lemma owner_exists_iff i (l : list User.t) :
  existsb (Db.has_id i) l = true <-> In i (map User.id l).
Proof.
  rewrite existsb_exists, in_map_iff. unfold Db.has_id.
  split; intros (x & H1 & H2); exists x.
  - apply Z.eqb_eq in H2. auto.
  - split; [assumption|]. now apply Z.eqb_eq.
Qed.

(** The keys only depend on the key columns: a store with the same ids,
    emails and usernames, a sequence not behind, and session rows owned by
    the same users respects them too. *)
Lemma keys_transfer s s' :
  map User.id (Db.users s') = map User.id (Db.users s) ->
  map User.email (Db.users s') = map User.email (Db.users s) ->
  map User.username (Db.users s') = map User.username (Db.users s) ->
  Db.User_id_seq s <= Db.User_id_seq s' ->
  (forall r, In r (Db.userTokens s') ->
             exists r0, In r0 (Db.userTokens s)
                        /\ UserTokens.userId r0 = UserTokens.userId r) ->
  Accounts.keys s -> Accounts.keys s'.
Proof.
  intros Hi He Hn Hq Hr [Ki Ke Kn Kd Ko].
  constructor; try (rewrite ?Hi, ?He, ?Hn; assumption).
  - rewrite Forall_forall in *. intros u Hu.
    assert (Hin : In (User.id u) (map User.id (Db.users s)))
      by (rewrite <- Hi; now apply in_map).
    apply in_map_iff in Hin. destruct Hin as (u0 & E & Hu0).
    apply Kd in Hu0. lia.
  - rewrite Forall_forall in *. intros r Hin.
    destruct (Hr r Hin) as (r0 & Hr0 & E).
    apply owner_exists_iff. rewrite Hi, <- E. apply owner_exists_iff.
    now apply Ko.
Qed.

Lemma keys_after_register argon2 ts dto salt s :
  Accounts.keys s ->
  Accounts.keys (snd (register (Db.prisma ts) argon2 dto salt s)).
Proof.
  intros K. rewrite register_unfold. simpl.
  unfold Db.user_findUnique_email, Db.user_create. simpl.
  destruct (Db.find_user_by_email (reg_email dto) s) eqn:Hf; simpl;
    [assumption|].
  apply email_free_iff in Hf. rewrite Hf.
  destruct (existsb (Db.has_username _) (Db.users s)) eqn:Hu; simpl.
  { eapply keys_transfer with (s := s); simpl; eauto; lia. }
  destruct K as [Ki Ke Kn Kd Ko]. rewrite Forall_forall in Kd, Ko.
  constructor; simpl; rewrite ?map_app; simpl.
  - apply NoDup_app; auto.
    + constructor; [intros []|constructor].
    + intros i Hin [E|[]]. apply in_map_iff in Hin.
      destruct Hin as (x & Hx & Hin). apply Kd in Hin. lia.
  - apply NoDup_app; auto.
    + constructor; [intros []|constructor].
    + intros e Hin [E|[]]. apply in_map_iff in Hin.
      destruct Hin as (x & Hx & Hin).
      assert (existsb (Db.has_email (reg_email dto)) (Db.users s) = true).
      { apply existsb_exists. exists x. split; [assumption|].
        unfold Db.has_email. apply String.eqb_eq. congruence. }
      congruence.
  - apply NoDup_app; auto.
    + constructor; [intros []|constructor].
    + intros n Hin [E|[]]. apply in_map_iff in Hin.
      destruct Hin as (x & Hx & Hin).
      assert (existsb (Db.has_username (reg_username dto)) (Db.users s)
              = true).
      { apply existsb_exists. exists x. split; [assumption|].
        unfold Db.has_username. apply String.eqb_eq. congruence. }
      congruence.
  - apply Forall_forall. intros x Hx. apply in_app_or in Hx.
    destruct Hx as [Hx|[Hx|[]]].
    + apply Kd in Hx. lia.
    + subst x. simpl. lia.
  - apply Forall_forall. intros r Hr. apply owner_exists_iff.
    rewrite map_app. apply in_or_app. left. apply owner_exists_iff.
    now apply Ko.
Qed.

Lemma keys_serve jwt argon2 cfg s e :
  Accounts.keys s -> Accounts.keys (serve jwt argon2 cfg s e).
Proof.
  intros K. unfold serve.
  destruct (ev_call e) as [dto salt|dto ua ip|u t'|t'|u cur new conf salt].
  - now apply keys_after_register.
  - rewrite login_unfold.
    destruct (Db.find_user_by_email (login_email dto) s) as [user|]; auto.
    destruct (User.isLocked user); auto.
    destruct (verify argon2 _ _); auto.
    destruct (generateTokens _ _ _ _ _ _) as [tokens|err0]; auto.
    unfold Db.userTokens_create.
    destruct (existsb (Db.has_token _) (Db.userTokens s)); simpl.
    { eapply keys_transfer with (s := s); simpl; eauto; lia. }
    destruct (existsb (Db.has_id (User.id user)) (Db.users s)) eqn:Hfk; simpl.
    2:{ eapply keys_transfer with (s := s); simpl; eauto; lia. }
    destruct K as [Ki Ke Kn Kd Ko].
    constructor; simpl; auto.
    apply Forall_app. split; [assumption|].
    constructor; [exact Hfk|constructor].
  - rewrite logout_unfold. simpl.
    eapply keys_transfer with (s := s); simpl; eauto; try lia.
    intros r Hr. apply filter_In in Hr. exists r. tauto.
  - rewrite refreshTokens_unfold.
    destruct (Db.find_token t' s) as [row|]; auto.
    destruct (UserTokens.expiresAt row <? _); simpl.
    { eapply keys_transfer with (s := s); simpl; eauto; try lia.
      intros r Hr. apply filter_In in Hr. exists r. tauto. }
    destruct (verifyAsync _ _ _ _); auto.
    destruct (Db.find_user_by_id _ s) as [user|]; auto.
    destruct (generateTokens _ _ _ _ _ _) as [tokens|err0]; auto.
    destruct (Db.userTokens_update _ _ _ s) as [[r|err] s1] eqn:Hu; simpl.
    + apply userTokens_update_rows in Hu. destruct Hu as [Hs1 _]. subst s1.
      eapply keys_transfer with (s := s); simpl; eauto; try lia.
      intros r0 Hr0. apply in_map_iff in Hr0. destruct Hr0 as (y & Hy & Hin).
      exists y. split; [assumption|].
      destruct (Db.has_row_id _ y); subst r0; reflexivity.
    + apply userTokens_update_fails in Hu. now subst s1.
  - rewrite changePassword_unfold.
    destruct (negb _); auto. destruct (cur =? new)%string; auto.
    destruct (Db.find_user_by_id u s) as [user|]; auto.
    destruct (verify argon2 _ _); auto. simpl.
    eapply keys_transfer with (s := s); simpl; eauto; try lia;
      try (rewrite map_map; apply map_ext; intros x;
           destruct (Db.has_id u x); reflexivity).
    intros r Hr. apply filter_In in Hr. exists r. tauto.
Qed.

Lemma keys_empty : Accounts.keys Db.empty.
Proof. constructor; simpl; constructor. Qed.

Lemma keys_serve_all jwt argon2 cfg es : forall s,
  Accounts.keys s -> Accounts.keys (serve_all jwt argon2 cfg s es).
Proof.
  induction es as [|e es IH]; intros s K; simpl; [assumption|].
  apply IH. now apply keys_serve.
Qed.

Lemma scenario_keys : Accounts.keys Scenario.two.
Proof.
  change Scenario.two
    with (serve_all PlainCodec.jwt PlainHasher.argon2 no_config Db.empty
                    (Sample.history ++ Scenario.more)).
  apply keys_serve_all. exact keys_empty.
Qed.

Lemma scenario_consistent : Db.consistent Scenario.two.
Proof.
  change Scenario.two
    with (serve_all PlainCodec.jwt PlainHasher.argon2 no_config Db.empty
                    (Sample.history ++ Scenario.more)).
  apply consistent_serve_all. exact consistent_empty.
Qed.

(** X9.  Whatever requests are served, starting from the empty store, the
    store reached has no two users with the same id, email or username, no
    two session rows with the same id or refresh token, ids below their
    sequences, and an existing owner for every session row. *)
Theorem reachable_stores_respect_keys :
  forall jwt argon2 cfg es,
    Accounts.keys (serve_all jwt argon2 cfg Db.empty es)
    /\ Db.consistent (serve_all jwt argon2 cfg Db.empty es).
Proof.
  intros jwt argon2 cfg es. split.
  - apply keys_serve_all. exact keys_empty.
  - apply consistent_serve_all. exact consistent_empty.
Qed.

(** ** What can go wrong in refreshTokens *)

Lemma find_row_by_id (l : list UserTokens.t) row :
  In row l -> find (Db.has_row_id (UserTokens.id row)) l <> None.
Proof.
  intros Hin Hn. pose proof (find_none _ _ Hn row Hin) as H.
  unfold Db.has_row_id in H. rewrite Z.eqb_refl in H. discriminate.
Qed.

(** X10.  In a store that respects the keys of the user table, refreshTokens
    fails in three ways only: with an UnauthorizedException; with the Error
    of a signAsync call that rejected, once the row and its owner were found
    (store unchanged); or with the store's rejection of the update because
    another session row already holds the newly minted refresh token (P2002
    on refreshToken, store unchanged).  It never fails for a missing owner
    or a missing row. *)
Theorem refresh_failure_modes :
  forall jwt cfg ts now t s e s',
    Accounts.keys s ->
    refreshTokens (Db.prisma ts) jwt cfg now t s = (Fail e, s') ->
    (exists m, e = UnauthorizedException m)
    \/ ((exists m, e = Error m)
        /\ s' = s
        /\ exists row user,
            Db.find_token t s = Some row
            /\ Db.find_user_by_id (UserTokens.userId row) s = Some user
            /\ generateTokens jwt cfg now (User.id user)
                 (User.username user) (User.email user) = Fail e)
    \/ (e = PrismaClientError (P2002 "refreshToken")
        /\ s' = s
        /\ exists row user tokens other,
            Db.find_token t s = Some row
            /\ Db.find_user_by_id (UserTokens.userId row) s = Some user
            /\ generateTokens jwt cfg now (User.id user)
                 (User.username user) (User.email user) = Ok tokens
            /\ In other (Db.userTokens s)
            /\ UserTokens.id other <> UserTokens.id row
            /\ UserTokens.refreshToken other = Tokens.refreshToken tokens).
Proof.
  intros jwt cfg ts now t s e s' K H.
  rewrite refreshTokens_unfold in H.
  destruct (Db.find_token t s) as [row|] eqn:Hf.
  2:{ inversion H. left. eauto. }
  destruct (UserTokens.expiresAt row <? at_expiryCheck now).
  { inversion H. left. eauto. }
  destruct (verifyAsync jwt (at_verify now) t (jwtRefreshSecret cfg)).
  2:{ inversion H. left. eauto. }
  destruct (DbFacts.find_token_some _ _ Hf) as [Hin _].
  destruct (Db.find_user_by_id (UserTokens.userId row) s) as [user|] eqn:Hu.
  2:{ exfalso. pose proof (Accounts.owners_exist K) as Ko.
      rewrite Forall_forall in Ko. specialize (Ko row Hin).
      apply existsb_exists in Ko. destruct Ko as (x & Hx & Hm).
      unfold Db.find_user_by_id in Hu.
      rewrite (find_none _ _ Hu x Hx) in Hm. discriminate. }
  destruct (generateTokens jwt cfg now (User.id user) (User.username user)
                           (User.email user)) as [tokens|err] eqn:Hg.
  2:{ inversion H; subst. right. left.
      split; [exact (generateTokens_rejects _ _ _ _ _ _ Hg)|].
      split; [reflexivity|]. exists row, user. auto. }
  unfold Db.userTokens_update in H.
  destruct (find (Db.has_row_id (UserTokens.id row)) (Db.userTokens s))
    eqn:Hr; [|elim (find_row_by_id _ _ Hin Hr)].
  destruct (existsb _ (Db.userTokens s)) eqn:Hx; [|discriminate].
  inversion H; subst. right. right.
  split; [reflexivity|]. split; [reflexivity|].
  apply existsb_exists in Hx. destruct Hx as (other & Ho & Hb).
  apply andb_true_iff in Hb. destruct Hb as [Ht Hn].
  exists row, user, tokens, other. repeat split; auto.
  - intros E. apply DbFacts.has_row_id_true in E. rewrite E in Hn.
    discriminate.
  - now apply DbFacts.has_token_true in Ht.
Qed.

Lemma two_devices_keys : Accounts.keys Scenario.two_devices.
Proof.
  change Scenario.two_devices
    with (serve_all PlainCodec.jwt PlainHasher.argon2 no_config Db.empty
                    (Sample.history ++ Scenario.second_device)).
  apply keys_serve_all. exact keys_empty.
Qed.

Lemma sample_keys : Accounts.keys Sample.s_default.
Proof.
  change Sample.s_default
    with (serve_all PlainCodec.jwt PlainHasher.argon2 no_config Db.empty
                    Sample.history).
  apply keys_serve_all. exact keys_empty.
Qed.

(** alice is logged in on two devices, the second since time 3000.  The
    first device refreshes at time 3500: the token minted for it is the one
    the second device holds, and the store rejects the update.  And on the
    sample store, under a refresh TTL that is not a time span, her refresh
    at time 5000 ends with the codec's Error. *)
Lemma refresh_failure_modes_witness :
  refreshTokens (Db.prisma 3500) PlainCodec.jwt no_config (Sample.at_ 3500)
                Sample.t_default Scenario.two_devices
  = (Fail (PrismaClientError (P2002 "refreshToken")), Scenario.two_devices)
  /\ exists m,
      refreshTokens (Db.prisma 5000) PlainCodec.jwt Sample.unreadable_ttl
                    (Sample.at_ 5000) Sample.t_default Sample.s_default
      = (Fail (Error m), Sample.s_default).
Proof.
  split.
  - destruct (refreshTokens (Db.prisma 3500) PlainCodec.jwt no_config
                (Sample.at_ 3500) Sample.t_default Scenario.two_devices)
      as [[r|e] s'] eqn:E; [vm_compute in E; discriminate|].
    destruct (@refresh_failure_modes PlainCodec.jwt no_config 3500
                (Sample.at_ 3500) Sample.t_default Scenario.two_devices e s'
                two_devices_keys E)
      as [[m Hm]|[([m Hm] & _)|(He & Hs & _)]].
    + vm_compute in E. inversion E; subst. discriminate.
    + vm_compute in E. inversion E; subst. discriminate.
    + subst e s'. reflexivity.
  - destruct (refreshTokens (Db.prisma 5000) PlainCodec.jwt
                Sample.unreadable_ttl (Sample.at_ 5000) Sample.t_default
                Sample.s_default)
      as [[r|e] s'] eqn:E; [vm_compute in E; discriminate|].
    destruct (@refresh_failure_modes PlainCodec.jwt Sample.unreadable_ttl
                5000 (Sample.at_ 5000) Sample.t_default Sample.s_default e s'
                sample_keys E)
      as [[m Hm]|[([m Hm] & Hs & _)|(He & _)]].
    + vm_compute in E. inversion E; subst. discriminate.
    + subst e s'. exists m. reflexivity.
    + vm_compute in E. inversion E; subst. discriminate.
Defined.

(** ** From login to the next requests *)

Lemma login_success_exact jwt argon2 cfg ts now dto ua ip s resp s' :
  login (Db.prisma ts) jwt argon2 cfg now dto ua ip s = (Ok resp, s') ->
  exists user tokens,
    Db.find_user_by_email (login_email dto) s = Some user
    /\ User.isLocked user = false
    /\ verify argon2 (User.password user) (login_password dto) = true
    /\ generateTokens jwt cfg now (User.id user) (User.username user)
                      (User.email user) = Ok tokens
    /\ Db.absent (Tokens.refreshToken tokens) s
    /\ data resp
       = {| ld_user := {| cu_id := User.id user;
                          cu_username := User.username user;
                          cu_email := User.email user |};
            ld_accessToken := Tokens.accessToken tokens;
            ld_refreshToken := Tokens.refreshToken tokens |}
    /\ s' = {| Db.users := Db.users s;
               Db.userTokens :=
                 (Db.userTokens s
                    ++ [opened_session ts now s user
                          (Tokens.refreshToken tokens) ua ip])%list;
               Db.User_id_seq := Db.User_id_seq s;
               Db.UserTokens_id_seq := Db.UserTokens_id_seq s + 1 |}.
Proof.
  intros H. pose proof H as H0. rewrite login_unfold in H0.
  destruct (Db.find_user_by_email (login_email dto) s) as [user|] eqn:Hf;
    [|discriminate].
  destruct (User.isLocked user) eqn:Hl; [discriminate|].
  destruct (verify argon2 _ _) eqn:Hv; [|discriminate].
  destruct (generateTokens _ _ _ _ _ _) as [tokens|m] eqn:Hm; [|discriminate].
  destruct (Db.userTokens_create _ _ s) as [[r|e] s1] eqn:Hc; [|discriminate].
  apply userTokens_create_rows in Hc.
  destruct Hc as (_ & _ & _ & _ & _ & _ & _ & _ & _ & _ & Ha).
  cbn [tc_refreshToken] in Ha.
  rewrite (@login_accepted jwt argon2 cfg ts now dto ua ip s user tokens
             Hf Hl Hv Hm Ha) in H.
  inversion H; subst. exists user, tokens. repeat split; auto.
Qed.

Lemma find_user_by_id_of_member s user :
  NoDup (map User.id (Db.users s)) ->
  In user (Db.users s) ->
  Db.find_user_by_id (User.id user) s = Some user.
Proof.
  unfold Db.find_user_by_id. induction (Db.users s) as [|a l IH]; simpl;
    intros Hnd Hin; [contradiction|].
  apply NoDup_cons_iff in Hnd. destruct Hnd as [Hn Hnd].
  unfold Db.has_id at 1. destruct (User.id a =? User.id user) eqn:E.
  - apply Z.eqb_eq in E. destruct Hin as [Hin|Hin]; [congruence|].
    elim Hn. rewrite E. now apply in_map.
  - destruct Hin as [Hin|Hin]; [subst a; rewrite Z.eqb_refl in E;
                                 discriminate|].
    now apply IH.
Qed.

Lemma find_new_token t (l : list UserTokens.t) r :
  (forall x, In x l -> UserTokens.refreshToken x <> t) ->
  UserTokens.refreshToken r = t ->
  find (Db.has_token t) (l ++ [r]) = Some r.
Proof.
  intros Ha Ht. induction l as [|a l IH]; simpl.
  - unfold Db.has_token. rewrite Ht, String.eqb_refl. reflexivity.
  - destruct (Db.has_token t a) eqn:E.
    + apply DbFacts.has_token_true in E. elim (Ha a (or_introl eq_refl) E).
    + apply IH. intros x Hx. apply Ha. now right.
Qed.

(** X11.  In a store that respects the keys of the user table, the refresh
    token returned by a successful login is accepted by refreshTokens: made
    within seven days of the login, with a token that verifies and, minted
    by signAsync, a pair whose refresh string is new to the store, the
    refresh succeeds, returns that pair, minted for the user who logged in,
    and rewrites the row that the login inserted, leaving the ids and the
    owners of all session rows as they were. *)
Theorem login_then_refresh :
  forall jwt argon2 cfg ts now dto ua ip s resp s' ts2 now2 tokens2,
    Accounts.keys s ->
    login (Db.prisma ts) jwt argon2 cfg now dto ua ip s = (Ok resp, s') ->
    at_expiryCheck now2 <= at_expires now + SEVEN_DAYS_MS ->
    verifyAsync jwt (at_verify now2) (ld_refreshToken (data resp))
                (jwtRefreshSecret cfg) <> None ->
    generateTokens jwt cfg now2
                   (cu_id (ld_user (data resp)))
                   (cu_username (ld_user (data resp)))
                   (cu_email (ld_user (data resp))) = Ok tokens2 ->
    Db.absent (Tokens.refreshToken tokens2) s ->
    exists s2,
      refreshTokens (Db.prisma ts2) jwt cfg now2
                    (ld_refreshToken (data resp)) s'
      = (Ok {| success := true;
               message := "Tokens refreshed successfully";
               data := tokens2 |}, s2)
      /\ map UserTokens.id (Db.userTokens s2)
         = map UserTokens.id (Db.userTokens s')
      /\ map UserTokens.userId (Db.userTokens s2)
         = map UserTokens.userId (Db.userTokens s')
      /\ Db.find_token (Tokens.refreshToken tokens2) s2 <> None.
Proof.
  intros jwt argon2 cfg ts now dto ua ip s resp s' ts2 now2 tokens2
         K H Hexp Hv Hm2 Ha2.
  apply login_success_exact in H.
  destruct H as (user & tokens & Hf & Hl & Hpw & Hm & Ha & Hd & Hs').
  rewrite Hd in *. cbn [ld_user ld_refreshToken cu_id cu_username cu_email]
    in *.
  set (tok := Tokens.refreshToken tokens) in *.
  set (r := opened_session ts now s user tok ua ip) in *.
  assert (Hin : In user (Db.users s))
    by (unfold Db.find_user_by_email in Hf; now apply find_some in Hf).
  assert (Hft : Db.find_token tok s' = Some r).
  { subst s'. unfold Db.find_token. simpl.
    apply find_new_token; [exact Ha|reflexivity]. }
  assert (Hfu : Db.find_user_by_id (UserTokens.userId r) s' = Some user).
  { subst s'. unfold Db.find_user_by_id. simpl.
    apply (find_user_by_id_of_member s user); [|exact Hin].
    apply (Accounts.user_ids_unique K). }
  assert (Hc : forall x, In x (Db.userTokens s') ->
                 UserTokens.refreshToken x = Tokens.refreshToken tokens2 ->
                 UserTokens.id x = UserTokens.id r).
  { subst s'. simpl. intros x Hx Ht. apply in_app_or in Hx.
    destruct Hx as [Hx|[Hx|[]]]; [elim (Ha2 x Hx Ht)|now subst x]. }
  rewrite (@refresh_accepted jwt cfg ts2 now2 tok s' r user tokens2
             Hft Hfu Hexp Hv Hm2 Hc).
  eexists. split; [reflexivity|]. simpl.
  split; [|split].
  - rewrite map_map. apply map_ext. intros x.
    destruct (Db.has_row_id _ x); reflexivity.
  - rewrite map_map. apply map_ext. intros x.
    destruct (Db.has_row_id _ x); reflexivity.
  - intros Hn. apply DbFacts.find_token_none in Hn.
    apply (Hn (Db.rotated ts2 (rotation now2 tokens2) r)); [|reflexivity].
    simpl. apply rotated_in_table.
    destruct (DbFacts.find_token_some _ _ Hft) as [Hr _]. exact Hr.
Qed.

Lemma bob_registered_keys : Accounts.keys Scenario.bob_registered.
Proof.
  change Scenario.bob_registered
    with (serve_all PlainCodec.jwt PlainHasher.argon2 no_config Db.empty
                    (Sample.history ++ Scenario.bob_registers)).
  apply keys_serve_all. exact keys_empty.
Qed.

(** bob logs in at time 4000 and refreshes at time 9000. *)
Lemma login_then_refresh_witness :
  exists resp s' s2,
    login (Db.prisma 4000) PlainCodec.jwt PlainHasher.argon2 no_config
          (Sample.at_ 4000) Scenario.bob_login "firefox" "10.0.0.2"
          Scenario.bob_registered = (Ok resp, s')
    /\ refreshTokens (Db.prisma 9000) PlainCodec.jwt no_config
                     (Sample.at_ 9000) Scenario.t_bob s'
       = (Ok {| success := true;
                message := "Tokens refreshed successfully";
                data := {| Tokens.accessToken :=
                             "your-secret-jwt-key|2|bob|b@x.com|9|909";
                           Tokens.refreshToken :=
                             "your-refresh-secret|2|bob|b@x.com|9|604809"
                        |} |}, s2).
Proof.
  destruct (login (Db.prisma 4000) PlainCodec.jwt PlainHasher.argon2
              no_config (Sample.at_ 4000) Scenario.bob_login "firefox"
              "10.0.0.2" Scenario.bob_registered) as [[resp|e] s'] eqn:E;
    [|vm_compute in E; discriminate].
  destruct (@login_then_refresh PlainCodec.jwt PlainHasher.argon2 no_config
              4000 (Sample.at_ 4000) Scenario.bob_login "firefox" "10.0.0.2"
              Scenario.bob_registered resp s' 9000 (Sample.at_ 9000)
              {| Tokens.accessToken :=
                   "your-secret-jwt-key|2|bob|b@x.com|9|909";
                 Tokens.refreshToken :=
                   "your-refresh-secret|2|bob|b@x.com|9|604809" |}
              bob_registered_keys E)
    as (s2 & Hr & _).
  - vm_compute. discriminate.
  - vm_compute in E. inversion E; subst resp s'. vm_compute. discriminate.
  - vm_compute in E. inversion E; subst resp s'. vm_compute. reflexivity.
  - intros x [Hx|[]]; subst x; vm_compute; discriminate.
  - exists resp, s', s2. split; [reflexivity|].
    vm_compute in E. inversion E; subst resp s'. exact Hr.
Defined.

(** X12.  In a store that respects the keys of the user table, the access
    token returned by a successful login opens the gate: when the request
    carries it and the codec, verifying it against the access secret,
    returns claims whose subject is the user's id, authenticate accepts the
    request, leaves the store untouched, and exposes the identity that the
    login response carried. *)
Theorem login_then_authenticate :
  forall jwt argon2 cfg ts now dto ua ip s resp s' ts2 now2 request payload,
    Accounts.keys s ->
    login (Db.prisma ts) jwt argon2 cfg now dto ua ip s = (Ok resp, s') ->
    jwtFromRequest request = Some (ld_accessToken (data resp)) ->
    verifyAsync jwt now2 (ld_accessToken (data resp)) (secretOrKey cfg)
    = Some payload ->
    sub payload = cu_id (ld_user (data resp)) ->
    authenticate (Db.prisma ts2) jwt cfg now2 request s'
    = (Ok (ld_user (data resp)), s').
Proof.
  intros jwt argon2 cfg ts now dto ua ip s resp s' ts2 now2 request payload
         K H Hx Hv Hsub.
  apply login_success_exact in H.
  destruct H as (user & tokens & Hf & Hl & _ & _ & _ & Hd & Hs').
  unfold authenticate. rewrite Hx, Hv, validate_unfold, Hsub, Hd.
  cbn [ld_user cu_id].
  assert (Hin : In user (Db.users s))
    by (unfold Db.find_user_by_email in Hf; now apply find_some in Hf).
  assert (Hfu : Db.find_user_by_id (User.id user) s' = Some user).
  { subst s'. unfold Db.find_user_by_id. simpl.
    apply (find_user_by_id_of_member s user); [|exact Hin].
    apply (Accounts.user_ids_unique K). }
  rewrite Hfu, Hl. reflexivity.
Qed.

(** bob logs in at time 4000 and calls a guarded route at time 5000 with
    the access_token cookie that the login set. *)
Lemma login_then_authenticate_witness :
  exists resp s',
    login (Db.prisma 4000) PlainCodec.jwt PlainHasher.argon2 no_config
          (Sample.at_ 4000) Scenario.bob_login "firefox" "10.0.0.2"
          Scenario.bob_registered = (Ok resp, s')
    /\ authenticate (Db.prisma 5000) PlainCodec.jwt no_config 5000
                    {| cookie_access_token :=
                         Some (ld_accessToken (data resp));
                       bearer_token := None |} s'
       = (Ok Scenario.bob_identity, s').
Proof.
  destruct (login (Db.prisma 4000) PlainCodec.jwt PlainHasher.argon2
              no_config (Sample.at_ 4000) Scenario.bob_login "firefox"
              "10.0.0.2" Scenario.bob_registered) as [[resp|e] s'] eqn:E;
    [|vm_compute in E; discriminate].
  exists resp, s'. split; [reflexivity|].
  pose proof E as E0. vm_compute in E0. inversion E0; subst resp s'.
  apply (@login_then_authenticate PlainCodec.jwt PlainHasher.argon2
           no_config 4000 (Sample.at_ 4000) Scenario.bob_login "firefox"
           "10.0.0.2" Scenario.bob_registered _ _ 5000 5000 _
           {| sub := 2; jp_username := "bob"; jp_email := "b@x.com";
              iat := Some 4; exp := Some 904 |}
           bob_registered_keys E).
  - reflexivity.
  - vm_compute. reflexivity.
  - reflexivity.
Defined.

(** ** The gate's choice of token *)

(** X13.  The gate reads the Authorization header only when the
    access_token cookie is absent or empty.  With a non-empty cookie the
    outcome of authenticate is the one for the cookie alone, so a cookie
    that does not verify is rejected even beside a header that would; with
    no cookie the outcome is the one for the header alone, so a bearer token
    that does not verify is rejected; with neither, or with a token from
    either place that does not verify, the request is rejected without any
    call on the store, whatever the store is. *)
Theorem gate_prefers_cookie :
  forall (S : Type) (prisma : PrismaService S) jwt cfg now (s : S),
    (forall c header,
        c <> EmptyString ->
        authenticate prisma jwt cfg now
          {| cookie_access_token := Some c; bearer_token := header |} s
        = authenticate prisma jwt cfg now
            {| cookie_access_token := Some c; bearer_token := None |} s)
    /\ (forall c header,
           c <> EmptyString ->
           verifyAsync jwt now c (secretOrKey cfg) = None ->
           exists m,
             authenticate prisma jwt cfg now
               {| cookie_access_token := Some c; bearer_token := header |} s
             = (Fail (UnauthorizedException m), s))
    /\ (forall header,
           authenticate prisma jwt cfg now
             {| cookie_access_token := Some EmptyString;
                bearer_token := header |} s
           = authenticate prisma jwt cfg now
               {| cookie_access_token := None; bearer_token := header |} s)
    /\ (exists m,
           authenticate prisma jwt cfg now
             {| cookie_access_token := None; bearer_token := None |} s
           = (Fail (UnauthorizedException m), s))
    /\ (forall cookie b,
           truthy cookie = None ->
           verifyAsync jwt now b (secretOrKey cfg) = None ->
           authenticate prisma jwt cfg now
             {| cookie_access_token := cookie; bearer_token := Some b |} s
           = (Fail (UnauthorizedException "Unauthorized"), s))
    /\ (forall request,
           (forall token,
               jwtFromRequest request = Some token ->
               verifyAsync jwt now token (secretOrKey cfg) = None) ->
           authenticate prisma jwt cfg now request s
           = (Fail (UnauthorizedException "Unauthorized"), s)).
Proof.
  intros S prisma jwt cfg now s. unfold authenticate, jwtFromRequest. simpl.
  split; [|split; [|split; [|split; [|split]]]].
  - intros c header Hc. destruct c; [contradiction|reflexivity].
  - intros c header Hc Hv. destruct c; [contradiction|].
    rewrite Hv. eexists. reflexivity.
  - reflexivity.
  - eexists. reflexivity.
  - intros cookie b Hc Hv.
    destruct cookie as [[|a c]|]; simpl in Hc; try discriminate;
      rewrite Hv; reflexivity.
  - intros request Hall.
    destruct (match cookie_access_token request with
              | Some EmptyString | None => bearer_token request
              | Some token => Some token
              end) as [token|]; [|reflexivity].
    rewrite (Hall token eq_refl). reflexivity.
Qed.

(** With the store out of reach: a stale cookie beside a good bearer token
    is rejected on the cookie, and a stale bearer token with no cookie is
    rejected too. *)
Lemma gate_prefers_cookie_witness :
  (exists m,
      authenticate Outage.prisma PlainCodec.jwt no_config 5000
        {| cookie_access_token := Some "stale";
           bearer_token :=
             Some "your-secret-jwt-key|1|alice|a@x.com|2|902" |}
        Sample.s_default
      = (Fail (UnauthorizedException m), Sample.s_default))
  /\ authenticate Outage.prisma PlainCodec.jwt no_config 5000
       {| cookie_access_token := None; bearer_token := Some "stale" |}
       Sample.s_default
     = (Fail (UnauthorizedException "Unauthorized"), Sample.s_default).
Proof.
  destruct (gate_prefers_cookie Outage.prisma PlainCodec.jwt no_config 5000
              Sample.s_default) as (_ & Hbad & _ & _ & Hbearer & _).
  split.
  - apply Hbad; [discriminate|vm_compute; reflexivity].
  - apply Hbearer; [reflexivity|vm_compute; reflexivity].
Defined.

(** ** What no request does *)

Lemma standing_serve jwt argon2 cfg s e :
  exists added,
    map Accounts.standing (Db.users (serve jwt argon2 cfg s e))
    = (map Accounts.standing (Db.users s) ++ added)%list
    /\ Forall (fun st => snd st = false) added.
Proof.
  unfold serve.
  destruct (ev_call e) as [dto salt|dto ua ip|u t'|t'|u cur new conf salt].
  - rewrite register_unfold. simpl.
    unfold Db.user_findUnique_email, Db.user_create. simpl.
    destruct (Db.find_user_by_email (reg_email dto) s); simpl;
      [exists []; rewrite app_nil_r; auto|].
    destruct (existsb (Db.has_email _) (Db.users s)); simpl;
      [exists []; rewrite app_nil_r; auto|].
    destruct (existsb (Db.has_username _) (Db.users s)); simpl;
      [exists []; rewrite app_nil_r; auto|].
    eexists. rewrite map_app. split; [reflexivity|].
    simpl. constructor; [reflexivity|constructor].
  - exists []. rewrite app_nil_r. split; [|constructor].
    rewrite login_unfold.
    destruct (Db.find_user_by_email (login_email dto) s) as [user|]; auto.
    destruct (User.isLocked user); auto.
    destruct (verify argon2 _ _); auto.
    destruct (generateTokens _ _ _ _ _ _) as [tokens|err0]; auto.
    unfold Db.userTokens_create.
    destruct (existsb (Db.has_token _) (Db.userTokens s)); auto.
    destruct (negb _); auto.
  - exists []. rewrite app_nil_r. split; [|constructor]. reflexivity.
  - exists []. rewrite app_nil_r. split; [|constructor].
    rewrite refreshTokens_unfold.
    destruct (Db.find_token t' s) as [row|]; auto.
    destruct (UserTokens.expiresAt row <? _); auto.
    destruct (verifyAsync _ _ _ _); auto.
    destruct (Db.find_user_by_id _ s) as [user|]; auto.
    destruct (generateTokens _ _ _ _ _ _) as [tokens|err0]; auto.
    unfold Db.userTokens_update.
    destruct (find _ (Db.userTokens s)); auto.
    destruct (existsb _ (Db.userTokens s)); auto.
  - exists []. rewrite app_nil_r. split; [|constructor].
    rewrite changePassword_unfold.
    destruct (negb _); auto. destruct (cur =? new)%string; auto.
    destruct (Db.find_user_by_id u s) as [user|]; auto.
    destruct (verify argon2 _ _); auto. simpl.
    rewrite map_map. apply map_ext. intros x.
    destruct (Db.has_id u x); reflexivity.
Qed.

(** X14.  No sequence of requests removes a user, reorders the users, or
    changes the id, email, username or locked flag of a user: the accounts
    of the store reached are those of the store it started from, in the same
    order, followed by the accounts registered meanwhile, all of them
    unlocked.  In particular no request of this module locks or unlocks an
    account. *)
Theorem requests_keep_accounts :
  forall jwt argon2 cfg es s,
    exists added,
      map Accounts.standing (Db.users (serve_all jwt argon2 cfg s es))
      = (map Accounts.standing (Db.users s) ++ added)%list
      /\ Forall (fun st => snd st = false) added.
Proof.
  intros jwt argon2 cfg es.
  induction es as [|e es IH]; intros s; simpl.
  - exists []. rewrite app_nil_r. split; [reflexivity|constructor].
  - destruct (standing_serve jwt argon2 cfg s e) as (a1 & E1 & F1).
    destruct (IH (serve jwt argon2 cfg s e)) as (a2 & E2 & F2).
    exists (a1 ++ a2)%list. split.
    + rewrite E2, E1, app_assoc. reflexivity.
    + apply Forall_app. split; assumption.
Qed.

Lemma sessions_serve jwt argon2 cfg s e :
  (List.length (Db.userTokens (serve jwt argon2 cfg s e))
   <= List.length (Db.userTokens s) + (if is_login e then 1 else 0))%nat.
Proof.
  unfold serve, is_login.
  destruct (ev_call e) as [dto salt|dto ua ip|u t'|t'|u cur new conf salt].
  - rewrite (proj1 (register_keeps_sessions argon2 (ev_ts e) dto salt s)).
    lia.
  - rewrite login_unfold.
    destruct (Db.find_user_by_email (login_email dto) s) as [user|];
      simpl; try lia.
    destruct (User.isLocked user); simpl; try lia.
    destruct (verify argon2 _ _); simpl; try lia.
    destruct (generateTokens _ _ _ _ _ _) as [tokens|err0]; simpl; try lia.
    unfold Db.userTokens_create.
    destruct (existsb (Db.has_token _) (Db.userTokens s)); simpl; try lia.
    destruct (negb _); simpl; try lia.
    rewrite length_app. simpl. lia.
  - rewrite logout_unfold. simpl.
    pose proof (filter_length_le
                  (fun x => negb (Db.deleteMany_matches u (Some t') x))
                  (Db.userTokens s)). lia.
  - rewrite refreshTokens_unfold.
    destruct (Db.find_token t' s) as [row|]; simpl; try lia.
    destruct (UserTokens.expiresAt row <? _); simpl.
    { pose proof (filter_length_le
                    (fun x => negb (Db.has_token t' x)) (Db.userTokens s)).
      lia. }
    destruct (verifyAsync _ _ _ _); simpl; try lia.
    destruct (Db.find_user_by_id _ s) as [user|]; simpl; try lia.
    destruct (generateTokens _ _ _ _ _ _) as [tokens|err0]; simpl; try lia.
    unfold Db.userTokens_update.
    destruct (find _ (Db.userTokens s)); simpl; try lia.
    destruct (existsb _ (Db.userTokens s)); simpl; try lia.
    rewrite length_map. lia.
  - rewrite changePassword_unfold.
    destruct (negb _); simpl; try lia.
    destruct (cur =? new)%string; simpl; try lia.
    destruct (Db.find_user_by_id u s) as [user|]; simpl; try lia.
    destruct (verify argon2 _ _); simpl; try lia.
    pose proof (filter_length_le
                  (fun x => negb (Db.owned_by u x)) (Db.userTokens s)).
    lia.
Qed.

(** X15.  Only login adds session rows, one per call at most: after any
    sequence of requests the session table has at most as many rows as it
    had before plus the number of login calls in the sequence, however many
    refreshes were made. *)
Theorem sessions_grow_only_by_login :
  forall jwt argon2 cfg es s,
    (List.length (Db.userTokens (serve_all jwt argon2 cfg s es))
     <= List.length (Db.userTokens s) + List.length (filter is_login es))%nat.
Proof.
  intros jwt argon2 cfg es.
  induction es as [|e es IH]; intros s; simpl; [lia|].
  specialize (IH (serve jwt argon2 cfg s e)).
  pose proof (sessions_serve jwt argon2 cfg s e).
  destruct (is_login e); simpl; lia.
Qed.

(** ** After an expired refresh *)

(** X16.  When refreshTokens reports "Refresh token expired", the rows
    holding that token are gone and nothing else has changed: every other
    session row and every user is as before, and any later refresh with the
    same string is answered "Invalid refresh token", not "expired". *)
Theorem expired_refresh_then_invalid :
  forall jwt cfg ts now t s s',
    refreshTokens (Db.prisma ts) jwt cfg now t s
    = (Fail (UnauthorizedException "Refresh token expired"), s') ->
    Db.users s' = Db.users s
    /\ (forall x, In x (Db.userTokens s') <->
                  In x (Db.userTokens s) /\ UserTokens.refreshToken x <> t)
    /\ (forall ts2 now2,
           refreshTokens (Db.prisma ts2) jwt cfg now2 t s'
           = (Fail (UnauthorizedException "Invalid refresh token"), s')).
Proof.
  intros jwt cfg ts now t s s' H. rewrite refreshTokens_unfold in H.
  destruct (Db.find_token t s) as [row|]; [|discriminate].
  destruct (UserTokens.expiresAt row <? at_expiryCheck now).
  2:{ destruct (verifyAsync _ _ _ _); [|discriminate].
      destruct (Db.find_user_by_id _ s) as [user|]; [|discriminate].
      destruct (generateTokens _ _ _ _ _ _) as [tokens|err0] eqn:Hg.
      - destruct (Db.userTokens_update _ _ _ s) as [[?|?] ?]; discriminate.
      - destruct (generateTokens_rejects _ _ _ _ _ _ Hg) as [m0 ->].
        discriminate. }
  inversion H; subst s'; clear H. simpl.
  assert (Hrows : forall x,
             In x (filter (fun x => negb (Db.has_token t x))
                          (Db.userTokens s)) <->
             In x (Db.userTokens s) /\ UserTokens.refreshToken x <> t).
  { intros x. rewrite filter_In, negb_true_iff, DbFacts.has_token_false.
    reflexivity. }
  split; [reflexivity|]. split; [exact Hrows|].
  intros ts2 now2. apply refresh_absent.
  unfold Db.absent. simpl. intros x Hx. now apply Hrows in Hx.
Qed.

(** alice's token presented after her session row expired, twice. *)
Lemma expired_refresh_then_invalid_witness :
  exists s',
    refreshTokens (Db.prisma 700000000) PlainCodec.jwt no_config
                  (Sample.at_ 700000000) Sample.t_default Scenario.two
    = (Fail (UnauthorizedException "Refresh token expired"), s')
    /\ map UserTokens.id (Db.userTokens s') = [2]
    /\ refreshTokens (Db.prisma 700000500) PlainCodec.jwt no_config
                     (Sample.at_ 700000500) Sample.t_default s'
       = (Fail (UnauthorizedException "Invalid refresh token"), s').
Proof.
  eexists. split; [vm_compute; reflexivity|]. split; [reflexivity|].
  apply (@expired_refresh_then_invalid PlainCodec.jwt no_config 700000000
           (Sample.at_ 700000000) Sample.t_default Scenario.two).
  vm_compute. reflexivity.
Defined.

(** ** The route handlers *)

Lemma login_success_header jwt argon2 cfg ts now dto ua ip s resp s' :
  login (Db.prisma ts) jwt argon2 cfg now dto ua ip s = (Ok resp, s') ->
  success resp = true /\ message resp = "User logged in successfully".
Proof.
  rewrite login_unfold.
  destruct (Db.find_user_by_email (login_email dto) s) as [user|];
    [|discriminate].
  destruct (User.isLocked user); [discriminate|].
  destruct (verify argon2 _ _); [|discriminate].
  destruct (generateTokens _ _ _ _ _ _) as [tokens|err0]; [|discriminate].
  destruct (Db.userTokens_create _ _ s) as [[r|e] s1]; [|discriminate].
  intros H. inversion H. split; reflexivity.
Qed.

Lemma before_comma_has_no_comma v : forall a b,
  before_comma v <> (a ++ "," ++ b)%string.
Proof.
  induction v as [|c rest IH]; intros a b; simpl.
  - destruct a; discriminate.
  - destruct (c =? ",")%char eqn:E.
    + destruct a; discriminate.
    + destruct a as [|c' a']; simpl.
      * intros H. inversion H; subst c.
        rewrite Ascii.eqb_refl in E. discriminate.
      * intros H. injection H as _ H2. exact (IH a' b H2).
Qed.

Lemma before_comma_is_prefix v :
  v = before_comma v
  \/ exists rest, v = (before_comma v ++ "," ++ rest)%string.
Proof.
  induction v as [|c rest IH]; simpl; [left; reflexivity|].
  destruct (c =? ",")%char eqn:E.
  - apply Ascii.eqb_eq in E. subst c. right. exists rest. reflexivity.
  - destruct IH as [IH|[r IH]].
    + left. f_equal. exact IH.
    + right. exists r. simpl. f_equal. exact IH.
Qed.

Lemma or_default_not_empty v d :
  d <> EmptyString -> or_default v d <> EmptyString.
Proof.
  intros Hd. unfold or_default. destruct v as [[|c x]|]; auto. discriminate.
Qed.

(** X17.  The client address that the login handler records is never empty
    and is chosen in this order: the part of the X-Forwarded-For header
    before its first comma, when that part is not empty (it then contains no
    comma, and the socket address is not looked at); else the socket's
    remote address, when not empty; else "unknown".  The user agent recorded
    is the User-Agent header, or "unknown" when that is absent or empty. *)
Theorem client_address_choice :
  forall req,
    AuthController.ipAddress_of req <> EmptyString
    /\ AuthController.userAgent_of req <> EmptyString
    /\ (forall v,
           header_x_forwarded_for req = Some v ->
           before_comma v <> EmptyString ->
           AuthController.ipAddress_of req = before_comma v
           /\ (forall a b,
                  AuthController.ipAddress_of req <> (a ++ "," ++ b)%string)
           /\ (v = AuthController.ipAddress_of req
               \/ exists rest,
                   v = (AuthController.ipAddress_of req ++ "," ++ rest)%string))
    /\ (forall a,
           truthy (option_map before_comma (header_x_forwarded_for req))
           = None ->
           socket_remoteAddress req = Some a -> a <> EmptyString ->
           AuthController.ipAddress_of req = a)
    /\ (truthy (option_map before_comma (header_x_forwarded_for req)) = None ->
        truthy (socket_remoteAddress req) = None ->
        AuthController.ipAddress_of req = "unknown")
    /\ (forall ua,
           header_user_agent req = Some ua -> ua <> EmptyString ->
           AuthController.userAgent_of req = ua)
    /\ (truthy (header_user_agent req) = None ->
        AuthController.userAgent_of req = "unknown").
Proof.
  intros req. unfold AuthController.ipAddress_of, AuthController.userAgent_of.
  split; [apply or_default_not_empty; discriminate|].
  split; [apply or_default_not_empty; discriminate|].
  split; [|split; [|split; [|split]]].
  - intros v Hv Hne. rewrite Hv. simpl.
    assert (E : or_default
                  (or_else (Some (before_comma v)) (socket_remoteAddress req))
                  "unknown" = before_comma v).
    { unfold or_else, truthy, or_default.
      destruct (before_comma v); [contradiction|reflexivity]. }
    rewrite E. split; [reflexivity|].
    split; [apply before_comma_has_no_comma|apply before_comma_is_prefix].
  - intros a Hx Ha Hne. unfold or_else. rewrite Hx, Ha.
    destruct a; [contradiction|reflexivity].
  - intros Hx Ha. unfold or_else. rewrite Hx.
    destruct (socket_remoteAddress req) as [[|c a]|]; try reflexivity.
    discriminate.
  - intros ua Hu Hne. rewrite Hu. destruct ua; [contradiction|reflexivity].
  - intros Hu. destruct (header_user_agent req) as [[|c a]|]; try reflexivity.
    discriminate.
Qed.

(** The browser behind two proxies, and a header that starts with a
    comma. *)
Lemma client_address_choice_witness :
  AuthController.ipAddress_of Scenario.browser = "203.0.113.7"
  /\ AuthController.ipAddress_of
       {| header_user_agent := None;
          header_x_forwarded_for := Some ", 198.51.100.4";
          socket_remoteAddress := Some "10.1.1.1";
          cookie_refresh_token := None |} = "10.1.1.1"
  /\ AuthController.ipAddress_of Scenario.bare = "unknown".
Proof.
  split; [|split].
  - destruct (client_address_choice Scenario.browser)
      as (_ & _ & Hx & _).
    destruct (Hx "203.0.113.7, 10.1.1.1" eq_refl) as (E & _).
    + vm_compute. discriminate.
    + rewrite E. reflexivity.
  - eapply (client_address_choice
              {| header_user_agent := None;
                 header_x_forwarded_for := Some ", 198.51.100.4";
                 socket_remoteAddress := Some "10.1.1.1";
                 cookie_refresh_token := None |}).
    + reflexivity.
    + reflexivity.
    + discriminate.
  - apply (client_address_choice Scenario.bare); reflexivity.
Defined.

(** X18.  When the login handler succeeds it has inserted one session row
    and set two cookies, access_token then refresh_token, both httpOnly and
    sameSite strict, secure exactly when NODE_ENV is production.  The
    refresh_token cookie carries the token of the inserted row, and its
    maxAge is the lifetime written to the row (expiresAt - now), seven days;
    the row records the user agent and client address derived from the
    request, neither of them empty; the body carries the user and no
    token. *)
Theorem login_handler_sets_cookies :
  forall jwt argon2 cfg env ts now dto req s body cookies s',
    AuthController.login (Db.prisma ts) jwt argon2 cfg env now dto req s
    = (Ok (body, cookies), s') ->
    exists row access refresh user,
      Db.userTokens s' = (Db.userTokens s ++ [row])%list
      /\ Db.users s' = Db.users s
      /\ cookies
         = [ SetCookie "access_token" access
               {| httpOnly := true;
                  secure := AuthController.production env;
                  sameSite := "strict"; maxAge := 900000 |};
             SetCookie "refresh_token" refresh
               {| httpOnly := true;
                  secure := AuthController.production env;
                  sameSite := "strict"; maxAge := 604800000 |} ]
      /\ (AuthController.production env = true <-> env = Some "production")
      /\ UserTokens.refreshToken row = refresh
      /\ UserTokens.expiresAt row = at_expires now + 604800000
      /\ UserTokens.userAgent row = AuthController.userAgent_of req
      /\ UserTokens.deviceInfo row = AuthController.userAgent_of req
      /\ UserTokens.ipAddress row = AuthController.ipAddress_of req
      /\ UserTokens.userAgent row <> EmptyString
      /\ UserTokens.ipAddress row <> EmptyString
      /\ Db.find_user_by_email (login_email dto) s = Some user
      /\ UserTokens.userId row = User.id user
      /\ body = {| success := true;
                   message := "User logged in successfully";
                   data := {| lb_user :=
                                {| cu_id := User.id user;
                                   cu_username := User.username user;
                                   cu_email := User.email user |} |} |}.
Proof.
  intros jwt argon2 cfg env ts now dto req s body cookies s' H.
  unfold AuthController.login, bind, ret in H.
  destruct (login (Db.prisma ts) jwt argon2 cfg now dto
              (AuthController.userAgent_of req)
              (AuthController.ipAddress_of req) s)
    as [[resp|e] s1] eqn:E; [|discriminate].
  inversion H; subst body cookies s'; clear H.
  destruct (login_success_header _ _ _ _ _ _ _ _ _ E) as [Hok Hmsg].
  apply login_success_exact in E.
  destruct E as (user & tokens & Hf & _ & _ & _ & _ & Hd & Hs1).
  rewrite Hd, Hok, Hmsg. subst s1.
  eexists. eexists. eexists. exists user. simpl.
  split; [reflexivity|]. split; [reflexivity|]. split; [reflexivity|].
  split.
  { unfold AuthController.production. destruct env as [v|].
    - rewrite String.eqb_eq. split; congruence.
    - split; discriminate. }
  repeat split; auto.
  - apply or_default_not_empty. discriminate.
  - apply or_default_not_empty. discriminate.
Qed.

(** bob logs in from the browser behind two proxies, in production. *)
Lemma login_handler_sets_cookies_witness :
  exists body cookies s',
    AuthController.login (Db.prisma 4000) PlainCodec.jwt PlainHasher.argon2
                         no_config (Some "production") (Sample.at_ 4000)
                         Scenario.bob_login Scenario.browser
                         Scenario.bob_registered
    = (Ok (body, cookies), s')
    /\ exists row,
        Db.userTokens s' = (Db.userTokens Scenario.bob_registered ++ [row])%list
        /\ UserTokens.ipAddress row = "203.0.113.7"
        /\ UserTokens.userAgent row = "Mozilla/5.0".
Proof.
  eexists. eexists. eexists. split; [vm_compute; reflexivity|].
  destruct (@login_handler_sets_cookies PlainCodec.jwt PlainHasher.argon2
              no_config (Some "production") 4000 (Sample.at_ 4000)
              Scenario.bob_login Scenario.browser Scenario.bob_registered
              _ _ _ ltac:(vm_compute; reflexivity))
    as (row & _ & _ & _ & Hrows & _ & _ & _ & _ & _ & Hua & _ & Hip & _).
  exists row. split; [exact Hrows|]. split; [rewrite Hip|rewrite Hua];
    reflexivity.
Defined.

(** X19.  The refresh handler answers a request without a refresh_token
    cookie, or with an empty one, with UnauthorizedException "Refresh token
    not found", without calling the store, whatever the store is.  When it
    succeeds, the cookie was present, the session table has as many rows as
    before, and the two cookies it sets carry the new pair: the
    refresh_token cookie holds the token now stored in a session row whose
    expiry is now plus the cookie's maxAge; the body carries no token. *)
Theorem refresh_handler :
  (forall (S : Type) (prisma : PrismaService S) jwt cfg env now req (s : S),
      truthy (cookie_refresh_token req) = None ->
      AuthController.refresh prisma jwt cfg env now req s
      = (Fail (UnauthorizedException "Refresh token not found"), s))
  /\ (forall jwt cfg env ts now req s body cookies s',
         AuthController.refresh (Db.prisma ts) jwt cfg env now req s
         = (Ok (body, cookies), s') ->
         exists t access refresh row,
           cookie_refresh_token req = Some t
           /\ t <> EmptyString
           /\ refreshTokens (Db.prisma ts) jwt cfg now t s
              = (Ok {| success := true;
                       message := "Tokens refreshed successfully";
                       data := {| Tokens.accessToken := access;
                                  Tokens.refreshToken := refresh |} |}, s')
           /\ cookies
              = [ SetCookie "access_token" access
                    {| httpOnly := true;
                       secure := AuthController.production env;
                       sameSite := "strict"; maxAge := 900000 |};
                  SetCookie "refresh_token" refresh
                    {| httpOnly := true;
                       secure := AuthController.production env;
                       sameSite := "strict"; maxAge := 604800000 |} ]
           /\ In row (Db.userTokens s')
           /\ UserTokens.refreshToken row = refresh
           /\ UserTokens.expiresAt row = at_expires now + 604800000
           /\ List.length (Db.userTokens s') = List.length (Db.userTokens s)
           /\ body = {| success := true;
                        message := "Tokens refreshed successfully";
                        data := tt |}).
Proof.
  split.
  - intros S prisma jwt cfg env now req s Hc.
    unfold AuthController.refresh. rewrite Hc. reflexivity.
  - intros jwt cfg env ts now req s body cookies s' H.
    unfold AuthController.refresh in H.
    destruct (cookie_refresh_token req) as [[|c t]|] eqn:Hc; simpl in H;
      try discriminate.
    unfold bind, ret in H.
    destruct (refreshTokens (Db.prisma ts) jwt cfg now (String c t) s)
      as [[resp|e] s1] eqn:E; [|discriminate].
    inversion H; subst body cookies s'; clear H.
    pose proof E as E0. apply refresh_success in E0.
    destruct E0 as (row & user & tokens & Hf & _ & _ & _ & _ & Hr & Hs1 & _).
    destruct (DbFacts.find_token_some _ _ Hf) as [Hin _].
    subst resp. destruct tokens as [access refresh].
    exists (String c t), access, refresh,
           (Db.rotated ts
              (rotation now {| Tokens.accessToken := access;
                               Tokens.refreshToken := refresh |}) row).
    split; [reflexivity|]. split; [discriminate|].
    split; [exact E|].
    split; [reflexivity|].
    split.
    { subst s1. simpl. apply rotated_in_table. exact Hin. }
    split; [reflexivity|]. split; [reflexivity|].
    split.
    { subst s1. simpl. now rewrite length_map. }
    reflexivity.
Qed.

(** A request without cookie while the store is out of reach; and the
    browser's request at time 5000 on the two-user store. *)
Lemma refresh_handler_witness :
  AuthController.refresh Outage.prisma PlainCodec.jwt no_config None
                         (Sample.at_ 5000) Scenario.bare Sample.s_default
  = (Fail (UnauthorizedException "Refresh token not found"),
     Sample.s_default)
  /\ exists body cookies s' row,
      AuthController.refresh (Db.prisma 5000) PlainCodec.jwt no_config None
                             (Sample.at_ 5000) Scenario.browser Scenario.two
      = (Ok (body, cookies), s')
      /\ In row (Db.userTokens s')
      /\ UserTokens.expiresAt row = 604805000.
Proof.
  destruct refresh_handler as [Hnone Hok]. split.
  - apply Hnone. reflexivity.
  - destruct (AuthController.refresh (Db.prisma 5000) PlainCodec.jwt
                no_config None (Sample.at_ 5000) Scenario.browser
                Scenario.two) as [[[body cookies]|e] s'] eqn:E;
      [|vm_compute in E; discriminate].
    destruct (Hok _ _ _ _ _ _ _ _ _ _ E)
      as (t & a & r & row & _ & _ & _ & _ & Hin & _ & He & _).
    exists body, cookies, s', row. split; [reflexivity|].
    split; [exact Hin|exact He].
Defined.

(** X20.  The logout handler always succeeds on the reference store and
    clears both cookies.  Without a refresh_token cookie, or with an empty
    one, it calls nothing and leaves the store as it was, whatever the store
    is.  With a cookie it removes the session rows that hold the cookie's
    token and belong to the authenticated user, and no other row: a cookie
    carrying somebody else's token ends nobody's session. *)
Theorem logout_handler :
  (forall (S : Type) (prisma : PrismaService S) user req (s : S),
      truthy (cookie_refresh_token req) = None ->
      AuthController.logout prisma user req s
      = (Ok ({| success := true; message := "Logout successful";
                data := tt |},
             [ClearCookie "access_token"; ClearCookie "refresh_token"]), s))
  /\ (forall ts user req s,
         exists s',
           AuthController.logout (Db.prisma ts) user req s
           = (Ok ({| success := true; message := "Logout successful";
                     data := tt |},
                  [ClearCookie "access_token"; ClearCookie "refresh_token"]),
              s')
           /\ Db.users s' = Db.users s
           /\ (forall t,
                  cookie_refresh_token req = Some t -> t <> EmptyString ->
                  forall x,
                    In x (Db.userTokens s') <->
                    In x (Db.userTokens s)
                    /\ ~ (UserTokens.userId x = cu_id user
                          /\ UserTokens.refreshToken x = t))).
Proof.
  split.
  - intros S prisma user req s Hc. unfold AuthController.logout.
    rewrite Hc. reflexivity.
  - intros ts user req s. unfold AuthController.logout.
    destruct (cookie_refresh_token req) as [[|c t]|] eqn:Hc; simpl.
    + eexists. split; [reflexivity|]. split; [reflexivity|].
      intros t' E Hne. inversion E; subst. contradiction.
    + eexists. split; [reflexivity|]. simpl. split; [reflexivity|].
      intros t' E Hne x. inversion E; subst t'; clear E.
      rewrite filter_In. unfold Db.deleteMany_matches, Db.owned_by.
      split; intros [Hin Hm]; split; auto.
      * intros [Hu Ht]. apply Z.eqb_eq in Hu.
        apply DbFacts.has_token_true in Ht. rewrite Hu, Ht in Hm.
        discriminate.
      * destruct (UserTokens.userId x =? cu_id user) eqn:Eu; [|reflexivity].
        destruct (Db.has_token (String c t) x) eqn:Et; [|reflexivity].
        exfalso. apply Hm. split; [now apply Z.eqb_eq|].
        now apply DbFacts.has_token_true.
    + eexists. split; [reflexivity|]. split; [reflexivity|].
      intros t' E. discriminate.
Qed.

(** bob, authenticated, sends alice's refresh token as his cookie: both
    sessions remain.  A request without cookie succeeds with the store out
    of reach. *)
Lemma logout_handler_witness :
  (exists s',
      AuthController.logout (Db.prisma 9000) Scenario.bob_identity
                            Scenario.browser Scenario.two
      = (Ok ({| success := true; message := "Logout successful";
                data := tt |},
             [ClearCookie "access_token"; ClearCookie "refresh_token"]), s')
      /\ map UserTokens.id (Db.userTokens s') = [1; 2])
  /\ AuthController.logout Outage.prisma Scenario.bob_identity Scenario.bare
                           Scenario.two
     = (Ok ({| success := true; message := "Logout successful";
               data := tt |},
            [ClearCookie "access_token"; ClearCookie "refresh_token"]),
        Scenario.two).
Proof.
  destruct logout_handler as [Hnone Hdb]. split.
  - destruct (Hdb 9000 Scenario.bob_identity Scenario.browser Scenario.two)
      as (s' & Hr & _ & _).
    exists s'. split; [exact Hr|].
    vm_compute in Hr. inversion Hr. reflexivity.
  - apply Hnone. reflexivity.
Defined.

(** X21.  The change-password handler returns what the service returns.
    When it succeeds it clears both cookies, and the session table holds no
    row of the authenticated user any more while the rows of the other users
    are all still there; when it fails the store is as it was. *)
Theorem changePassword_handler :
  forall argon2 ts user dto salt s,
    (forall result cookies s',
        AuthController.changePassword (Db.prisma ts) argon2 user dto salt s
        = (Ok (result, cookies), s') ->
        changePassword (Db.prisma ts) argon2 (cu_id user)
                       (cp_currentPassword dto) (cp_newPassword dto)
                       (cp_confirmPassword dto) salt s = (Ok result, s')
        /\ cookies = [ClearCookie "access_token"; ClearCookie "refresh_token"]
        /\ (forall x, In x (Db.userTokens s') <->
                      In x (Db.userTokens s)
                      /\ UserTokens.userId x <> cu_id user))
    /\ (forall e s',
           AuthController.changePassword (Db.prisma ts) argon2 user dto salt s
           = (Fail e, s') ->
           s' = s
           /\ changePassword (Db.prisma ts) argon2 (cu_id user)
                (cp_currentPassword dto) (cp_newPassword dto)
                (cp_confirmPassword dto) salt s = (Fail e, s)).
Proof.
  intros argon2 ts user dto salt s.
  unfold AuthController.changePassword, bind, ret.
  destruct (changePassword (Db.prisma ts) argon2 (cu_id user)
              (cp_currentPassword dto) (cp_newPassword dto)
              (cp_confirmPassword dto) salt s) as [[r|e0] s1] eqn:E.
  - split; [|discriminate].
    intros result cookies s' H. inversion H; subst; clear H.
    split; [reflexivity|]. split; [reflexivity|].
    rewrite changePassword_unfold in E.
    destruct (negb _); [discriminate|].
    destruct (_ =? _)%string; [discriminate|].
    destruct (Db.find_user_by_id _ s); [|discriminate].
    destruct (verify argon2 _ _); [|discriminate].
    inversion E; subst; clear E. simpl. intros x.
    rewrite filter_In, negb_true_iff. unfold Db.owned_by.
    rewrite Z.eqb_neq. reflexivity.
  - split; [discriminate|].
    intros e s' H. inversion H; subst; clear H.
    rewrite changePassword_unfold in E.
    destruct (negb _); [inversion E; auto|].
    destruct (_ =? _)%string; [inversion E; auto|].
    destruct (Db.find_user_by_id _ s); [|inversion E; auto].
    destruct (verify argon2 _ _); [discriminate|inversion E; auto].
Qed.

(** alice changes her password through the handler on the two-user
    store. *)
Lemma changePassword_handler_witness :
  exists result cookies s',
    AuthController.changePassword (Db.prisma 9000) PlainHasher.argon2
      Scenario.alice_identity
      {| cp_currentPassword := "Abc123!"; cp_newPassword := "Xyz789!";
         cp_confirmPassword := "Xyz789!" |} "nc" Scenario.two
    = (Ok (result, cookies), s')
    /\ cookies = [ClearCookie "access_token"; ClearCookie "refresh_token"]
    /\ map UserTokens.userId (Db.userTokens s') = [2].
Proof.
  eexists. eexists. eexists. split; [vm_compute; reflexivity|].
  destruct (changePassword_handler PlainHasher.argon2 9000
              Scenario.alice_identity
              {| cp_currentPassword := "Abc123!"; cp_newPassword := "Xyz789!";
                 cp_confirmPassword := "Xyz789!" |} "nc" Scenario.two)
    as [Hok _].
  destruct (Hok _ _ _ ltac:(vm_compute; reflexivity)) as (_ & Hc & _).
  split; [exact Hc|reflexivity].
Defined.

(** ** Configuration *)

(** X22.  The tokens minted and the secret of the gate depend on the
    configuration through four settings only, JWT_SECRET,
    JWT_REFRESH_SECRET, JWT_EXPIRES_IN and JWT_REFRESH_EXPIRES_IN, and a
    setting that is the empty string counts as absent: two configurations
    that agree on these four up to that give the same token pair for every
    user and instant, and the same gate secret.  The gate verifies with the
    secret the access token is signed with. *)
Theorem config_empty_is_unset :
  forall jwt cfg cfg',
    truthy (cfg "JWT_SECRET") = truthy (cfg' "JWT_SECRET") ->
    truthy (cfg "JWT_REFRESH_SECRET") = truthy (cfg' "JWT_REFRESH_SECRET") ->
    truthy (cfg "JWT_EXPIRES_IN") = truthy (cfg' "JWT_EXPIRES_IN") ->
    truthy (cfg "JWT_REFRESH_EXPIRES_IN")
    = truthy (cfg' "JWT_REFRESH_EXPIRES_IN") ->
    (forall now i u e,
        generateTokens jwt cfg now i u e = generateTokens jwt cfg' now i u e)
    /\ secretOrKey cfg = secretOrKey cfg'
    /\ (forall now i u e tokens,
           generateTokens jwt cfg now i u e = Ok tokens ->
           signAsync jwt (at_signAccess now)
                     {| sub := i; jp_username := u; jp_email := e;
                        iat := None; exp := None |}
                     (secretOrKey cfg) (jwtExpiresIn cfg)
           = Ok (Tokens.accessToken tokens)).
Proof.
  intros jwt cfg cfg' H1 H2 H3 H4.
  assert (D : forall a b d, truthy a = truthy b ->
                            or_default a d = or_default b d).
  { intros a b d H. unfold or_default, truthy in *.
    destruct a as [[|c x]|], b as [[|c' y]|]; try discriminate;
      try reflexivity.
    now inversion H. }
  split; [|split].
  - intros now i u e.
    unfold generateTokens, jwtSecret, jwtRefreshSecret, jwtExpiresIn,
      jwtRefreshExpiresIn.
    rewrite (D _ _ _ H1), (D _ _ _ H2), (D _ _ _ H3), (D _ _ _ H4).
    reflexivity.
  - unfold secretOrKey. now rewrite (D _ _ _ H1).
  - intros now i u e tokens H. now apply generateTokens_resolves in H.
Qed.

(** A deployment whose JWT_SECRET is set to the empty string mints the
    tokens of a deployment that sets nothing. *)
Lemma config_empty_is_unset_witness :
  generateTokens PlainCodec.jwt
    (fun key => if (key =? "JWT_SECRET")%string then Some EmptyString
                else None)
    (Sample.at_ 2000) 1 "alice" "a@x.com"
  = generateTokens PlainCodec.jwt no_config (Sample.at_ 2000) 1 "alice"
                   "a@x.com".
Proof.
  apply (config_empty_is_unset PlainCodec.jwt
           (fun key => if (key =? "JWT_SECRET")%string then Some EmptyString
                       else None) no_config); reflexivity.
Defined.

(** ** A password change and the other users *)

Lemma find_token_after_revoke u t (l : list UserTokens.t) row :
  find (Db.has_token t) l = Some row ->
  Db.owned_by u row = false ->
  find (Db.has_token t) (filter (fun x => negb (Db.owned_by u x)) l)
  = Some row.
Proof.
  induction l as [|a l IH]; simpl; intros Hf Ho; [discriminate|].
  destruct (Db.has_token t a) eqn:Et.
  - inversion Hf; subst a. rewrite Ho. simpl. now rewrite Et.
  - destruct (Db.owned_by u a); simpl; [now apply IH|].
    rewrite Et. now apply IH.
Qed.

(** X23.  A password change does not disturb the sessions of the other
    users: a refresh that succeeds before a successful changePassword of
    user u, on a session of another user, succeeds after it as well, with
    the same token pair. *)
Theorem changePassword_spares_other_sessions :
  forall jwt argon2 cfg ts u cur new conf salt s resp s'
         ts2 now2 t row resp2 s2,
    changePassword (Db.prisma ts) argon2 u cur new conf salt s
    = (Ok resp, s') ->
    Db.find_token t s = Some row ->
    UserTokens.userId row <> u ->
    refreshTokens (Db.prisma ts2) jwt cfg now2 t s = (Ok resp2, s2) ->
    exists s3,
      refreshTokens (Db.prisma ts2) jwt cfg now2 t s' = (Ok resp2, s3)
      /\ forall x, In x (Db.userTokens s3) -> UserTokens.userId x <> u.
Proof.
  intros jwt argon2 cfg ts u cur new conf salt s resp s'
         ts2 now2 t row resp2 s2 H Hf Hu Hr.
  rewrite changePassword_unfold in H.
  destruct (negb _); [discriminate|].
  destruct (cur =? new)%string; [discriminate|].
  destruct (Db.find_user_by_id u s) as [user0|]; [|discriminate].
  destruct (verify argon2 _ _); [|discriminate].
  inversion H; subst resp s'; clear H.
  apply refresh_success in Hr.
  destruct Hr as (row' & user & tokens & Hf' & Hexp & Hv & Hfu & Hm & Hresp
                  & _ & Hc).
  rewrite Hf in Hf'. inversion Hf'; subst row'; clear Hf'.
  assert (Ho : Db.owned_by u row = false)
    by (unfold Db.owned_by; now apply Z.eqb_neq).
  set (s' := {| Db.users := _; Db.userTokens := _;
                Db.User_id_seq := _; Db.UserTokens_id_seq := _ |}).
  assert (Hft : Db.find_token t s' = Some row).
  { unfold Db.find_token. subst s'. simpl.
    now apply find_token_after_revoke. }
  assert (Hfu' : Db.find_user_by_id (UserTokens.userId row) s' = Some user).
  { unfold Db.find_user_by_id. subst s'. simpl.
    rewrite find_by_id_map
      by (intros x; destruct (Db.has_id u x); reflexivity).
    unfold Db.find_user_by_id in Hfu. rewrite Hfu. simpl.
    apply find_some in Hfu. destruct Hfu as [_ Hid].
    unfold Db.has_id in *. apply Z.eqb_eq in Hid.
    assert (E : (User.id user =? u) = false)
      by (apply Z.eqb_neq; congruence).
    rewrite E. reflexivity. }
  assert (Hc' : forall x, In x (Db.userTokens s') ->
                  UserTokens.refreshToken x = Tokens.refreshToken tokens ->
                  UserTokens.id x = UserTokens.id row).
  { subst s'. simpl. intros x Hx. apply filter_In in Hx. apply Hc. tauto. }
  rewrite (@refresh_accepted jwt cfg ts2 now2 t s' row user tokens
             Hft Hfu' Hexp Hv Hm Hc').
  eexists. split; [now subst resp2|].
  simpl. intros x Hx. apply in_map_iff in Hx. destruct Hx as (y & Hy & Hin).
  apply filter_In in Hin. destruct Hin as [_ Hn].
  unfold Db.owned_by in Hn. apply negb_true_iff, Z.eqb_neq in Hn.
  destruct (Db.has_row_id _ y); subst x; exact Hn.
Qed.

(** alice changes her password; bob refreshes his session at time 9500. *)
Lemma changePassword_spares_other_sessions_witness :
  exists resp s' resp2 s3,
    changePassword (Db.prisma 9000) PlainHasher.argon2 1 "Abc123!" "Xyz789!"
                   "Xyz789!" "nc" Scenario.two = (Ok resp, s')
    /\ refreshTokens (Db.prisma 9500) PlainCodec.jwt no_config
                     (Sample.at_ 9500) Scenario.t_bob s' = (Ok resp2, s3)
    /\ map UserTokens.userId (Db.userTokens s3) = [2].
Proof.
  destruct (changePassword (Db.prisma 9000) PlainHasher.argon2 1 "Abc123!"
              "Xyz789!" "Xyz789!" "nc" Scenario.two)
    as [[resp|e] s'] eqn:E; [|vm_compute in E; discriminate].
  destruct (refreshTokens (Db.prisma 9500) PlainCodec.jwt no_config
              (Sample.at_ 9500) Scenario.t_bob Scenario.two)
    as [[resp2|e2] s2] eqn:E2; [|vm_compute in E2; discriminate].
  destruct (@changePassword_spares_other_sessions PlainCodec.jwt
              PlainHasher.argon2 no_config 9000 1 "Abc123!" "Xyz789!"
              "Xyz789!" "nc" Scenario.two resp s' 9500 (Sample.at_ 9500)
              Scenario.t_bob
              (nth 1 (Db.userTokens Scenario.two) Sample.session)
              resp2 s2 E ltac:(vm_compute; reflexivity)
              ltac:(vm_compute; discriminate) E2) as (s3 & Hr & _).
  exists resp, s', resp2, s3. split; [reflexivity|]. split; [exact Hr|].
  vm_compute in E. inversion E; subst resp s'.
  vm_compute in E2. inversion E2; subst resp2 s2.
  vm_compute in Hr. inversion Hr. reflexivity.
Defined.
